(** * research-mate frontend: session store, API client, pages and graph renderer

    A shallow embedding of the TypeScript sources under [frontend/]
    ([lib/api.ts], [lib/auth-context.tsx], the page components and
    [components/paper-graph.tsx]) together with the properties the
    specification states about them.

    Conventions of the embedding:
    - a JavaScript string is a [string] holding its UTF-8 bytes;
    - a JavaScript [number] that the code uses as an identifier, an index or
      an SVG coordinate is a [Z] (a [Q] where the code divides);
    - a promise is the value it settles to: [Returns v] when it resolves and
      [Throws e] when it rejects;
    - what the network answers is not decided by this code, so every
      endpoint method takes the behaviour of [fetch] as an argument;
    - React state is passed explicitly; a state setter replaces the
      component state that the next render sees, and a function reads the
      state of the render it was created in;
    - an effect runs after the first render and after every render in
      which one of its dependencies has changed; the effects of a page run
      before those of the provider that encloses it;
    - an asynchronous function is followed from its call to its
      settlement, with nothing else running in between;
    - [localStorage] is a finite map from keys to strings whose reads and
      writes always succeed. *)

From Stdlib Require Import ZArith List String Ascii Bool Lia QArith.
From Stdlib Require Import DecimalString DecimalPos DecimalZ DecimalFacts.
From stdpp Require Import base option gmap strings list.

Set Warnings "-register-all".

Local Open Scope string_scope.
Local Open Scope Z_scope.
Local Open Scope list_scope.

(* ===================================================================== *)
(** ** JavaScript values that cross an [await] or a [throw] *)
(* ===================================================================== *)

(** A thrown value. Every rejection the code can observe is an [Error]
    (the one [request] builds, a [TypeError] of [fetch], a [SyntaxError]
    of [response.json()]); [ThrownOther] stands for any value for which
    [instanceof Error] is false. *)
Inductive Thrown : Type :=
| ThrownError (message : string)
| ThrownOther.

(** The settled value of a promise (or the completion of a call). *)
Inductive Result (T : Type) : Type :=
| Returns (value : T)
| Throws (error : Thrown).
Arguments Returns {T} value.
Arguments Throws {T} error.

(** [error instanceof Error ? error.message : fallback] *)
Definition message_or (error : Thrown) (fallback : string) : string :=
  match error with
  | ThrownError message => message
  | ThrownOther => fallback
  end.

(** The double quote character, [U+0022]. *)
Definition dquote : ascii := ascii_of_N 34.
Definition dquote_s : string := String dquote EmptyString.

(** Decimal rendering of an integral number, as a template literal or
    [JSON.stringify] prints it. *)
Definition Number_toString (n : Z) : string :=
  NilZero.string_of_int (Z.to_int n).

(* ===================================================================== *)
(** ** JSON *)
(* ===================================================================== *)

Module JSON.

(** JSON values. Numbers are the integral ones. *)
Inductive json : Type :=
| JNull
| JBool (b : bool)
| JNumber (n : Z)
| JString (s : string)
| JArray (items : list json)
| JObject (members : list (string * json)).

Definition hex_digit (n : N) : ascii :=
  ascii_of_N (if N.ltb n 10 then 48 + n else 87 + n)%N.

(** [QuoteJSONString] on one character: the short escapes, [\u00xx] for
    the other control characters, everything else unchanged. *)
Definition escape_char (c : ascii) : string :=
  let n := N_of_ascii c in
  if N.eqb n 8 then "\b"
  else if N.eqb n 9 then "\t"
  else if N.eqb n 10 then "\n"
  else if N.eqb n 12 then "\f"
  else if N.eqb n 13 then "\r"
  else if N.eqb n 34 then String "\" dquote_s
  else if N.eqb n 92 then "\\"
  else if N.ltb n 32 then
    "\u00" +:+ String (hex_digit (N.div n 16)) (String (hex_digit (N.modulo n 16)) "")
  else String c "".

Fixpoint escape (s : string) : string :=
  match s with
  | EmptyString => ""
  | String c rest => escape_char c +:+ escape rest
  end.

Definition quote (s : string) : string :=
  dquote_s +:+ escape s +:+ dquote_s.

Fixpoint join_comma (parts : list string) : string :=
  match parts with
  | [] => ""
  | [p] => p
  | p :: rest => p +:+ "," +:+ join_comma rest
  end.

(** [JSON.stringify(value)] without indentation. *)
Fixpoint stringify (v : json) : string :=
  match v with
  | JNull => "null"
  | JBool true => "true"
  | JBool false => "false"
  | JNumber n => Number_toString n
  | JString s => quote s
  | JArray items => "[" +:+ join_comma (map stringify items) +:+ "]"
  | JObject members =>
      "{" +:+ join_comma (map (fun kv => quote (fst kv) +:+ ":" +:+ stringify (snd kv)) members) +:+ "}"
  end.

(** Outcome of reading a prefix of a JSON text. [Unsupported] marks a text
    that leaves this model of JSON values (a numeral with a fraction or an
    exponent, an escaped surrogate); [SyntaxError] is the exception
    [JSON.parse] throws. *)
Inductive parsed (A : Type) : Type :=
| Ok (value : A) (rest : string)
| SyntaxError
| Unsupported.
Arguments Ok {A} value rest.
Arguments SyntaxError {A}.
Arguments Unsupported {A}.

Definition parsed_map {A B} (f : A -> B) (p : parsed A) : parsed B :=
  match p with
  | Ok v rest => Ok (f v) rest
  | SyntaxError => SyntaxError
  | Unsupported => Unsupported
  end.

Definition is_ws (c : ascii) : bool :=
  let n := N_of_ascii c in
  N.eqb n 32 || N.eqb n 9 || N.eqb n 10 || N.eqb n 13.

Fixpoint skip_ws (s : string) : string :=
  match s with
  | String c rest => if is_ws c then skip_ws rest else s
  | EmptyString => s
  end.

Definition hex_value (c : ascii) : option N :=
  let n := N_of_ascii c in
  if N.leb 48 n && N.leb n 57 then Some (n - 48)%N
  else if N.leb 97 n && N.leb n 102 then Some (n - 87)%N
  else if N.leb 65 n && N.leb n 70 then Some (n - 55)%N
  else None.

Definition hex4 (a b c d : ascii) : option N :=
  match hex_value a, hex_value b, hex_value c, hex_value d with
  | Some x, Some y, Some z, Some w => Some (((x * 16 + y) * 16 + z) * 16 + w)%N
  | _, _, _, _ => None
  end.

(** UTF-8 bytes of a code unit given by a [\uXXXX] escape; a surrogate has
    none on its own. *)
Definition utf8_of_code_unit (n : N) : option string :=
  if N.ltb n 128 then Some (String (ascii_of_N n) "")
  else if N.ltb n 2048 then
    Some (String (ascii_of_N (192 + N.div n 64))
         (String (ascii_of_N (128 + N.modulo n 64)) ""))
  else if N.leb 55296 n && N.leb n 57343 then None
  else
    Some (String (ascii_of_N (224 + N.div n 4096))
         (String (ascii_of_N (128 + N.modulo (N.div n 64) 64))
         (String (ascii_of_N (128 + N.modulo n 64)) ""))).

(** The single-character escapes: quote, backslash, slash, b, f, n, r, t. *)
Definition unescape (e : ascii) : option ascii :=
  let n := N_of_ascii e in
  if N.eqb n 34 then Some dquote
  else if N.eqb n 92 then Some "\"%char
  else if N.eqb n 47 then Some "/"%char
  else if N.eqb n 98 then Some (ascii_of_N 8)
  else if N.eqb n 102 then Some (ascii_of_N 12)
  else if N.eqb n 110 then Some (ascii_of_N 10)
  else if N.eqb n 114 then Some (ascii_of_N 13)
  else if N.eqb n 116 then Some (ascii_of_N 9)
  else None.

(** Characters of a string literal, after its opening quote, up to and
    including the closing quote. *)
Fixpoint parse_chars (s : string) : parsed string :=
  match s with
  | EmptyString => SyntaxError
  | String c rest =>
      if Ascii.eqb c dquote then Ok "" rest
      else if Ascii.eqb c "\"%char then
        match rest with
        | EmptyString => SyntaxError
        | String e rest1 =>
            if Ascii.eqb e "u"%char then
              match rest1 with
              | String h1 (String h2 (String h3 (String h4 rest2))) =>
                  match hex4 h1 h2 h3 h4 with
                  | None => SyntaxError
                  | Some n =>
                      match utf8_of_code_unit n with
                      | None => Unsupported
                      | Some bytes => parsed_map (String.append bytes) (parse_chars rest2)
                      end
                  end
              | _ => SyntaxError
              end
            else
              match unescape e with
              | Some d => parsed_map (String d) (parse_chars rest1)
              | None => SyntaxError
              end
        end
      else if N.ltb (N_of_ascii c) 32 then SyntaxError
      else parsed_map (String c) (parse_chars rest)
  end.

Definition digit_of_char (c : ascii) : option (Decimal.uint -> Decimal.uint) :=
  let n := N_of_ascii c in
  if N.eqb n 48 then Some Decimal.D0
  else if N.eqb n 49 then Some Decimal.D1
  else if N.eqb n 50 then Some Decimal.D2
  else if N.eqb n 51 then Some Decimal.D3
  else if N.eqb n 52 then Some Decimal.D4
  else if N.eqb n 53 then Some Decimal.D5
  else if N.eqb n 54 then Some Decimal.D6
  else if N.eqb n 55 then Some Decimal.D7
  else if N.eqb n 56 then Some Decimal.D8
  else if N.eqb n 57 then Some Decimal.D9
  else None.

(** The longest run of decimal digits at the head of [s]. *)
Fixpoint parse_digits (s : string) : Decimal.uint * string :=
  match s with
  | EmptyString => (Decimal.Nil, s)
  | String c rest =>
      match digit_of_char c with
      | Some d => let '(ds, rest') := parse_digits rest in (d ds, rest')
      | None => (Decimal.Nil, s)
      end
  end.

Definition starts_fraction_or_exponent (s : string) : bool :=
  match s with
  | String c _ => Ascii.eqb c "."%char || Ascii.eqb c "e"%char || Ascii.eqb c "E"%char
  | EmptyString => false
  end.

(** An unsigned JSON numeral: [0] or a digit run without a leading zero. *)
Definition parse_unsigned (s : string) : parsed Z :=
  match parse_digits s with
  | (Decimal.Nil, _) => SyntaxError
  | (Decimal.D0 Decimal.Nil, rest) =>
      if starts_fraction_or_exponent rest then Unsupported else Ok 0 rest
  | (Decimal.D0 _, _) => SyntaxError
  | (ds, rest) =>
      if starts_fraction_or_exponent rest then Unsupported else Ok (Z.of_uint ds) rest
  end.

(** A numeral starts with a minus sign or a digit. *)
Definition starts_numeral (c : ascii) : bool :=
  (Ascii.eqb c "-"%char || match digit_of_char c with Some _ => true | None => false end)%bool.

(** What may follow a numeral for it to end there. *)
Definition ends_numeral (rest : string) : bool :=
  match rest with
  | EmptyString => true
  | String c _ =>
      match digit_of_char c with
      | Some _ => false
      | None => negb (starts_fraction_or_exponent rest)
      end
  end.

Definition parse_number (s : string) : parsed Z :=
  match s with
  | String c rest =>
      if Ascii.eqb c "-"%char then parsed_map Z.opp (parse_unsigned rest)
      else parse_unsigned s
  | EmptyString => SyntaxError
  end.

Fixpoint strip_prefix (p s : string) : option string :=
  match p, s with
  | EmptyString, _ => Some s
  | String a p', String b s' => if Ascii.eqb a b then strip_prefix p' s' else None
  | String _ _, EmptyString => None
  end.

Definition parse_literal (word : string) (v : json) (s : string) : parsed json :=
  match strip_prefix word s with
  | Some rest => Ok v rest
  | None => SyntaxError
  end.

(** Property definition on an object under construction: a repeated key
    keeps its place and takes the later value. *)
Fixpoint set_member (k : string) (v : json) (members : list (string * json))
  : list (string * json) :=
  match members with
  | [] => [(k, v)]
  | (k', v') :: rest =>
      if String.eqb k k' then (k, v) :: rest else (k', v') :: set_member k v rest
  end.

(** Values, array elements and object members; [fuel] bounds the number of
    nested calls. [parse_elements] and [parse_members] start after the
    opening bracket of a non-empty array or object. *)
Fixpoint parse_value (fuel : nat) (s : string) : parsed json :=
  match fuel with
  | O => SyntaxError
  | S fuel' =>
      match skip_ws s with
      | EmptyString => SyntaxError
      | String c rest =>
          if Ascii.eqb c dquote then parsed_map JString (parse_chars rest)
          else if Ascii.eqb c "["%char then
            match skip_ws rest with
            | String c' rest' =>
                if Ascii.eqb c' "]"%char then Ok (JArray []) rest'
                else parsed_map JArray (parse_elements fuel' rest)
            | EmptyString => SyntaxError
            end
          else if Ascii.eqb c "{"%char then
            match skip_ws rest with
            | String c' rest' =>
                if Ascii.eqb c' "}"%char then Ok (JObject []) rest'
                else parsed_map JObject (parse_members fuel' [] rest)
            | EmptyString => SyntaxError
            end
          else if Ascii.eqb c "t"%char then parse_literal "true" (JBool true) (String c rest)
          else if Ascii.eqb c "f"%char then parse_literal "false" (JBool false) (String c rest)
          else if Ascii.eqb c "n"%char then parse_literal "null" JNull (String c rest)
          else parsed_map JNumber (parse_number (String c rest))
      end
  end
with parse_elements (fuel : nat) (s : string) : parsed (list json) :=
  match fuel with
  | O => SyntaxError
  | S fuel' =>
      match parse_value fuel' s with
      | Ok v rest =>
          match skip_ws rest with
          | String c rest' =>
              if Ascii.eqb c ","%char then parsed_map (cons v) (parse_elements fuel' rest')
              else if Ascii.eqb c "]"%char then Ok [v] rest'
              else SyntaxError
          | EmptyString => SyntaxError
          end
      | SyntaxError => SyntaxError
      | Unsupported => Unsupported
      end
  end
with parse_members (fuel : nat) (acc : list (string * json)) (s : string)
  : parsed (list (string * json)) :=
  match fuel with
  | O => SyntaxError
  | S fuel' =>
      match skip_ws s with
      | String q rest =>
          if Ascii.eqb q dquote then
            match parse_chars rest with
            | Ok k rest1 =>
                match skip_ws rest1 with
                | String colon rest2 =>
                    if Ascii.eqb colon ":"%char then
                      match parse_value fuel' rest2 with
                      | Ok v rest3 =>
                          match skip_ws rest3 with
                          | String c rest4 =>
                              if Ascii.eqb c ","%char
                              then parse_members fuel' (set_member k v acc) rest4
                              else if Ascii.eqb c "}"%char
                              then Ok (set_member k v acc) rest4
                              else SyntaxError
                          | EmptyString => SyntaxError
                          end
                      | SyntaxError => SyntaxError
                      | Unsupported => Unsupported
                      end
                    else SyntaxError
                | EmptyString => SyntaxError
                end
            | SyntaxError => SyntaxError
            | Unsupported => Unsupported
            end
          else SyntaxError
      | EmptyString => SyntaxError
      end
  end.

(** [JSON.parse(text)]: one value, then only white space. The nesting
    depth of a text is below its length. *)
Definition parse (text : string) : parsed json :=
  match parse_value (2 * String.length text + 2) text with
  | Ok v rest =>
      match skip_ws rest with
      | EmptyString => Ok v ""
      | String _ _ => SyntaxError
      end
  | SyntaxError => SyntaxError
  | Unsupported => Unsupported
  end.

End JSON.

(* ===================================================================== *)
(** ** HTTP and observable effects *)
(* ===================================================================== *)

(** The second argument of [fetch] as [request] builds it: the caller's
    [method] and [body] (absent when the caller gave none) and the merged
    headers object. *)
Record HttpRequest : Type := {
  url : string;
  method : option string;
  headers : gmap string string;
  body : option string;
}.

(** [RequestInit], the options a caller of [request] may give. *)
Record RequestInit : Type := {
  init_method : option string;
  init_headers : option (gmap string string);
  init_body : option string;
}.

(** What the rest of the program and the user can observe of a call. *)
Inductive Effect : Type :=
| Fetch (req : HttpRequest)
| ConsoleError (label : string) (error : Thrown)
| Alert (message : string)
| RouterPush (href : string).

(** A computation with its effects, in the order they happen. *)
Definition IO (A : Type) : Type := (A * list Effect)%type.

Definition is_Fetch (e : Effect) : bool :=
  match e with Fetch _ => true | _ => false end.

(** [interface ApiError]. The [detail] of a body that carries none is
    [None] ([undefined] in the source). *)
Record ApiError : Type := {
  error_type : string;
  error_title : string;
  error_status : Z;
  detail : option string;
}.

(** A [Response] as [request] reads it: its [ok] flag and what
    [response.json()] settles to, at the type the caller reads it. *)
Inductive Response (T : Type) : Type :=
| ResponseOk (json : Result T)
| ResponseNotOk (json : Result ApiError).
Arguments ResponseOk {T} json.
Arguments ResponseNotOk {T} json.

Definition ok {T} (response : Response T) : bool :=
  match response with
  | ResponseOk _ => true
  | ResponseNotOk _ => false
  end.

(** The behaviour of [fetch] for calls read at type [T]: the promise it
    returns resolves to a response or rejects. *)
Definition FetchFn (T : Type) : Type := HttpRequest -> Result (Response T).

(** [s || fallback] on an optional string: [undefined] and the empty
    string are falsy. *)
Definition or_else (s : option string) (fallback : string) : string :=
  match s with
  | Some (String c rest) => String c rest
  | Some EmptyString => fallback
  | None => fallback
  end.

(* ===================================================================== *)
(** ** Data exchanged with the backend *)
(* ===================================================================== *)

(** [interface User] of the session store. *)
Module User.
Record t : Type := mk { id : Z; username : string; interest : string; level : string }.
End User.

(** [interface Node] and [interface Edge] of the graph renderer; the
    relations endpoint answers with the same shapes. *)
Module Node.
Inductive kind : Type := recommended | common_reference.
#[global] Instance kind_eq_dec : EqDecision kind.
Proof. solve_decision. Defined.
Record t : Type := mk { id : Z; title : string; type : kind }.
End Node.

Module Edge.
Inductive kind : Type := cites.
Record t : Type := mk { source : Z; target : Z; type : kind; is_influential : bool }.
End Edge.

Module CalendarEventRequest.
Record t : Type := mk { event_date : string }.
End CalendarEventRequest.

Module EventSummary.
Record t : Type := mk { title : string; date : string; time : string }.
End EventSummary.

Module CalendarEventResponse.
Record t : Type := mk {
  success : bool; message : string; result : JSON.json; event_summary : EventSummary.t }.
End CalendarEventResponse.

Module RegisterResponse.
Record t : Type := mk {
  user_id : Z; username : string; interest : string; level : string; created_at : string }.
End RegisterResponse.

Module LoginResponse.
Record t : Type := mk { user_id : Z; username : string; interest : string; level : string }.
End LoginResponse.

Module Advice.
Inductive kind : Type := interest_change | level_change | none.
Record t : Type := mk {
  advice_type : kind;
  current_interest : option string;
  suggested_interest : option string;
  current_level : option string;
  suggested_level : option string;
  reason : option string;
  message : option string;
  comprehension_score : option Q;
}.
End Advice.

Module AcceptInterestResponse.
Record t : Type := mk { user_id : Z; updated_interest : string; message : string }.
End AcceptInterestResponse.

Module AcceptLevelResponse.
Record t : Type := mk { user_id : Z; updated_level : string; message : string }.
End AcceptLevelResponse.

Module Paper.
Record t : Type := mk {
  paper_id : Z;
  title : string;
  authors : list string;
  recommended_at : string;
  is_user_requested : bool;
}.
End Paper.

Module TodayRecommendations.
Record t : Type := mk { date : string; papers : list Paper.t; total_count : Z }.
End TodayRecommendations.

Module Relations.
Record graph_t : Type := mk_graph { nodes : list Node.t; edges : list Edge.t }.
Record common_reference_t : Type := mk_common_reference {
  paper_id : Z; title : string; cited_by_count : Z; suggestion : string }.
Record cluster_t : Type := mk_cluster { theme : string; papers : list Z }.
Record analysis_t : Type := mk_analysis {
  common_references : list common_reference_t; clusters : list cluster_t }.
Record t : Type := mk { date : string; graph : graph_t; analysis : analysis_t }.
End Relations.

Module RequestPaperResponse.
Record t : Type := mk { message : string; paper_id : Z; title : string; scheduled_date : string }.
End RequestPaperResponse.

Module PapersHistory.
Record t : Type := mk { papers : list Paper.t; total_count : Z }.
End PapersHistory.

Module PaperDetail.
Record summary_t : Type := mk_summary { level : string; content : string }.
Record metadata_t : Type := mk_metadata {
  citation_count : Z;
  citation_velocity : Q;
  influential_citation_count : Z;
  keywords : list string;
}.
Record chat_t : Type := mk_chat {
  chat_id : Z; question : string; answer : string; created_at : string }.
Record t : Type := mk {
  paper_id : Z;
  title : string;
  authors : list string;
  published_date : string;
  source : string;
  arxiv_id : string;
  pdf_url : string;
  abstract : string;
  summary : summary_t;
  metadata : metadata_t;
  chat_history : list chat_t;
}.
End PaperDetail.

Module ProfileData.
Record t : Type := mk { interest : string; level : string }.
End ProfileData.

Module UpdateProfileResponse.
Record t : Type := mk { message : string; user : LoginResponse.t }.
End UpdateProfileResponse.

Module ShareResponse.
Record t : Type := mk { success : bool; message : string; result : JSON.json }.
End ShareResponse.

Module AddPaperResponse.
Record t : Type := mk { message : string }.
End AddPaperResponse.

Module ChatResponse.
Record previous_chat_t : Type := mk_previous_chat { prev_question : string; prev_answer : string }.
Record t : Type := mk {
  chat_id : Z;
  paper_id : Z;
  question : string;
  answer : string;
  created_at : string;
  previous_chats : list previous_chat_t;
}.
End ChatResponse.

(* ===================================================================== *)
(** ** [lib/api.ts]: the API client *)
(* ===================================================================== *)

Module ApiClient.
Section WithBaseUrl.

(** [process.env.NEXT_PUBLIC_API_BASE_URL || ""] *)
Variable API_BASE_URL : string.

Definition json_headers : gmap string string :=
  {[ "Content-Type" := "application/json" ]}.

(** [{ "Content-Type": "application/json", ...options.headers }] *)
Definition merge_headers (given : option (gmap string string)) : gmap string string :=
  match given with
  | Some h => h ∪ json_headers
  | None => json_headers
  end.

Definition no_options : RequestInit :=
  {| init_method := None; init_headers := None; init_body := None |}.

Definition post (payload : JSON.json) : RequestInit :=
  {| init_method := Some "POST"; init_headers := None;
     init_body := Some (JSON.stringify payload) |}.

(** [private async request<T>(endpoint, options = {})] *)
Definition request {T : Type} (fetch : FetchFn T) (endpoint : string) (options : RequestInit)
  : IO (Result T) :=
  let url := API_BASE_URL +:+ endpoint in
  let req := {| url := url;
                method := init_method options;
                headers := merge_headers (init_headers options);
                body := init_body options |} in
  (match fetch req with
   | Throws e => Throws e
   | Returns (ResponseNotOk json) =>
       match json with
       | Returns error =>
           Throws (ThrownError (or_else (detail error) "API 요청이 실패했습니다."))
       | Throws e => Throws e
       end
   | Returns (ResponseOk json) => json
   end, [Fetch req]).

Definition addToCalendar (fetch : FetchFn CalendarEventResponse.t)
    (req : CalendarEventRequest.t) : IO (Result CalendarEventResponse.t) :=
  request fetch "/add-to-calendar"
    (post (JSON.JObject [("event_date", JSON.JString (CalendarEventRequest.event_date req))])).

Definition register (fetch : FetchFn RegisterResponse.t)
    (username password interest level : string) : IO (Result RegisterResponse.t) :=
  request fetch "/auth/register"
    (post (JSON.JObject [("username", JSON.JString username);
                         ("password", JSON.JString password);
                         ("interest", JSON.JString interest);
                         ("level", JSON.JString level)])).

Definition login (fetch : FetchFn LoginResponse.t) (username password : string)
  : IO (Result LoginResponse.t) :=
  request fetch "/auth/login"
    (post (JSON.JObject [("username", JSON.JString username);
                         ("password", JSON.JString password)])).

Definition getAdvice (fetch : FetchFn Advice.t) (userId : Z) : IO (Result Advice.t) :=
  request fetch ("/" +:+ Number_toString userId +:+ "/advice") no_options.

Definition acceptInterestChange (fetch : FetchFn AcceptInterestResponse.t)
    (userId : Z) (newInterest : string) : IO (Result AcceptInterestResponse.t) :=
  request fetch ("/" +:+ Number_toString userId +:+ "/advice/accept-interest")
    (post (JSON.JObject [("new_interest", JSON.JString newInterest)])).

Definition acceptLevelChange (fetch : FetchFn AcceptLevelResponse.t)
    (userId : Z) (newLevel : string) : IO (Result AcceptLevelResponse.t) :=
  request fetch ("/" +:+ Number_toString userId +:+ "/advice/accept-level")
    (post (JSON.JObject [("new_level", JSON.JString newLevel)])).

Definition getTodayRecommendations (fetch : FetchFn TodayRecommendations.t) (userId : Z)
  : IO (Result TodayRecommendations.t) :=
  request fetch ("/" +:+ Number_toString userId +:+ "/recommendations/today") no_options.

Definition getTodayRecommendationsRelations (fetch : FetchFn Relations.t) (userId : Z)
  : IO (Result Relations.t) :=
  request fetch ("/" +:+ Number_toString userId +:+ "/recommendations/today/relations1")
    no_options.

Definition requestPaper (fetch : FetchFn RequestPaperResponse.t)
    (userId paperId : Z) (reason : string) : IO (Result RequestPaperResponse.t) :=
  request fetch ("/" +:+ Number_toString userId +:+ "/recommendations/request-paper1")
    (post (JSON.JObject [("paper_id", JSON.JNumber paperId);
                         ("reason", JSON.JString reason)])).

Definition getPapersHistory (fetch : FetchFn PapersHistory.t) (userId : Z)
  : IO (Result PapersHistory.t) :=
  request fetch ("/" +:+ Number_toString userId +:+ "/papers/history") no_options.

Definition getPaperDetail (fetch : FetchFn PaperDetail.t) (paperId userId : Z)
  : IO (Result PaperDetail.t) :=
  request fetch ("/papers/" +:+ Number_toString paperId +:+ "/" +:+ Number_toString userId)
    no_options.

Definition updateProfile (fetch : FetchFn UpdateProfileResponse.t)
    (userId : Z) (data : ProfileData.t) : IO (Result UpdateProfileResponse.t) :=
  request fetch ("/users/" +:+ Number_toString userId)
    {| init_method := Some "PUT"; init_headers := None;
       init_body := Some (JSON.stringify
         (JSON.JObject [("interest", JSON.JString (ProfileData.interest data));
                        ("level", JSON.JString (ProfileData.level data))])) |}.

(** [string | null] as a JSON value *)
Definition nullable (s : option string) : JSON.json :=
  match s with
  | Some x => JSON.JString x
  | None => JSON.JNull
  end.

Definition sharePaperToKakao (fetch : FetchFn ShareResponse.t)
    (paperId : Z) (paperTitle : string) (pdfUrl aiSummary : option string)
  : IO (Result ShareResponse.t) :=
  request fetch ("/papers/" +:+ Number_toString paperId +:+ "/share-kakao")
    (post (JSON.JObject [("paper_title", JSON.JString paperTitle);
                         ("pdf_url", nullable pdfUrl);
                         ("ai_summary", nullable aiSummary)])).

Definition addPaperByArxivId (fetch : FetchFn AddPaperResponse.t)
    (arxivId : string) (userId : Z) : IO (Result AddPaperResponse.t) :=
  request fetch "/papers/add"
    {| init_method := Some "POST";
       init_headers := Some {[ "Content-Type" := "application/json" ]};
       init_body := Some (JSON.stringify
         (JSON.JObject [("arxiv_id", JSON.JString arxivId);
                        ("user_id", JSON.JNumber 3)])) |}.

Definition chatWithPaper (fetch : FetchFn ChatResponse.t)
    (paperId userId : Z) (question : string) : IO (Result ChatResponse.t) :=
  request fetch ("/papers/" +:+ Number_toString paperId +:+ "/chat")
    (post (JSON.JObject [("user_id", JSON.JNumber userId);
                         ("question", JSON.JString question)])).

(** The endpoint methods of the client, each with its arguments, indexed
    by the type its response is read at. *)
Inductive Call : Type -> Type :=
| AddToCalendar (req : CalendarEventRequest.t) : Call CalendarEventResponse.t
| Register (username password interest level : string) : Call RegisterResponse.t
| Login (username password : string) : Call LoginResponse.t
| GetAdvice (userId : Z) : Call Advice.t
| AcceptInterestChange (userId : Z) (newInterest : string) : Call AcceptInterestResponse.t
| AcceptLevelChange (userId : Z) (newLevel : string) : Call AcceptLevelResponse.t
| GetTodayRecommendations (userId : Z) : Call TodayRecommendations.t
| GetTodayRecommendationsRelations (userId : Z) : Call Relations.t
| RequestPaper (userId paperId : Z) (reason : string) : Call RequestPaperResponse.t
| GetPapersHistory (userId : Z) : Call PapersHistory.t
| GetPaperDetail (paperId userId : Z) : Call PaperDetail.t
| UpdateProfile (userId : Z) (data : ProfileData.t) : Call UpdateProfileResponse.t
| SharePaperToKakao (paperId : Z) (paperTitle : string) (pdfUrl aiSummary : option string)
    : Call ShareResponse.t
| AddPaperByArxivId (arxivId : string) (userId : Z) : Call AddPaperResponse.t
| ChatWithPaper (paperId userId : Z) (question : string) : Call ChatResponse.t.

(** Invoking a method of the client. *)
Definition invoke {T : Type} (c : Call T) : FetchFn T -> IO (Result T) :=
  match c in Call T return FetchFn T -> IO (Result T) with
  | AddToCalendar req => fun fetch => addToCalendar fetch req
  | Register username password interest level =>
      fun fetch => register fetch username password interest level
  | Login username password => fun fetch => login fetch username password
  | GetAdvice userId => fun fetch => getAdvice fetch userId
  | AcceptInterestChange userId newInterest =>
      fun fetch => acceptInterestChange fetch userId newInterest
  | AcceptLevelChange userId newLevel => fun fetch => acceptLevelChange fetch userId newLevel
  | GetTodayRecommendations userId => fun fetch => getTodayRecommendations fetch userId
  | GetTodayRecommendationsRelations userId =>
      fun fetch => getTodayRecommendationsRelations fetch userId
  | RequestPaper userId paperId reason => fun fetch => requestPaper fetch userId paperId reason
  | GetPapersHistory userId => fun fetch => getPapersHistory fetch userId
  | GetPaperDetail paperId userId => fun fetch => getPaperDetail fetch paperId userId
  | UpdateProfile userId data => fun fetch => updateProfile fetch userId data
  | SharePaperToKakao paperId paperTitle pdfUrl aiSummary =>
      fun fetch => sharePaperToKakao fetch paperId paperTitle pdfUrl aiSummary
  | AddPaperByArxivId arxivId userId => fun fetch => addPaperByArxivId fetch arxivId userId
  | ChatWithPaper paperId userId question =>
      fun fetch => chatWithPaper fetch paperId userId question
  end.

End WithBaseUrl.
End ApiClient.

(** The [detail] that a response which is not ok carries: that of its
    JSON error body, and none when the body cannot be read as JSON. *)
Definition detail_of (json : Result ApiError) : option string :=
  match json with
  | Returns error => detail error
  | Throws _ => None
  end.

(** The error surfacing in the words of the specification, as a relation
    between the response [fetch] resolved to and what the method settles
    to: an ok response returns its parsed body; a response that is not ok
    throws an [Error] whose message is the [detail] of the JSON error body,
    or the fixed message when [detail] is absent or empty. *)
Inductive surfaces_as_specified {T : Type} : Response T -> Result T -> Prop :=
| specified_body (body : T) :
    surfaces_as_specified (ResponseOk (Returns body)) (Returns body)
| specified_error (json : Result ApiError) :
    surfaces_as_specified (ResponseNotOk json)
      (Throws (ThrownError (or_else (detail_of json) "API 요청이 실패했습니다."))).

(** A response whose body [response.json()] reads. *)
Definition readable {T : Type} (response : Response T) : Prop :=
  match response with
  | ResponseOk (Returns _) | ResponseNotOk (Returns _) => True
  | _ => False
  end.

(** The error surfacing of [request], as a relation between what [fetch]
    settles to and what the method settles to: the parsed body of an ok
    response is returned; a response that is not ok throws an [Error] whose
    message is the [detail] of the error body, or the fixed message when
    [detail] is absent or empty; a rejection of [fetch] or of
    [response.json()] is passed on as it is. *)
Inductive surfaces {T : Type} : Result (Response T) -> Result T -> Prop :=
| surfaces_body (body : T) :
    surfaces (Returns (ResponseOk (Returns body))) (Returns body)
| surfaces_detail (error : ApiError) (d : string) :
    detail error = Some d -> d <> "" ->
    surfaces (Returns (ResponseNotOk (Returns error))) (Throws (ThrownError d))
| surfaces_fallback (error : ApiError) :
    detail error = None \/ detail error = Some "" ->
    surfaces (Returns (ResponseNotOk (Returns error)))
             (Throws (ThrownError "API 요청이 실패했습니다."))
| surfaces_unreadable (response : Response T) (e : Thrown) :
    response = ResponseOk (Throws e) \/ response = ResponseNotOk (Throws e) ->
    surfaces (Returns response) (Throws e)
| surfaces_unreachable (e : Thrown) :
    surfaces (Throws e) (Throws e).

(* ===================================================================== *)
(** ** [lib/auth-context.tsx]: the session store *)
(* ===================================================================== *)

Module AuthProvider.

(** The [user] state of the provider and the browser's [localStorage]. *)
Record Session : Type := {
  user : option User.t;
  localStorage : gmap string string;
}.

Definition setUser (u : option User.t) (s : Session) : Session :=
  {| user := u; localStorage := localStorage s |}.

Definition setItem (key value : string) (s : Session) : Session :=
  {| user := user s; localStorage := <[ key := value ]> (localStorage s) |}.

Definition removeItem (key : string) (s : Session) : Session :=
  {| user := user s; localStorage := delete key (localStorage s) |}.

Definition getItem (key : string) (s : Session) : option string :=
  localStorage s !! key.

(** The object a [User] is, property by property in creation order. *)
Definition User_to_json (u : User.t) : JSON.json :=
  JSON.JObject [("id", JSON.JNumber (User.id u));
                ("username", JSON.JString (User.username u));
                ("interest", JSON.JString (User.interest u));
                ("level", JSON.JString (User.level u))].

(** Reading a parsed value at type [User]: the values that are a [User]
    and nothing more. *)
Definition User_of_json (v : JSON.json) : option User.t :=
  match v with
  | JSON.JObject [("id", JSON.JNumber i); ("username", JSON.JString n);
                  ("interest", JSON.JString t); ("level", JSON.JString l)] =>
      Some (User.mk i n t l)
  | _ => None
  end.

(** How the mount effect ends. [Restored s] is a normal completion in
    session [s]; [ParseThrows] is [JSON.parse] throwing out of the effect;
    [Untyped] is a stored value that parses to something the [User] type
    does not describe, which this model does not follow further. *)
Inductive Mount : Type :=
| Restored (s : Session)
| ParseThrows
| Untyped.

(** The [useEffect] of the provider, run once after the first render. *)
Definition useEffect (s : Session) : Mount :=
  match getItem "user" s with
  | None => Restored s
  | Some EmptyString => Restored s
  | Some storedUser =>
      match JSON.parse storedUser with
      | JSON.Ok JSON.JNull _ => Restored (setUser None s)
      | JSON.Ok v _ =>
          match User_of_json v with
          | Some u => Restored (setUser (Some u) s)
          | None => Untyped
          end
      | JSON.SyntaxError => ParseThrows
      | JSON.Unsupported => Untyped
      end
  end.

Section WithBaseUrl.
Variable API_BASE_URL : string.

Definition signup (fetch : FetchFn RegisterResponse.t)
    (username password interest level : string) (s : Session) : IO (bool * Session) :=
  let '(r, log) := ApiClient.register API_BASE_URL fetch username password interest level in
  match r with
  | Returns response =>
      let newUser := {| User.id := RegisterResponse.user_id response;
                        User.username := RegisterResponse.username response;
                        User.interest := RegisterResponse.interest response;
                        User.level := RegisterResponse.level response |} in
      let s := setUser (Some newUser) s in
      let s := setItem "user" (JSON.stringify (User_to_json newUser)) s in
      ((true, s), log)
  | Throws error =>
      ((false, s),
       log ++ [ConsoleError "Signup failed:" error;
               Alert (message_or error "회원가입에 실패했습니다.")])
  end.

Definition login (fetch : FetchFn LoginResponse.t) (username password : string) (s : Session)
  : IO (bool * Session) :=
  let '(r, log) := ApiClient.login API_BASE_URL fetch username password in
  match r with
  | Returns response =>
      let loggedInUser := {| User.id := LoginResponse.user_id response;
                             User.username := LoginResponse.username response;
                             User.interest := LoginResponse.interest response;
                             User.level := LoginResponse.level response |} in
      let s := setUser (Some loggedInUser) s in
      let s := setItem "user" (JSON.stringify (User_to_json loggedInUser)) s in
      ((true, s), log)
  | Throws error =>
      ((false, s),
       log ++ [ConsoleError "Login failed:" error;
               Alert (message_or error "로그인에 실패했습니다.")])
  end.

Definition logout (s : Session) : Session :=
  let s := setUser None s in
  removeItem "user" s.

Definition updateInterest (interest : string) (s : Session) : Session :=
  match user s with
  | Some u =>
      let updatedUser := {| User.id := User.id u; User.username := User.username u;
                            User.interest := interest; User.level := User.level u |} in
      let s := setUser (Some updatedUser) s in
      setItem "user" (JSON.stringify (User_to_json updatedUser)) s
  | None => s
  end.

Definition updateLevel (level : string) (s : Session) : Session :=
  match user s with
  | Some u =>
      let updatedUser := {| User.id := User.id u; User.username := User.username u;
                            User.interest := User.interest u; User.level := level |} in
      let s := setUser (Some updatedUser) s in
      setItem "user" (JSON.stringify (User_to_json updatedUser)) s
  | None => s
  end.

Definition updateProfile (fetch : FetchFn UpdateProfileResponse.t)
    (interest level : string) (s : Session) : IO (bool * Session) :=
  match user s with
  | None => ((false, s), [])
  | Some u =>
      let '(r, log) :=
        ApiClient.updateProfile API_BASE_URL fetch (User.id u)
          {| ProfileData.interest := interest; ProfileData.level := level |} in
      match r with
      | Returns response =>
          let updatedUser := {| User.id := User.id u; User.username := User.username u;
                                User.interest := interest; User.level := level |} in
          let s := setUser (Some updatedUser) s in
          let s := setItem "user" (JSON.stringify (User_to_json updatedUser)) s in
          ((true, s), log)
      | Throws error =>
          ((false, s),
           log ++ [ConsoleError "Profile update failed:" error;
                   Alert (message_or error "프로필 업데이트에 실패했습니다.")])
      end
  end.

(** The operations of the store as values, each with what the network
    answers to the call it makes. *)
Inductive Operation : Type :=
| OpSignup (fetch : FetchFn RegisterResponse.t) (username password interest level : string)
| OpLogin (fetch : FetchFn LoginResponse.t) (username password : string)
| OpLogout
| OpUpdateInterest (interest : string)
| OpUpdateLevel (level : string)
| OpUpdateProfile (fetch : FetchFn UpdateProfileResponse.t) (interest level : string).

Definition run (op : Operation) (s : Session) : Session :=
  match op with
  | OpSignup fetch username password interest level =>
      snd (fst (signup fetch username password interest level s))
  | OpLogin fetch username password => snd (fst (login fetch username password s))
  | OpLogout => logout s
  | OpUpdateInterest interest => updateInterest interest s
  | OpUpdateLevel level => updateLevel level s
  | OpUpdateProfile fetch interest level => snd (fst (updateProfile fetch interest level s))
  end.

(** A sequence of operations, one after the other. *)
Definition run_all (ops : list Operation) (s : Session) : Session :=
  fold_left (fun s op => run op s) ops s.

End WithBaseUrl.

(** [updateInterest] and [updateLevel] as a render of the provider hands
    them out: they are created anew in every render and build the new user
    from [rendered], the [user] of that render. Above, each is called from
    a render that has seen the user the store holds. *)
Definition updateInterest_of (rendered : option User.t) (interest : string) (s : Session)
  : Session :=
  match rendered with
  | Some u =>
      let updatedUser := {| User.id := User.id u; User.username := User.username u;
                            User.interest := interest; User.level := User.level u |} in
      let s := setUser (Some updatedUser) s in
      setItem "user" (JSON.stringify (User_to_json updatedUser)) s
  | None => s
  end.

Definition updateLevel_of (rendered : option User.t) (level : string) (s : Session)
  : Session :=
  match rendered with
  | Some u =>
      let updatedUser := {| User.id := User.id u; User.username := User.username u;
                            User.interest := User.interest u; User.level := level |} in
      let s := setUser (Some updatedUser) s in
      setItem "user" (JSON.stringify (User_to_json updatedUser)) s
  | None => s
  end.

(** The entry under key "user" agrees with the in-memory user. *)
Definition consistent (s : Session) : Prop :=
  match user s with
  | Some u => getItem "user" s = Some (JSON.stringify (User_to_json u))
  | None => getItem "user" s = None
  end.

(** The entry under key "user", when there is one, was written by this
    store. *)
Definition written_by_store (s : Session) : Prop :=
  match getItem "user" s with
  | Some text => exists u, text = JSON.stringify (User_to_json u)
  | None => True
  end.

End AuthProvider.

(* ===================================================================== *)
(** ** String helpers of the pages *)
(* ===================================================================== *)

(** [!input.trim()]: the string consists of white space and line
    terminators only (read off the UTF-8 bytes). *)
Fixpoint all_whitespace (s : string) : bool :=
  match s with
  | EmptyString => true
  | String b0 rest =>
      let n0 := N_of_ascii b0 in
      if (N.eqb n0 32 || (N.leb 9 n0 && N.leb n0 13))%bool then all_whitespace rest
      else
        match rest with
        | String b1 rest1 =>
            let n1 := N_of_ascii b1 in
            if (N.eqb n0 194 && N.eqb n1 160)%bool then all_whitespace rest1
            else
              match rest1 with
              | String b2 rest2 =>
                  let n2 := N_of_ascii b2 in
                  if ((N.eqb n0 225 && N.eqb n1 154 && N.eqb n2 128)
                      || (N.eqb n0 226 && N.eqb n1 128
                          && ((N.leb 128 n2 && N.leb n2 138)
                              || N.eqb n2 168 || N.eqb n2 169 || N.eqb n2 175))
                      || (N.eqb n0 226 && N.eqb n1 129 && N.eqb n2 159)
                      || (N.eqb n0 227 && N.eqb n1 128 && N.eqb n2 128)
                      || (N.eqb n0 239 && N.eqb n1 187 && N.eqb n2 191))%bool
                  then all_whitespace rest2
                  else false
              | EmptyString => false
              end
        | EmptyString => false
        end
  end.

(** Truthiness of a [string | null] state and what [{error && ...}] shows. *)
Definition truthy (s : option string) : bool :=
  match s with
  | Some (String _ _) => true
  | Some EmptyString => false
  | None => false
  end.

Definition shown (s : option string) : option string :=
  if truthy s then s else None.

(** [level === "beginner" ? "초급" : level === "intermediate" ? "중급" : "고급"] *)
Definition level_label (level : string) : string :=
  if String.eqb level "beginner" then "초급"
  else if String.eqb level "intermediate" then "중급"
  else "고급".

(* ===================================================================== *)
(** ** [app/page.tsx]: the home page *)
(* ===================================================================== *)

Module HomePage.

Record State : Type := {
  advice : option Advice.t;
  isLoading : bool;
  error : option string;
  isAddingToCalendar : bool;
  arxivId : string;
  isAddingPaper : bool;
}.

Definition initial : State :=
  {| advice := None; isLoading := true; error := None;
     isAddingToCalendar := false; arxivId := ""; isAddingPaper := false |}.

Section WithBaseUrl.
Variable API_BASE_URL : string.
Variable fetch : FetchFn Advice.t.

Definition fetchAdvice (user : option User.t) (st : State) : IO State :=
  match user with
  | None => (st, [])
  | Some u =>
      let '(r, log) := ApiClient.getAdvice API_BASE_URL fetch (User.id u) in
      match r with
      | Returns adviceData =>
          ({| advice := Some adviceData; isLoading := false; error := None;
              isAddingToCalendar := isAddingToCalendar st; arxivId := arxivId st;
              isAddingPaper := isAddingPaper st |}, log)
      | Throws e =>
          ({| advice := advice st; isLoading := false;
              error := Some "조언을 불러오는데 실패했습니다.";
              isAddingToCalendar := isAddingToCalendar st; arxivId := arxivId st;
              isAddingPaper := isAddingPaper st |},
           log ++ [ConsoleError "Failed to fetch advice:" e])
      end
  end.

Definition useEffect (user : option User.t) (st : State) : IO State :=
  match user with
  | None => (st, [RouterPush "/login"])
  | Some _ => fetchAdvice user st
  end.

End WithBaseUrl.

(** What the page shows of its state: the loading card, the error card
    and the advice or message card. *)
Record View : Type := {
  loadingCard : bool;
  errorCard : option string;
  adviceCard : option Advice.t;
  summary : string * string;
}.

Definition render (user : option User.t) (st : State) : option View :=
  match user with
  | None => None
  | Some u =>
      Some {| loadingCard := isLoading st;
              errorCard := shown (error st);
              adviceCard :=
                if (negb (isLoading st) && negb (truthy (error st)))%bool
                then advice st else None;
              summary := (User.interest u, level_label (User.level u)) |}
  end.

Definition setArxivId (text : string) (st : State) : State :=
  {| advice := advice st; isLoading := isLoading st; error := error st;
     isAddingToCalendar := isAddingToCalendar st; arxivId := text;
     isAddingPaper := isAddingPaper st |}.

Definition setIsAddingPaper (b : bool) (st : State) : State :=
  {| advice := advice st; isLoading := isLoading st; error := error st;
     isAddingToCalendar := isAddingToCalendar st; arxivId := arxivId st;
     isAddingPaper := b |}.

Section Handlers.
Variable API_BASE_URL : string.

(** [handleAddPaper] *)
Definition handleAddPaper (fetch : FetchFn AddPaperResponse.t) (user : option User.t)
    (st : State) : IO State :=
  match user with
  | None => (st, [])
  | Some u =>
      if all_whitespace (arxivId st)
      then (st, [Alert "arXiv ID를 입력해주세요."])
      else
        let '(r, log) :=
          ApiClient.addPaperByArxivId API_BASE_URL fetch (arxivId st) (User.id u) in
        match r with
        | Returns response =>
            (setIsAddingPaper false (setArxivId "" (setIsAddingPaper true st)),
             log ++ [Alert (AddPaperResponse.message response)])
        | Throws e =>
            (setIsAddingPaper false (setIsAddingPaper true st),
             log ++ [ConsoleError "Failed to add paper:" e; Alert "논문 추가에 실패했습니다."])
        end
  end.

(** [handleChangeInterest], a function of the renders that have a user
    [u]; [s] is the session store it reaches through [updateInterest]. The
    [fetchAdvice()] it starts is followed to its settlement. *)
Definition handleChangeInterest (fetchAccept : FetchFn AcceptInterestResponse.t)
    (fetchAdv : FetchFn Advice.t) (u : User.t) (st : State) (s : AuthProvider.Session)
  : IO (State * AuthProvider.Session) :=
  match advice st with
  | Some a =>
      match Advice.advice_type a, Advice.suggested_interest a with
      | Advice.interest_change, Some (String c rest) =>
          let suggested := String c rest in
          let '(r, log) :=
            ApiClient.acceptInterestChange API_BASE_URL fetchAccept (User.id u) suggested in
          match r with
          | Returns _ =>
              let s' := AuthProvider.updateInterest suggested s in
              let '(st', log') := fetchAdvice API_BASE_URL fetchAdv (Some u) st in
              ((st', s'), log ++ [Alert "관심 분야가 변경되었습니다."] ++ log')
          | Throws e =>
              ((st, s),
               log ++ [ConsoleError "Failed to change interest:" e;
                       Alert "관심 분야 변경에 실패했습니다."])
          end
      | _, _ => ((st, s), [])
      end
  | None => ((st, s), [])
  end.

(** [handleChangeLevel] *)
Definition handleChangeLevel (fetchAccept : FetchFn AcceptLevelResponse.t)
    (fetchAdv : FetchFn Advice.t) (u : User.t) (st : State) (s : AuthProvider.Session)
  : IO (State * AuthProvider.Session) :=
  match advice st with
  | Some a =>
      match Advice.advice_type a, Advice.suggested_level a with
      | Advice.level_change, Some (String c rest) =>
          let suggested := String c rest in
          let '(r, log) :=
            ApiClient.acceptLevelChange API_BASE_URL fetchAccept (User.id u) suggested in
          match r with
          | Returns _ =>
              let s' := AuthProvider.updateLevel suggested s in
              let '(st', log') := fetchAdvice API_BASE_URL fetchAdv (Some u) st in
              ((st', s'), log ++ [Alert "난이도가 변경되었습니다."] ++ log')
          | Throws e =>
              ((st, s),
               log ++ [ConsoleError "Failed to change level:" e;
                       Alert "난이도 변경에 실패했습니다."])
          end
      | _, _ => ((st, s), [])
      end
  | None => ((st, s), [])
  end.

End Handlers.

End HomePage.

(* ===================================================================== *)
(** ** [app/recommendations/page.tsx] *)
(* ===================================================================== *)

Module RecommendationsPage.

Record State : Type := {
  papers : list Paper.t;
  isLoading : bool;
  error : option string;
}.

Definition initial : State := {| papers := []; isLoading := true; error := None |}.

Section WithBaseUrl.
Variable API_BASE_URL : string.
Variable fetch : FetchFn TodayRecommendations.t.

Definition fetchRecommendations (user : option User.t) (st : State) : IO State :=
  match user with
  | None => (st, [])
  | Some u =>
      let '(r, log) := ApiClient.getTodayRecommendations API_BASE_URL fetch (User.id u) in
      match r with
      | Returns data =>
          ({| papers := take 3 (TodayRecommendations.papers data);
              isLoading := false; error := None |}, log)
      | Throws e =>
          ({| papers := papers st; isLoading := false;
              error := Some "추천 논문을 불러오는데 실패했습니다." |},
           log ++ [ConsoleError "Failed to fetch recommendations:" e])
      end
  end.

Definition useEffect (user : option User.t) (st : State) : IO State :=
  match user with
  | None => (st, [RouterPush "/login"])
  | Some _ => fetchRecommendations user st
  end.

End WithBaseUrl.


(** [const todayPapers = papers.slice(0, 3)] *)
Definition todayPapers (st : State) : list Paper.t := take 3 (papers st).

(** One card of the list: the paper it shows, its number ([index + 1])
    and the two badges. *)
Record PaperCard : Type := {
  paper : Paper.t;
  number : Z;
  interestBadge : string;
  levelBadge : string;
}.

Record View : Type := {
  loadingShown : bool;
  errorShown : option string;
  cards : list PaperCard;
}.

Definition render (user : option User.t) (st : State) : option View :=
  match user with
  | None => None
  | Some u =>
      Some {| loadingShown := isLoading st;
              errorShown := shown (error st);
              cards :=
                if (negb (isLoading st) && negb (truthy (error st)))%bool
                then imap (fun index p =>
                             {| paper := p; number := Z.of_nat index + 1;
                                interestBadge := User.interest u;
                                levelBadge := level_label (User.level u) |})
                          (todayPapers st)
                else [] |}
  end.

End RecommendationsPage.

(* ===================================================================== *)
(** ** [app/history/page.tsx] *)
(* ===================================================================== *)

Module HistoryPage.

Record State : Type := {
  papers : list Paper.t;
  isLoading : bool;
  error : option string;
}.

Definition initial : State := {| papers := []; isLoading := true; error := None |}.

Section WithBaseUrl.
Variable API_BASE_URL : string.
Variable fetch : FetchFn PapersHistory.t.

Definition fetchHistory (user : option User.t) (st : State) : IO State :=
  match user with
  | None => (st, [])
  | Some u =>
      let '(r, log) := ApiClient.getPapersHistory API_BASE_URL fetch (User.id u) in
      match r with
      | Returns data =>
          ({| papers := PapersHistory.papers data; isLoading := false; error := None |}, log)
      | Throws e =>
          ({| papers := papers st; isLoading := false;
              error := Some "논문 이력을 불러오는데 실패했습니다." |},
           log ++ [ConsoleError "Failed to fetch history:" e])
      end
  end.

Definition useEffect (user : option User.t) (st : State) : IO State :=
  match user with
  | None => (st, [RouterPush "/login"])
  | Some _ => fetchHistory user st
  end.

End WithBaseUrl.

Record View : Type := {
  loadingShown : bool;
  errorShown : option string;
  emptyShown : bool;
  listed : list Paper.t;
}.

Definition render (user : option User.t) (st : State) : option View :=
  match user with
  | None => None
  | Some u =>
      let ready := (negb (isLoading st) && negb (truthy (error st)))%bool in
      Some {| loadingShown := isLoading st;
              errorShown := shown (error st);
              emptyShown := (ready && Nat.eqb (length (papers st)) 0)%bool;
              listed := if ready then papers st else [] |}
  end.

End HistoryPage.

(* ===================================================================== *)
(** ** [app/paper/[id]/page.tsx]: paper detail *)
(* ===================================================================== *)

Module PaperDetailPage.

Record State : Type := {
  paper : option PaperDetail.t;
  isLoading : bool;
  error : option string;
}.

Definition initial : State := {| paper := None; isLoading := true; error := None |}.

Section WithBaseUrl.
Variable API_BASE_URL : string.
Variable fetch : FetchFn PaperDetail.t.
Variable paperId : Z.

Definition fetchPaperDetail (user : option User.t) (st : State) : IO State :=
  match user with
  | None => (st, [])
  | Some u =>
      let '(r, log) := ApiClient.getPaperDetail API_BASE_URL fetch paperId (User.id u) in
      match r with
      | Returns data => ({| paper := Some data; isLoading := false; error := None |}, log)
      | Throws e =>
          ({| paper := paper st; isLoading := false;
              error := Some "논문 정보를 불러오는데 실패했습니다." |},
           log ++ [ConsoleError "Failed to fetch paper detail:" e])
      end
  end.

Definition useEffect (user : option User.t) (st : State) : IO State :=
  match user with
  | None => (st, [RouterPush "/login"])
  | Some _ => fetchPaperDetail user st
  end.

End WithBaseUrl.

Inductive View : Type :=
| LoadingScreen
| ErrorScreen (message : string)
| DetailScreen (paper : PaperDetail.t).

Definition render (user : option User.t) (st : State) : option View :=
  match user with
  | None => None
  | Some _ =>
      if isLoading st then Some LoadingScreen
      else
        match error st, paper st with
        | Some (String c m), _ => Some (ErrorScreen (String c m))
        | _, None => Some (ErrorScreen "논문을 찾을 수 없습니다.")
        | _, Some p => Some (DetailScreen p)
        end
  end.

End PaperDetailPage.

(* ===================================================================== *)
(** ** [app/paper/[id]/chat/page.tsx]: chat with a paper *)
(* ===================================================================== *)

Module ChatPage.

Inductive Role : Type := user_role | assistant_role.

(** [interface Message] *)
Record Message : Type := { role : Role; content : string }.

Record State : Type := {
  paperTitle : string;
  paperKeywords : list string;
  messages : list Message;
  input : string;
  isLoading : bool;
  isFetchingPaper : bool;
  error : option string;
}.

Definition initial : State :=
  {| paperTitle := ""; paperKeywords := []; messages := []; input := "";
     isLoading := false; isFetchingPaper := true; error := None |}.

Definition greeting (title : string) : string :=
  "안녕하세요! " +:+ dquote_s +:+ title +:+ dquote_s
  +:+ "에 대해 궁금한 점을 물어보세요. 논문의 내용, 방법론, 결과 등 무엇이든 질문해주시면 상세히 설명해드리겠습니다.".

Definition failure_text : string :=
  "죄송합니다. 메시지 전송에 실패했습니다. 다시 시도해주세요.".

Section WithBaseUrl.
Variable API_BASE_URL : string.
Variable paperId : Z.

Definition fetchPaperInfo (fetch : FetchFn PaperDetail.t) (user : option User.t) (st : State)
  : IO State :=
  match user with
  | None => (st, [])
  | Some u =>
      let '(r, log) := ApiClient.getPaperDetail API_BASE_URL fetch paperId (User.id u) in
      match r with
      | Returns data =>
          let chatHistory :=
            flat_map (fun chat =>
                        [ {| role := user_role; content := PaperDetail.question chat |};
                          {| role := assistant_role; content := PaperDetail.answer chat |} ])
                     (PaperDetail.chat_history data) in
          let chatHistory :=
            match chatHistory with
            | [] => [ {| role := assistant_role;
                         content := greeting (PaperDetail.title data) |} ]
            | _ :: _ => chatHistory
            end in
          ({| paperTitle := PaperDetail.title data;
              paperKeywords := PaperDetail.keywords (PaperDetail.metadata data);
              messages := chatHistory;
              input := input st; isLoading := isLoading st;
              isFetchingPaper := false; error := None |}, log)
      | Throws e =>
          ({| paperTitle := paperTitle st; paperKeywords := paperKeywords st;
              messages := messages st; input := input st; isLoading := isLoading st;
              isFetchingPaper := false;
              error := Some "논문 정보를 불러오는데 실패했습니다." |},
           log ++ [ConsoleError "Failed to fetch paper info:" e])
      end
  end.

Definition useEffect (fetch : FetchFn PaperDetail.t) (user : option User.t) (st : State)
  : IO State :=
  match user with
  | None => (st, [RouterPush "/login"])
  | Some _ => fetchPaperInfo fetch user st
  end.

(** A run of [handleSend]: the state it has set when it reaches its
    [await] ([at_await], absent when it returns before) and the state when
    it has finished. *)
Record Sent : Type := { at_await : option State; at_end : State }.

Definition append_message (m : Message) (st : State) : State :=
  {| paperTitle := paperTitle st; paperKeywords := paperKeywords st;
     messages := messages st ++ [m];
     input := input st; isLoading := isLoading st;
     isFetchingPaper := isFetchingPaper st; error := error st |}.

Definition setInput (text : string) (st : State) : State :=
  {| paperTitle := paperTitle st; paperKeywords := paperKeywords st;
     messages := messages st; input := text; isLoading := isLoading st;
     isFetchingPaper := isFetchingPaper st; error := error st |}.

Definition setIsLoading (b : bool) (st : State) : State :=
  {| paperTitle := paperTitle st; paperKeywords := paperKeywords st;
     messages := messages st; input := input st; isLoading := b;
     isFetchingPaper := isFetchingPaper st; error := error st |}.

(** [handleSend]. With no user, [user.id] throws inside the [try] and no
    request is made. *)
Definition handleSend (fetch : FetchFn ChatResponse.t) (user : option User.t) (st : State)
  : IO Sent :=
  if (all_whitespace (input st) || isLoading st)%bool
  then ({| at_await := None; at_end := st |}, [])
  else
    let userMessage := {| role := user_role; content := input st |} in
    let st1 := setIsLoading true (setInput "" (append_message userMessage st)) in
    let '(r, log) :=
      match user with
      | Some u => ApiClient.chatWithPaper API_BASE_URL fetch paperId (User.id u) (input st)
      | None => (Throws (ThrownError "Cannot read properties of null (reading 'id')"), [])
      end in
    match r with
    | Returns response =>
        let aiResponse := {| role := assistant_role;
                             content := ChatResponse.answer response |} in
        ({| at_await := Some st1;
            at_end := setIsLoading false (append_message aiResponse st1) |}, log)
    | Throws e =>
        let errorMessage := {| role := assistant_role; content := failure_text |} in
        ({| at_await := Some st1;
            at_end := setIsLoading false (append_message errorMessage st1) |},
         log ++ [ConsoleError "Failed to send message:" e])
    end.

End WithBaseUrl.

Inductive View : Type :=
| FetchingScreen
| ErrorScreen (message : string)
| ChatScreen (title : string) (keywords : list string) (transcript : list Message)
    (typing : bool) (draft : string) (sendDisabled : bool).

Definition render (user : option User.t) (st : State) : option View :=
  match user with
  | None => None
  | Some _ =>
      if isFetchingPaper st then Some FetchingScreen
      else
        match error st with
        | Some (String c m) => Some (ErrorScreen (String c m))
        | _ =>
            Some (ChatScreen (paperTitle st) (paperKeywords st) (messages st)
                    (isLoading st) (input st)
                    (all_whitespace (input st) || isLoading st)%bool)
        end
  end.

End ChatPage.

(* ===================================================================== *)
(** ** [app/mypage/page.tsx]: profile *)
(* ===================================================================== *)

Module MyPage.

Record State : Type := {
  interestInput : string;
  difficulty : string;
  hasChanges : bool;
}.

Definition initial : State := {| interestInput := ""; difficulty := ""; hasChanges := false |}.

(** The first effect: redirect, or copy the user's settings into the form. *)
Definition useEffect (user : option User.t) (st : State) : IO State :=
  match user with
  | None => (st, [RouterPush "/login"])
  | Some u =>
      ({| interestInput := User.interest u; difficulty := User.level u;
          hasChanges := hasChanges st |}, [])
  end.

(** The second effect: whether the form differs from the stored user. *)
Definition useEffect_changes (user : option User.t) (st : State) : State :=
  match user with
  | None => st
  | Some u =>
      {| interestInput := interestInput st; difficulty := difficulty st;
         hasChanges := (negb (String.eqb (interestInput st) (User.interest u))
                        || negb (String.eqb (difficulty st) (User.level u)))%bool |}
  end.

(** The two fields as the user edits them. *)
Definition setInterestInput (text : string) (st : State) : State :=
  {| interestInput := text; difficulty := difficulty st; hasChanges := hasChanges st |}.

Definition setDifficulty (value : string) (st : State) : State :=
  {| interestInput := interestInput st; difficulty := value; hasChanges := hasChanges st |}.

(** Both effects in a commit in which each of them runs. Each reads the
    state [st] of the render it belongs to; what they set is the state of
    the next render. *)
Definition useEffects (user : option User.t) (st : State) : IO State :=
  let '(st1, log) := useEffect user st in
  ({| interestInput := interestInput st1; difficulty := difficulty st1;
      hasChanges := hasChanges (useEffect_changes user st) |}, log).

(** One commit of the page. An effect runs at mount and after a render in
    which one of its dependencies differs from the render before: [user]
    for the first effect ([router] does not change), [interestInput],
    [difficulty] and [user] for the second. [prev] is the state of the
    render before, absent at mount; [user_changed] tells whether
    [useAuth()] returned another user than in that render. *)
Definition commit (prev : option State) (user_changed : bool) (user : option User.t)
    (st : State) : IO State :=
  match prev with
  | None => useEffects user st
  | Some before =>
      if user_changed then useEffects user st
      else if (negb (String.eqb (interestInput before) (interestInput st))
               || negb (String.eqb (difficulty before) (difficulty st)))%bool
      then (useEffect_changes user st, [])
      else (st, [])
  end.

Record View : Type := {
  account : string;
  interestField : string;
  difficultyField : string;
  saveShown : bool;
}.

Definition render (user : option User.t) (st : State) : option View :=
  match user with
  | None => None
  | Some u =>
      Some {| account := User.username u; interestField := interestInput st;
              difficultyField := difficulty st; saveShown := hasChanges st |}
  end.

(** [handleSave]. [updateProfile] of the store reports a failure by
    returning false, which [handleSave] does not look at. *)
Definition handleSave (API_BASE_URL : string) (fetch : FetchFn UpdateProfileResponse.t)
    (st : State) (s : AuthProvider.Session) : IO (State * AuthProvider.Session) :=
  match interestInput st with
  | EmptyString => ((st, s), [Alert "관심 분야를 입력해주세요."])
  | String _ _ =>
      let '((_, s'), log) :=
        AuthProvider.updateProfile API_BASE_URL fetch (interestInput st) (difficulty st) s in
      (({| interestInput := interestInput st; difficulty := difficulty st;
           hasChanges := false |}, s'),
       log ++ [Alert "프로필이 성공적으로 업데이트되었습니다."])
  end.

(** [handleLogout] *)
Definition handleLogout (s : AuthProvider.Session) : IO AuthProvider.Session :=
  (AuthProvider.logout s, [RouterPush "/login"]).

End MyPage.

(* ===================================================================== *)
(** ** [String.prototype.trim] *)
(* ===================================================================== *)

(** [s.trimStart()]: [s] without its leading white space and line
    terminators. *)
Fixpoint trimStart (s : string) : string :=
  match s with
  | EmptyString => s
  | String b0 rest =>
      let n0 := N_of_ascii b0 in
      if (N.eqb n0 32 || (N.leb 9 n0 && N.leb n0 13))%bool then trimStart rest
      else
        match rest with
        | String b1 rest1 =>
            let n1 := N_of_ascii b1 in
            if (N.eqb n0 194 && N.eqb n1 160)%bool then trimStart rest1
            else
              match rest1 with
              | String b2 rest2 =>
                  let n2 := N_of_ascii b2 in
                  if ((N.eqb n0 225 && N.eqb n1 154 && N.eqb n2 128)
                      || (N.eqb n0 226 && N.eqb n1 128
                          && ((N.leb 128 n2 && N.leb n2 138)
                              || N.eqb n2 168 || N.eqb n2 169 || N.eqb n2 175))
                      || (N.eqb n0 226 && N.eqb n1 129 && N.eqb n2 159)
                      || (N.eqb n0 227 && N.eqb n1 128 && N.eqb n2 128)
                      || (N.eqb n0 239 && N.eqb n1 187 && N.eqb n2 191))%bool
                  then trimStart rest2
                  else s
              | EmptyString => s
              end
        | EmptyString => s
        end
  end.

(** [s.trimEnd()]: [s] up to the point from which only white space
    follows. *)
Fixpoint trimEnd (s : string) : string :=
  if all_whitespace s then EmptyString
  else
    match s with
    | EmptyString => EmptyString
    | String c rest => String c (trimEnd rest)
    end.

(** [s.trim()] *)
Definition trim (s : string) : string := trimEnd (trimStart s).

(* ===================================================================== *)
(** ** [app/login/page.tsx] *)
(* ===================================================================== *)

Module LoginPage.

Record State : Type := { username : string; password : string; error : string }.

Definition initial : State := {| username := ""; password := ""; error := "" |}.

Definition setError (message : string) (st : State) : State :=
  {| username := username st; password := password st; error := message |}.

(** [handleSubmit], after [e.preventDefault()]. *)
Definition handleSubmit (API_BASE_URL : string) (fetch : FetchFn LoginResponse.t)
    (st : State) (s : AuthProvider.Session) : IO (State * AuthProvider.Session) :=
  let st := setError "" st in
  match username st, password st with
  | String _ _, String _ _ =>
      let '((success, s'), log) :=
        AuthProvider.login API_BASE_URL fetch (username st) (password st) s in
      if success
      then ((st, s'), log ++ [RouterPush "/"])
      else ((setError "아이디 또는 비밀번호가 올바르지 않습니다." st, s'), log)
  | _, _ => ((setError "아이디와 비밀번호를 입력해주세요." st, s), [])
  end.

End LoginPage.

(* ===================================================================== *)
(** ** [app/signup/page.tsx] *)
(* ===================================================================== *)

Module SignupPage.

Record State : Type := {
  username : string;
  password : string;
  confirmPassword : string;
  interest : string;
  difficulty : string;
  error : string;
}.

Definition initial : State :=
  {| username := ""; password := ""; confirmPassword := ""; interest := "";
     difficulty := ""; error := "" |}.

Definition setError (message : string) (st : State) : State :=
  {| username := username st; password := password st;
     confirmPassword := confirmPassword st; interest := interest st;
     difficulty := difficulty st; error := message |}.

Definition is_empty (s : string) : bool :=
  match s with
  | EmptyString => true
  | String _ _ => false
  end.

(** [handleSubmit], after [e.preventDefault()]. *)
Definition handleSubmit (API_BASE_URL : string) (fetch : FetchFn RegisterResponse.t)
    (st : State) (s : AuthProvider.Session) : IO (State * AuthProvider.Session) :=
  let st := setError "" st in
  if (is_empty (username st) || is_empty (password st) || is_empty (confirmPassword st))%bool
  then ((setError "모든 필드를 입력해주세요." st, s), [])
  else if negb (String.eqb (password st) (confirmPassword st))
  then ((setError "비밀번호가 일치하지 않습니다." st, s), [])
  else if is_empty (trim (interest st))
  then ((setError "관심 분야를 입력해주세요." st, s), [])
  else if is_empty (difficulty st)
  then ((setError "난이도를 선택해주세요." st, s), [])
  else
    let '((success, s'), log) :=
      AuthProvider.signup API_BASE_URL fetch (username st) (password st)
        (trim (interest st)) (difficulty st) s in
    if success
    then ((st, s'), log ++ [RouterPush "/"])
    else ((setError "이미 존재하는 아이디입니다." st, s'), log).

End SignupPage.

(* ===================================================================== *)
(** ** The pages that require a session *)
(* ===================================================================== *)

Module Pages.

Inductive Page : Type :=
| Home
| Recommendations
| History
| PaperDetailOf (paperId : Z)
| Chat (paperId : Z)
| Profile.

(** What the network answers to the request a page makes when it mounts;
    the profile page makes none. *)
Definition Network (p : Page) : Type :=
  match p with
  | Home => FetchFn Advice.t
  | Recommendations => FetchFn TodayRecommendations.t
  | History => FetchFn PapersHistory.t
  | PaperDetailOf _ => FetchFn PaperDetail.t
  | Chat _ => FetchFn PaperDetail.t
  | Profile => unit
  end.


(** The state of page [p] and its initial value. *)
Definition State (p : Page) : Type :=
  match p with
  | Home => HomePage.State
  | Recommendations => RecommendationsPage.State
  | History => HistoryPage.State
  | PaperDetailOf _ => PaperDetailPage.State
  | Chat _ => ChatPage.State
  | Profile => MyPage.State
  end.

Definition initial (p : Page) : State p :=
  match p with
  | Home => HomePage.initial
  | Recommendations => RecommendationsPage.initial
  | History => HistoryPage.initial
  | PaperDetailOf _ => PaperDetailPage.initial
  | Chat _ => ChatPage.initial
  | Profile => MyPage.initial
  end.


(** A run of the effects of page [p] that depend on [user], in a render
    in which [useAuth()] returned [user] and the page state is [st]. They
    run at mount and again after every render in which [user] has
    changed. *)
Definition useEffect (API_BASE_URL : string) (p : Page)
  : Network p -> option User.t -> State p -> IO (State p) :=
  match p return Network p -> option User.t -> State p -> IO (State p) with
  | Home => fun fetch user st => HomePage.useEffect API_BASE_URL fetch user st
  | Recommendations => fun fetch user st =>
      RecommendationsPage.useEffect API_BASE_URL fetch user st
  | History => fun fetch user st => HistoryPage.useEffect API_BASE_URL fetch user st
  | PaperDetailOf paperId => fun fetch user st =>
      PaperDetailPage.useEffect API_BASE_URL fetch paperId user st
  | Chat paperId => fun fetch user st => ChatPage.useEffect API_BASE_URL paperId fetch user st
  | Profile => fun _ user st => MyPage.useEffects user st
  end.



End Pages.

(* ===================================================================== *)
(** ** [components/paper-graph.tsx]: the graph renderer *)
(* ===================================================================== *)

Module PaperGraph.

(** The SVG elements the component returns. React keys and the legend
    next to the drawing are not part of the layout and are left out. *)
Inductive Svg : Type :=
| line (x1 y1 x2 y2 : Z) (strokeWidth : Z) (className : string)
| circle (cx cy r : Z) (className : string)
| rect (x y width height rx ry : Q) (className : string)
| text (x y : Z) (className : string) (content : string)
| g (children : list Svg).

(** The named export [PaperGraph()]: a fixed drawing of four nodes. *)
Definition PaperGraph_named : list Svg :=
  [ line 100 100 200 50 2 "text-primary/40";
    line 100 100 200 150 2 "text-primary/40";
    line 300 100 200 50 2 "text-primary/40";
    line 300 100 200 150 2 "text-primary/40";
    circle 200 50 20 "text-primary";
    circle 200 150 20 "text-secondary";
    circle 100 100 25 "text-accent";
    circle 300 100 25 "text-accent";
    text 200 55 "fill-primary-foreground text-xs font-bold" "A";
    text 200 155 "fill-secondary-foreground text-xs font-bold" "B";
    text 100 105 "fill-accent-foreground text-xs font-bold" "C";
    text 300 105 "fill-accent-foreground text-xs font-bold" "D" ].

(** [title.length]: UTF-16 code units of a string given by its UTF-8
    bytes (one per character, two for a four-byte character). *)
Fixpoint js_length (s : string) : nat :=
  match s with
  | EmptyString => 0
  | String b rest =>
      let n := N_of_ascii b in
      ((if (N.leb 128 n && N.ltb n 192)%bool then 0
        else if N.leb 240 n then 2 else 1) + js_length rest)%nat
  end.

(** High surrogate of the four-byte character [b0 b1 b2 b3], in the
    three-byte form of a lone code unit. *)
Definition high_surrogate (b0 b1 b2 b3 : ascii) : string :=
  let cp := ((((N_of_ascii b0 mod 8) * 64 + N_of_ascii b1 mod 64) * 64
              + N_of_ascii b2 mod 64) * 64 + N_of_ascii b3 mod 64)%N in
  let hi := (55296 + (cp - 65536) / 1024)%N in
  String (ascii_of_N (224 + hi / 4096)%N)
    (String (ascii_of_N (128 + (hi / 64) mod 64)%N)
       (String (ascii_of_N (128 + hi mod 64)%N) "")).

(** [title.slice(0, n)]: the first [n] code units. *)
Fixpoint js_slice0 (n : nat) (s : string) : string :=
  match n, s with
  | O, _ => ""
  | _, EmptyString => ""
  | S n', String b0 rest =>
      let c := N_of_ascii b0 in
      if N.ltb c 192 then String b0 (js_slice0 n' rest)
      else if N.ltb c 224 then
        match rest with
        | String b1 rest1 => String b0 (String b1 (js_slice0 n' rest1))
        | EmptyString => String b0 ""
        end
      else if N.ltb c 240 then
        match rest with
        | String b1 (String b2 rest2) => String b0 (String b1 (String b2 (js_slice0 n' rest2)))
        | _ => String b0 (js_slice0 n' rest)
        end
      else
        match rest with
        | String b1 (String b2 (String b3 rest3)) =>
            match n' with
            | O => high_surrogate b0 b1 b2 b3
            | S n'' =>
                String b0 (String b1 (String b2 (String b3 (js_slice0 n'' rest3))))
            end
        | _ => String b0 (js_slice0 n' rest)
        end
  end.

(** A node with the position the layout gives it: [{ ...node, x, y }]. *)
Record Positioned : Type := { node : Node.t; x : Z; y : Z }.

Definition recommendedNodes (nodes : list Node.t) : list Node.t :=
  filter (fun n => Node.type n = Node.recommended) nodes.

Definition commonRefNodes (nodes : list Node.t) : list Node.t :=
  filter (fun n => Node.type n = Node.common_reference) nodes.

Definition recommendedPositions (nodes : list Node.t) : list Positioned :=
  imap (fun idx n => {| node := n; x := 100 + Z.of_nat idx * 120; y := 150 |})
       (recommendedNodes nodes).

Definition commonRefPositions (nodes : list Node.t) : list Positioned :=
  imap (fun idx n => {| node := n; x := 200; y := 50 |}) (commonRefNodes nodes).

Definition allNodePositions (nodes : list Node.t) : list Positioned :=
  recommendedPositions nodes ++ commonRefPositions nodes.

Definition getNodePosition (nodes : list Node.t) (id : Z) : option Positioned :=
  List.find (fun n => Z.eqb (Node.id (node n)) id) (allNodePositions nodes).

(** The element an edge maps to; [None] is the [null] of a skipped edge. *)
Definition edge_element (nodes : list Node.t) (edge : Edge.t) : option Svg :=
  match getNodePosition nodes (Edge.source edge), getNodePosition nodes (Edge.target edge) with
  | Some sourcePos, Some targetPos =>
      Some (line (x sourcePos) (y sourcePos) (x targetPos) (y targetPos)
              (if Edge.is_influential edge then 3 else 2)
              (if Edge.is_influential edge then "text-primary/60" else "text-primary/40"))
  | _, _ => None
  end.

Definition node_element (p : Positioned) : Svg :=
  let title := Node.title (node p) in
  match Node.type (node p) with
  | Node.recommended =>
      g [ rect (inject_Z (x p - 40)) (inject_Z (y p - 20)) 80 40 10 10 "text-accent";
          text (x p) (y p + 5) "text-xs font-bold fill-accent-foreground"
            (if Nat.ltb 5 (js_length title) then js_slice0 5 title +:+ "..." else title) ]
  | Node.common_reference =>
      let width := inject_Z (Z.of_nat (js_length title) * 7 + 10) in
      g [ rect (inject_Z (x p) - width / 2)%Q (inject_Z (y p - 20)) width 40 10 10
            "text-primary";
          text (x p) (y p + 5) "text-xs font-bold fill-primary-foreground" title ]
  end.

(** The children of the [<svg>] element: one entry per edge, then one
    group per positioned node. *)
Record Drawing : Type := { edge_elements : list (option Svg); node_elements : list Svg }.

(** The default export [PaperGraph({ nodes, edges })]. *)
Definition PaperGraph (nodes : list Node.t) (edges : list Edge.t) : Drawing :=
  {| edge_elements := map (edge_element nodes) edges;
     node_elements := map node_element (allNodePositions nodes) |}.

(** The edge clause of the specification in its words: each edge of the
    input is drawn as a line, of stroke width 3 when [is_influential] is
    true and 2 otherwise. *)
Definition each_edge_is_drawn (nodes : list Node.t) (edges : list Edge.t) : Prop :=
  forall (k : nat) (edge : Edge.t),
    edges !! k = Some edge ->
    exists x1 y1 x2 y2 className,
      edge_elements (PaperGraph nodes edges) !! k
      = Some (Some (line x1 y1 x2 y2 (if Edge.is_influential edge then 3 else 2) className)).

(** A string of ASCII characters: its UTF-16 code units are its bytes. *)
Definition is_ascii (s : string) : Prop :=
  Forall (fun c => (N_of_ascii c < 128)%N) (list_ascii_of_string s).

(** [viewBox="0 0 400 200"]: the part of the plane the [<svg>] shows. *)
Definition viewBox_width : Q := 400.
Definition viewBox_height : Q := 200.

(** The box drawn for a positioned node: left edge, top edge, width and
    height of the [<rect>] of [node_element]. *)
Definition box (p : Positioned) : Q * Q * Q * Q :=
  match node_element p with
  | g (rect bx by_ w h _ _ _ :: _) => (bx, by_, w, h)
  | _ => (0%Q, 0%Q, 0%Q, 0%Q)
  end.

(** The label drawn for a positioned node: the content of the [<text>]
    of [node_element]. *)
Definition label (p : Positioned) : string :=
  match node_element p with
  | g [_; text _ _ _ content] => content
  | _ => EmptyString
  end.

End PaperGraph.

(* ===================================================================== *)
(** * Properties *)
(* ===================================================================== *)

(** ** Strings *)

Lemma append_cons (c : ascii) (s t : string) : String c s +:+ t = String c (s +:+ t).
Proof. reflexivity. Qed.

Lemma append_empty_l (t : string) : "" +:+ t = t.
Proof. reflexivity. Qed.

Lemma append_empty_r (s : string) : s +:+ "" = s.
Proof.
  induction s as [|c s IH]; [reflexivity|]. rewrite append_cons. now rewrite IH.
Qed.

Lemma append_assoc (s t u : string) : (s +:+ t) +:+ u = s +:+ (t +:+ u).
Proof.
  induction s as [|c s IH].
  - reflexivity.
  - rewrite !append_cons. now rewrite IH.
Qed.

(** ** JSON: a string literal reads back *)

Module JSONFacts.
Import JSON.

Lemma parsed_map_cons (c : ascii) (p : parsed string) :
  parsed_map (String.append (String c "")) p = parsed_map (String c) p.
Proof. destruct p; reflexivity. Qed.

Lemma parse_chars_escape_char (c : ascii) (tail : string) :
  parse_chars (escape_char c +:+ tail) = parsed_map (String c) (parse_chars tail).
Proof.
  destruct c as [b0 b1 b2 b3 b4 b5 b6 b7].
  destruct b0, b1, b2, b3, b4, b5, b6, b7;
    first [ reflexivity | apply parsed_map_cons ].
Qed.

Lemma parse_chars_escape (s tail : string) :
  parse_chars (escape s +:+ String dquote tail) = Ok s tail.
Proof.
  induction s as [|c s IH].
  - reflexivity.
  - change (escape (String c s)) with (escape_char c +:+ escape s).
    rewrite append_assoc, parse_chars_escape_char, IH. reflexivity.
Qed.

(** ** JSON: a numeral reads back *)

Lemma parse_digits_string_of_uint (d : Decimal.uint) (rest : string) :
  ends_numeral rest = true ->
  parse_digits (NilEmpty.string_of_uint d +:+ rest) = (d, rest).
Proof.
  intros Hrest.
  induction d as [|d IH|d IH|d IH|d IH|d IH|d IH|d IH|d IH|d IH|d IH];
    try (cbn [NilEmpty.string_of_uint]; rewrite append_cons; cbn [parse_digits];
         change (digit_of_char _) with (Some Decimal.D0) ||
         change (digit_of_char _) with (Some Decimal.D1) ||
         change (digit_of_char _) with (Some Decimal.D2) ||
         change (digit_of_char _) with (Some Decimal.D3) ||
         change (digit_of_char _) with (Some Decimal.D4) ||
         change (digit_of_char _) with (Some Decimal.D5) ||
         change (digit_of_char _) with (Some Decimal.D6) ||
         change (digit_of_char _) with (Some Decimal.D7) ||
         change (digit_of_char _) with (Some Decimal.D8) ||
         change (digit_of_char _) with (Some Decimal.D9);
         rewrite IH; reflexivity).
  cbn [NilEmpty.string_of_uint]. rewrite append_empty_l.
  destruct rest as [|c r]; [reflexivity|].
  cbn [parse_digits]. unfold ends_numeral in Hrest.
  destruct (digit_of_char c); [discriminate|reflexivity].
Qed.

Lemma to_uint_no_leading_zero (p : positive) (d : Decimal.uint) :
  Pos.to_uint p <> Decimal.D0 d.
Proof.
  intros H.
  pose proof (DecimalPos.Unsigned.to_of (Pos.to_uint p)) as Hn.
  rewrite DecimalPos.Unsigned.of_to in Hn. cbn [N.to_uint] in Hn.
  rewrite H in Hn. unfold Decimal.unorm in Hn.
  destruct (Decimal.nzhead (Decimal.D0 d)) eqn:Hz;
    try (symmetry in Hn; rewrite <- Hn in Hz;
         exact (DecimalFacts.nzhead_nonzero _ _ Hz)); try discriminate.
  inversion Hn; subst d.
  exact (DecimalPos.Unsigned.to_uint_nonzero p H).
Qed.

Lemma parse_unsigned_to_uint (p : positive) (rest : string) :
  ends_numeral rest = true ->
  parse_unsigned (NilEmpty.string_of_uint (Pos.to_uint p) +:+ rest) = Ok (Z.pos p) rest.
Proof.
  intros Hrest. unfold parse_unsigned.
  rewrite parse_digits_string_of_uint by exact Hrest.
  assert (Hsfe : starts_fraction_or_exponent rest = false).
  { destruct rest as [|c r]; [reflexivity|]. unfold ends_numeral in Hrest.
    destruct (digit_of_char c); [discriminate|].
    now apply negb_true_iff in Hrest. }
  assert (Hval : Z.of_uint (Pos.to_uint p) = Z.pos p).
  { unfold Z.of_uint. now rewrite DecimalPos.Unsigned.of_to. }
  pose proof (to_uint_no_leading_zero p) as Hz.
  pose proof (DecimalPos.Unsigned.to_uint_nonnil p) as Hnil.
  destruct (Pos.to_uint p) as [|d|d|d|d|d|d|d|d|d|d];
    try (rewrite Hsfe, Hval; reflexivity).
  - now contradiction Hnil.
  - now contradiction (Hz d).
Qed.

Lemma Number_toString_pos (p : positive) :
  Number_toString (Z.pos p) = NilEmpty.string_of_uint (Pos.to_uint p).
Proof.
  unfold Number_toString. cbn [Z.to_int NilZero.string_of_int].
  unfold NilZero.string_of_uint.
  pose proof (DecimalPos.Unsigned.to_uint_nonnil p) as Hnil.
  destruct (Pos.to_uint p); try reflexivity. now contradiction Hnil.
Qed.

Lemma Number_toString_neg (p : positive) :
  Number_toString (Z.neg p) = String "-" (NilEmpty.string_of_uint (Pos.to_uint p)).
Proof.
  unfold Number_toString. cbn [Z.to_int NilZero.string_of_int].
  unfold NilZero.string_of_uint.
  pose proof (DecimalPos.Unsigned.to_uint_nonnil p) as Hnil.
  destruct (Pos.to_uint p); try reflexivity. now contradiction Hnil.
Qed.

Lemma Number_toString_head (n : Z) :
  exists c r, Number_toString n = String c r /\ starts_numeral c = true.
Proof.
  destruct n as [|p|p].
  - exists "0"%char, "". split; reflexivity.
  - rewrite Number_toString_pos.
    pose proof (DecimalPos.Unsigned.to_uint_nonnil p) as Hnil.
    destruct (Pos.to_uint p); try (now contradiction Hnil);
      cbn [NilEmpty.string_of_uint]; eexists _, _; split; reflexivity.
  - rewrite Number_toString_neg. eexists _, _; split; reflexivity.
Qed.

Lemma parse_number_toString (n : Z) (rest : string) :
  ends_numeral rest = true ->
  parse_number (Number_toString n +:+ rest) = Ok n rest.
Proof.
  intros Hrest. destruct n as [|p|p].
  - change (Number_toString 0) with "0". rewrite append_cons, append_empty_l.
    unfold parse_number. change (Ascii.eqb "0" "-") with false. cbv iota.
    unfold parse_unsigned.
    change (String "0" rest) with (NilEmpty.string_of_uint (Decimal.D0 Decimal.Nil) +:+ rest).
    rewrite parse_digits_string_of_uint by exact Hrest.
    destruct rest as [|c r]; [reflexivity|].
    unfold ends_numeral in Hrest. destruct (digit_of_char c); [discriminate|].
    apply negb_true_iff in Hrest. now rewrite Hrest.
  - rewrite Number_toString_pos.
    pose proof (parse_unsigned_to_uint p rest Hrest) as Hu.
    pose proof (to_uint_no_leading_zero p) as Hz.
    pose proof (DecimalPos.Unsigned.to_uint_nonnil p) as Hnil.
    destruct (Pos.to_uint p) as [|d|d|d|d|d|d|d|d|d|d];
      try (now contradiction Hnil); try (now contradiction (Hz d));
      cbn [NilEmpty.string_of_uint] in *; rewrite append_cons in *;
      unfold parse_number;
      match goal with
      | |- context [Ascii.eqb ?a "-"] => change (Ascii.eqb a "-") with false
      end; cbv iota; exact Hu.
  - rewrite Number_toString_neg, append_cons.
    unfold parse_number. change (Ascii.eqb "-" "-") with true. cbv iota.
    rewrite parse_unsigned_to_uint by exact Hrest. reflexivity.
Qed.

(** ** JSON: a serialized user reads back *)

Lemma parse_value_numeral (f : nat) (c : ascii) (s : string) :
  starts_numeral c = true ->
  parse_value (S f) (String c s) = parsed_map JNumber (parse_number (String c s)).
Proof.
  destruct c as [b0 b1 b2 b3 b4 b5 b6 b7].
  destruct b0, b1, b2, b3, b4, b5, b6, b7; intros H;
    first [ discriminate H | reflexivity ].
Qed.

Lemma parse_value_number (f : nat) (n : Z) (rest : string) :
  ends_numeral rest = true ->
  parse_value (S f) (Number_toString n +:+ rest) = Ok (JNumber n) rest.
Proof.
  intros Hrest.
  pose proof (parse_number_toString n rest Hrest) as Hn.
  destruct (Number_toString_head n) as (c & r & Heq & Hc).
  rewrite Heq in *. rewrite append_cons in *.
  rewrite parse_value_numeral by exact Hc. now rewrite Hn.
Qed.

Lemma parse_value_string (f : nat) (s tail : string) :
  parse_value (S f) (quote s +:+ tail) = Ok (JString s) tail.
Proof.
  unfold quote, dquote_s. rewrite !append_assoc, !append_cons, !append_empty_l.
  cbn [parse_value skip_ws].
  change (is_ws dquote) with false. cbv iota.
  change (Ascii.eqb dquote dquote) with true. cbv iota.
  now rewrite parse_chars_escape.
Qed.

Lemma parse_members_more (f : nat) (acc : list (string * json)) (k body : string)
    (v : json) (rest : string) :
  parse_value f (body +:+ String "," rest) = Ok v (String "," rest) ->
  parse_members (S f) acc (quote k +:+ ":" +:+ body +:+ String "," rest)
  = parse_members f (set_member k v acc) rest.
Proof.
  intros Hv. unfold quote, dquote_s.
  rewrite !append_assoc, !append_cons, !append_empty_l.
  cbn [parse_members skip_ws].
  change (is_ws dquote) with false. cbv iota.
  change (Ascii.eqb dquote dquote) with true. cbv iota.
  rewrite parse_chars_escape.
  cbn [skip_ws]. change (is_ws ":") with false. cbv iota.
  change (Ascii.eqb ":" ":") with true. cbv iota.
  rewrite Hv. cbn [skip_ws]. change (is_ws ",") with false. cbv iota.
  change (Ascii.eqb "," ",") with true. cbv iota. reflexivity.
Qed.

Lemma parse_members_last (f : nat) (acc : list (string * json)) (k body : string)
    (v : json) (rest : string) :
  parse_value f (body +:+ String "}" rest) = Ok v (String "}" rest) ->
  parse_members (S f) acc (quote k +:+ ":" +:+ body +:+ String "}" rest)
  = Ok (set_member k v acc) rest.
Proof.
  intros Hv. unfold quote, dquote_s.
  rewrite !append_assoc, !append_cons, !append_empty_l.
  cbn [parse_members skip_ws].
  change (is_ws dquote) with false. cbv iota.
  change (Ascii.eqb dquote dquote) with true. cbv iota.
  rewrite parse_chars_escape.
  cbn [skip_ws]. change (is_ws ":") with false. cbv iota.
  change (Ascii.eqb ":" ":") with true. cbv iota.
  rewrite Hv. cbn [skip_ws]. change (is_ws "}") with false. cbv iota.
  change (Ascii.eqb "}" ",") with false. cbv iota.
  change (Ascii.eqb "}" "}") with true. cbv iota. reflexivity.
Qed.

Import AuthProvider.

Lemma stringify_User (u : User.t) :
  stringify (User_to_json u)
  = String "{" (quote "id" +:+ ":" +:+ Number_toString (User.id u) +:+ String ","
      (quote "username" +:+ ":" +:+ quote (User.username u) +:+ String ","
        (quote "interest" +:+ ":" +:+ quote (User.interest u) +:+ String ","
          (quote "level" +:+ ":" +:+ quote (User.level u) +:+ String "}" "")))).
Proof.
  unfold User_to_json.
  cbn [stringify map join_comma fst snd].
  rewrite !append_assoc, !append_cons, !append_empty_l. reflexivity.
Qed.

Lemma parse_value_object (f : nat) (k rest : string) :
  parse_value (S f) (String "{" (quote k +:+ rest))
  = parsed_map JObject (parse_members f [] (quote k +:+ rest)).
Proof.
  cbn [parse_value skip_ws]. change (is_ws "{") with false. cbv iota.
  change (Ascii.eqb "{" dquote) with false. cbv iota.
  change (Ascii.eqb "{" "[") with false. cbv iota.
  change (Ascii.eqb "{" "{") with true. cbv iota.
  assert (H : skip_ws (quote k +:+ rest)
              = String dquote (escape k +:+ String dquote rest)).
  { unfold quote, dquote_s. rewrite !append_assoc, !append_cons, !append_empty_l.
    cbn [skip_ws]. change (is_ws dquote) with false. reflexivity. }
  rewrite H. change (Ascii.eqb dquote "}") with false. reflexivity.
Qed.

Lemma parse_value_User (f : nat) (u : User.t) :
  parse_value (S (S (S (S (S (S f)))))) (stringify (User_to_json u))
  = Ok (User_to_json u) "".
Proof.
  rewrite stringify_User, parse_value_object.
  rewrite parse_members_more with (v := JNumber (User.id u))
    by (apply parse_value_number; reflexivity).
  rewrite parse_members_more with (v := JString (User.username u))
    by apply parse_value_string.
  rewrite parse_members_more with (v := JString (User.interest u))
    by apply parse_value_string.
  rewrite parse_members_last with (v := JString (User.level u))
    by apply parse_value_string.
  reflexivity.
Qed.

Lemma length_append (s t : string) :
  String.length (s +:+ t) = (String.length s + String.length t)%nat.
Proof.
  induction s as [|c s IH]; [reflexivity|].
  rewrite append_cons. cbn [String.length]. now rewrite IH.
Qed.

(** [JSON.parse(JSON.stringify(user))] is the user again. *)
Lemma parse_stringify_User (u : User.t) :
  parse (stringify (User_to_json u)) = Ok (User_to_json u) "".
Proof.
  unfold parse.
  assert (Hfuel : exists f, (2 * String.length (stringify (User_to_json u)) + 2)%nat
                            = S (S (S (S (S (S f)))))).
  { assert (Hlen : exists m, String.length (stringify (User_to_json u)) = S (S m)).
    { rewrite stringify_User. unfold quote at 1, dquote_s at 1.
      rewrite !append_cons. cbn [String.length]. eauto. }
    destruct Hlen as [m ->]. exists (2 * m)%nat. lia. }
  destruct Hfuel as [f ->]. rewrite parse_value_User. reflexivity.
Qed.

Lemma User_of_to_json (u : User.t) : User_of_json (User_to_json u) = Some u.
Proof. destruct u; reflexivity. Qed.

(** A serialized user is never the empty string. *)
Lemma stringify_User_nonempty (u : User.t) :
  exists c rest, stringify (User_to_json u) = String c rest.
Proof. rewrite stringify_User. eauto. Qed.


End JSONFacts.

(* ===================================================================== *)
(** ** The API client *)
(* ===================================================================== *)

Lemma merge_json_headers :
  ApiClient.merge_headers (Some {[ "Content-Type" := "application/json" ]})
  = {[ "Content-Type" := "application/json" ]}.
Proof.
  unfold ApiClient.merge_headers, ApiClient.json_headers.
  apply map_eq. intros k. rewrite lookup_union.
  destruct (decide (k = "Content-Type")) as [->|Hne].
  - rewrite !lookup_singleton_eq. reflexivity.
  - rewrite !lookup_singleton_ne by congruence. reflexivity.
Qed.

Lemma request_surfaces (base : string) {T : Type} (fetch : FetchFn T)
    (endpoint : string) (options : RequestInit) :
  exists req,
    snd (ApiClient.request base fetch endpoint options) = [Fetch req]
    /\ url req = base +:+ endpoint
    /\ headers req = ApiClient.merge_headers (init_headers options)
    /\ surfaces (fetch req) (fst (ApiClient.request base fetch endpoint options)).
Proof.
  unfold ApiClient.request. eexists.
  split; [reflexivity|]. split; [reflexivity|]. split; [reflexivity|].
  cbn [fst].
  match goal with |- surfaces (fetch ?r) _ => destruct (fetch r) as [[[body|e]|[error|e]]|e] end.
  - constructor.
  - apply surfaces_unreadable. now left.
  - destruct (detail error) as [[|c d]|] eqn:Hd; cbn [or_else].
    + apply surfaces_fallback. now right.
    + apply surfaces_detail with (d := String c d); [exact Hd|discriminate].
    + apply surfaces_fallback. now left.
  - apply surfaces_unreadable. now right.
  - constructor.
Qed.

(** Where the body of the response is readable, [request] surfaces it as
    the specification words it. *)
Lemma surfaces_readable {T : Type} (response : Response T) (result : Result T) :
  readable response -> surfaces (Returns response) result ->
  surfaces_as_specified response result.
Proof.
  intros Hr Hs. inversion Hs; subst.
  - constructor.
  - pose proof (specified_error (T := T) (Returns error)) as Hc.
    cbn [detail_of] in Hc. rewrite H0 in Hc. destruct d; [congruence|exact Hc].
  - pose proof (specified_error (T := T) (Returns error)) as Hc.
    cbn [detail_of] in Hc. destruct H0 as [H0|H0]; rewrite H0 in Hc; exact Hc.
  - destruct H0 as [-> | ->]; destruct Hr.
Qed.

(** C1, as stated, fails for a response whose body is not JSON. A gateway
    answers 502 with an HTML page: the response is not ok, [response.json()]
    rejects, and the method rejects with the parser's error, which is
    neither a [detail] nor the fixed message. An ok response with such a
    body returns no parsed body either. *)
Lemma unreadable_body_is_not_surfaced :
  let syntax_error := ThrownError "Unexpected token < in JSON at position 0" in
  let bad_gateway : Response AddPaperResponse.t := ResponseNotOk (Throws syntax_error) in
  let truncated : Response AddPaperResponse.t := ResponseOk (Throws syntax_error) in
  let call (response : Response AddPaperResponse.t) :=
    fst (ApiClient.addPaperByArxivId "" (fun _ => Returns response) "2005.11401" 7) in
  ok bad_gateway = false
  /\ call bad_gateway = Throws syntax_error
  /\ ~ surfaces_as_specified bad_gateway (call bad_gateway)
  /\ ok truncated = true
  /\ call truncated = Throws syntax_error
  /\ ~ surfaces_as_specified truncated (call truncated).
Proof.
  cbv zeta. repeat split.
  - intros H. inversion H.
  - intros H. inversion H.
Qed.

(** C1, amended. Every endpoint method of the client issues exactly one
    request through the shared helper, marked as JSON, and settles as
    [surfaces] says: with the parsed body when the response is ok and its
    body is read; by throwing an error whose message is the [detail] of
    the error body, or "API 요청이 실패했습니다." when [detail] is absent
    or empty, when the response is not ok and its body is read; and, when
    [fetch] rejects or the body of the response, ok or not, cannot be read
    as JSON, by rejecting with that same error. *)
Theorem every_endpoint_surfaces_errors :
  forall (base : string) (T : Type) (c : ApiClient.Call T) (fetch : FetchFn T),
  exists req,
    snd (ApiClient.invoke base c fetch) = [Fetch req]
    /\ headers req !! "Content-Type" = Some "application/json"
    /\ surfaces (fetch req) (fst (ApiClient.invoke base c fetch)).
Proof.
  intros base T c fetch.
  destruct c; cbn [ApiClient.invoke];
    unfold ApiClient.addToCalendar, ApiClient.register, ApiClient.login,
      ApiClient.getAdvice, ApiClient.acceptInterestChange, ApiClient.acceptLevelChange,
      ApiClient.getTodayRecommendations, ApiClient.getTodayRecommendationsRelations,
      ApiClient.requestPaper, ApiClient.getPapersHistory, ApiClient.getPaperDetail,
      ApiClient.updateProfile, ApiClient.sharePaperToKakao, ApiClient.addPaperByArxivId,
      ApiClient.chatWithPaper;
    match goal with
    | |- context [ApiClient.request ?b ?f ?e ?o] =>
        destruct (request_surfaces b f e o) as (issued & Hlog & _ & Hhdr & Hs)
    end;
    exists issued; (split; [exact Hlog|]); (split; [|exact Hs]);
    rewrite Hhdr; cbn [init_headers ApiClient.post ApiClient.no_options];
    try rewrite merge_json_headers; reflexivity.
Qed.

(** A 404 whose body has an empty [detail], and one that names the cause. *)
Example request_fallback_and_detail :
  let not_found (d : string) : FetchFn AddPaperResponse.t :=
    fun _ => Returns (ResponseNotOk (Returns {| error_type := "about:blank";
                                                error_title := "Not Found";
                                                error_status := 404;
                                                detail := Some d |})) in
  fst (ApiClient.addPaperByArxivId "" (not_found "") "2005.11401" 7)
  = Throws (ThrownError "API 요청이 실패했습니다.")
  /\ fst (ApiClient.addPaperByArxivId "" (not_found "no such paper") "2005.11401" 7)
     = Throws (ThrownError "no such paper").
Proof. split; reflexivity. Qed.

(** C8. [addPaperByArxivId] does not depend on its [userId]: for any two
    user ids the calls issue the same single request, whose body carries
    the constant [user_id] 3, and settle alike. *)
Theorem addPaperByArxivId_ignores_userId :
  forall (base : string) (fetch : FetchFn AddPaperResponse.t) (arxivId : string)
         (userId1 userId2 : Z),
    ApiClient.addPaperByArxivId base fetch arxivId userId1
    = ApiClient.addPaperByArxivId base fetch arxivId userId2
    /\ snd (ApiClient.addPaperByArxivId base fetch arxivId userId1)
       = [Fetch {| url := base +:+ "/papers/add";
                   method := Some "POST";
                   headers := {[ "Content-Type" := "application/json" ]};
                   body := Some (JSON.stringify
                             (JSON.JObject [("arxiv_id", JSON.JString arxivId);
                                            ("user_id", JSON.JNumber 3)])) |}].
Proof.
  intros base fetch arxivId userId1 userId2. split; [reflexivity|].
  unfold ApiClient.addPaperByArxivId, ApiClient.request. cbn [snd init_method init_headers init_body].
  now rewrite merge_json_headers.
Qed.

(** The body of that request for the arXiv id 2005.11401, whatever the user. *)
Example addPaperByArxivId_body (base : string) (fetch : FetchFn AddPaperResponse.t) (userId : Z) :
  map (fun e => match e with Fetch req => body req | _ => None end)
      (snd (ApiClient.addPaperByArxivId base fetch "2005.11401" userId))
  = [Some (String "{" (JSON.quote "arxiv_id" +:+ ":" +:+ JSON.quote "2005.11401"
                       +:+ "," +:+ JSON.quote "user_id" +:+ ":3}"))].
Proof. reflexivity. Qed.

(* ===================================================================== *)
(** ** The session store *)
(* ===================================================================== *)

Module AuthFacts.
Import AuthProvider.

Lemma getItem_setItem (key value : string) (s : Session) :
  getItem key (setItem key value s) = Some value.
Proof. unfold getItem, setItem. cbn [localStorage]. apply lookup_insert_eq. Qed.

Lemma getItem_removeItem (key : string) (s : Session) :
  getItem key (removeItem key s) = None.
Proof. unfold getItem, removeItem. cbn [localStorage]. apply lookup_delete_eq. Qed.

Lemma getItem_setUser (key : string) (u : option User.t) (s : Session) :
  getItem key (setUser u s) = getItem key s.
Proof. reflexivity. Qed.

(** Storing a user in memory and under key "user" gives a consistent
    session, whatever the session was. *)
Lemma consistent_store (u : User.t) (s : Session) :
  consistent (setItem "user" (JSON.stringify (User_to_json u)) (setUser (Some u) s)).
Proof. unfold consistent. cbn [user setItem setUser]. apply getItem_setItem. Qed.

Lemma consistent_logout (s : Session) : consistent (logout s).
Proof. unfold consistent, logout. cbn [user removeItem setUser]. apply getItem_removeItem. Qed.

Lemma consistent_signup (base : string) (fetch : FetchFn RegisterResponse.t)
    (username password interest level : string) (s : Session) :
  consistent s -> consistent (snd (fst (signup base fetch username password interest level s))).
Proof.
  intros Hs. unfold signup.
  destruct (ApiClient.register base fetch username password interest level) as [[response|e] log];
    cbn [fst snd]; [apply consistent_store|exact Hs].
Qed.

Lemma consistent_login (base : string) (fetch : FetchFn LoginResponse.t)
    (username password : string) (s : Session) :
  consistent s -> consistent (snd (fst (login base fetch username password s))).
Proof.
  intros Hs. unfold login.
  destruct (ApiClient.login base fetch username password) as [[response|e] log];
    cbn [fst snd]; [apply consistent_store|exact Hs].
Qed.

Lemma consistent_updateInterest (interest : string) (s : Session) :
  consistent s -> consistent (updateInterest interest s).
Proof.
  intros Hs. unfold updateInterest.
  destruct (user s) as [u|] eqn:Hu; [apply consistent_store|exact Hs].
Qed.

Lemma consistent_updateLevel (level : string) (s : Session) :
  consistent s -> consistent (updateLevel level s).
Proof.
  intros Hs. unfold updateLevel.
  destruct (user s) as [u|] eqn:Hu; [apply consistent_store|exact Hs].
Qed.

Lemma consistent_updateProfile (base : string) (fetch : FetchFn UpdateProfileResponse.t)
    (interest level : string) (s : Session) :
  consistent s -> consistent (snd (fst (updateProfile base fetch interest level s))).
Proof.
  intros Hs. unfold updateProfile.
  destruct (user s) as [u|] eqn:Hu; [|exact Hs].
  destruct (ApiClient.updateProfile base fetch (User.id u) _) as [[response|e] log];
    cbn [fst snd]; [apply consistent_store|exact Hs].
Qed.

(** The mount effect on a session that nobody but the store wrote. *)
Lemma useEffect_written_by_store (s : Session) :
  user s = None -> written_by_store s ->
  exists s', useEffect s = Restored s' /\ consistent s'.
Proof.
  intros Hnone Hw. unfold written_by_store in Hw. unfold useEffect.
  destruct (getItem "user" s) as [text|] eqn:Hget.
  - destruct Hw as [u ->].
    destruct (JSONFacts.stringify_User_nonempty u) as (c & rest & Hc).
    rewrite Hc. cbv beta iota. rewrite <- Hc.
    rewrite JSONFacts.parse_stringify_User.
    unfold User_to_json at 1. fold (User_to_json u).
    rewrite JSONFacts.User_of_to_json.
    eexists. split; [reflexivity|].
    unfold consistent. cbn [user setUser]. exact Hget.
  - exists s. split; [reflexivity|]. unfold consistent. now rewrite Hnone.
Qed.

Lemma consistent_run (base : string) (op : Operation) (s : Session) :
  consistent s -> consistent (run base op s).
Proof.
  intros Hs. destruct op; cbn [run].
  - now apply consistent_signup.
  - now apply consistent_login.
  - apply consistent_logout.
  - now apply consistent_updateInterest.
  - now apply consistent_updateLevel.
  - now apply consistent_updateProfile.
Qed.

Lemma consistent_run_all (base : string) (ops : list Operation) (s : Session) :
  consistent s -> consistent (run_all base ops s).
Proof.
  revert s. induction ops as [|op ops IH]; intros s Hs; [exact Hs|].
  unfold run_all. cbn [fold_left]. apply IH. now apply consistent_run.
Qed.

End AuthFacts.

(** The session a browser holds when only the empty string is stored
    under key "user". *)
Example blank_entry_session_evaluates :
  AuthProvider.useEffect
    {| AuthProvider.user := None; AuthProvider.localStorage := {[ "user" := "" ]} |}
  = AuthProvider.Restored
      {| AuthProvider.user := None; AuthProvider.localStorage := {[ "user" := "" ]} |}.
Proof. reflexivity. Qed.

(** The same user as the store writes it and with a space after a colon:
    both texts restore the user, only the first is what the store holds
    for it. *)
Example spaced_entry_session_evaluates :
  let kim := User.mk 7 "kim" "NLP" "beginner" in
  let text := String "{" (JSON.quote "id" +:+ ": 7," +:+ JSON.quote "username" +:+ ":"
                +:+ JSON.quote "kim" +:+ "," +:+ JSON.quote "interest" +:+ ":"
                +:+ JSON.quote "NLP" +:+ "," +:+ JSON.quote "level" +:+ ":"
                +:+ JSON.quote "beginner" +:+ "}") in
  let s := {| AuthProvider.user := None; AuthProvider.localStorage := {[ "user" := text ]} |} in
  AuthProvider.useEffect s = AuthProvider.Restored (AuthProvider.setUser (Some kim) s)
  /\ text <> JSON.stringify (AuthProvider.User_to_json kim).
Proof. split; [reflexivity|discriminate]. Qed.

(** C2, as stated, fails at the mount effect: with the empty string stored
    under key "user" the effect completes with no user in memory while the
    entry is still there. *)
Lemma blank_entry_breaks_consistency :
  let s := {| AuthProvider.user := None; AuthProvider.localStorage := {[ "user" := "" ]} |} in
  AuthProvider.useEffect s = AuthProvider.Restored s
  /\ AuthProvider.user s = None
  /\ AuthProvider.getItem "user" s = Some ""
  /\ ~ AuthProvider.consistent s.
Proof.
  cbv zeta. repeat split. intros H. unfold AuthProvider.consistent in H.
  cbn [AuthProvider.user] in H. discriminate H.
Qed.

(** C2, amended. When the entry under key "user" is, at mount, absent or
    the serialization of a user as the store writes it, the mount effect
    completes, and after it and after every operation that follows
    (signup, login, logout, updateInterest, updateLevel, updateProfile, in
    any number and order) the entry agrees with the in-memory user: it is
    the serialization of that user, or absent when there is none. *)
Theorem session_stays_consistent :
  forall (base : string) (s : AuthProvider.Session),
    AuthProvider.user s = None -> AuthProvider.written_by_store s ->
    exists s0,
      AuthProvider.useEffect s = AuthProvider.Restored s0
      /\ forall ops : list AuthProvider.Operation,
           AuthProvider.consistent (AuthProvider.run_all base ops s0).
Proof.
  intros base s Hnone Hw.
  destruct (AuthFacts.useEffect_written_by_store s Hnone Hw) as (s0 & Hload & Hs0).
  exists s0. split; [exact Hload|]. intros ops.
  now apply AuthFacts.consistent_run_all.
Qed.

(** A stored session is restored, its level raised, and closed. *)
Lemma session_stays_consistent_witness :
  let kim := User.mk 7 "kim" "NLP" "beginner" in
  let stored := {| AuthProvider.user := None;
                   AuthProvider.localStorage :=
                     {[ "user" := JSON.stringify (AuthProvider.User_to_json kim) ]} |} in
  exists s0,
    AuthProvider.useEffect stored = AuthProvider.Restored s0
    /\ forall ops : list AuthProvider.Operation,
         AuthProvider.consistent (AuthProvider.run_all "" ops s0).
Proof.
  intros kim stored.
  apply (session_stays_consistent "" stored); [reflexivity|].
  unfold AuthProvider.written_by_store. exists kim. reflexivity.
Defined.

(** C5. [login] returns true exactly when the API login call succeeds;
    when the call throws, [login] returns false and leaves the session as
    it was: the same in-memory user and the same local storage. *)
Theorem login_true_iff_api_succeeds :
  forall (base : string) (fetch : FetchFn LoginResponse.t) (username password : string)
         (s : AuthProvider.Session),
    let api := fst (ApiClient.login base fetch username password) in
    let outcome := fst (AuthProvider.login base fetch username password s) in
    (fst outcome = true <-> exists response, api = Returns response)
    /\ (forall e, api = Throws e -> fst outcome = false /\ snd outcome = s).
Proof.
  intros base fetch username password s. cbv zeta. unfold AuthProvider.login.
  destruct (ApiClient.login base fetch username password) as [[response|e] log];
    cbn [fst snd]; split.
  - split; [eauto|reflexivity].
  - intros e H. discriminate H.
  - split; [discriminate|]. intros [response H]. discriminate H.
  - intros e' _. split; reflexivity.
Qed.

(** A login that the backend refuses with 401, and one it accepts. *)
Lemma login_true_iff_api_succeeds_witness :
  let refused : FetchFn LoginResponse.t :=
    fun _ => Returns (ResponseNotOk (Returns {| error_type := "about:blank";
                                                error_title := "Unauthorized";
                                                error_status := 401;
                                                detail := Some "wrong password" |})) in
  let accepted : FetchFn LoginResponse.t :=
    fun _ => Returns (ResponseOk (Returns (LoginResponse.mk 7 "kim" "NLP" "beginner"))) in
  let s := {| AuthProvider.user := None; AuthProvider.localStorage := ∅ |} in
  (fst (fst (AuthProvider.login "" refused "kim" "pw" s)) = false
   /\ snd (fst (AuthProvider.login "" refused "kim" "pw" s)) = s)
  /\ fst (fst (AuthProvider.login "" accepted "kim" "pw" s)) = true.
Proof.
  intros refused accepted s. split.
  - apply (proj2 (login_true_iff_api_succeeds "" refused "kim" "pw" s)
                 (ThrownError "wrong password")).
    reflexivity.
  - apply (proj1 (login_true_iff_api_succeeds "" accepted "kim" "pw" s)).
    exists (LoginResponse.mk 7 "kim" "NLP" "beginner"). reflexivity.
Defined.

(** C6. [updateProfile], for a logged-in user and a successful API call,
    sets the stored user's interest and level to the arguments, keeps its
    id and username, and returns true; without a user it returns false and
    makes no API call; when the API call throws it returns false and the
    session is unchanged. *)
Theorem updateProfile_frame :
  forall (base : string) (fetch : FetchFn UpdateProfileResponse.t) (interest level : string)
         (s : AuthProvider.Session),
    let run := AuthProvider.updateProfile base fetch interest level s in
    (AuthProvider.user s = None -> run = ((false, s), []))
    /\ (forall u, AuthProvider.user s = Some u ->
          let api := fst (ApiClient.updateProfile base fetch (User.id u)
                            {| ProfileData.interest := interest;
                               ProfileData.level := level |}) in
          let updated := {| User.id := User.id u; User.username := User.username u;
                            User.interest := interest; User.level := level |} in
          (forall response, api = Returns response ->
             fst (fst run) = true
             /\ AuthProvider.user (snd (fst run)) = Some updated
             /\ AuthProvider.getItem "user" (snd (fst run))
                = Some (JSON.stringify (AuthProvider.User_to_json updated)))
          /\ (forall e, api = Throws e ->
                fst (fst run) = false /\ snd (fst run) = s)).
Proof.
  intros base fetch interest level s. cbv zeta. unfold AuthProvider.updateProfile. split.
  - intros ->. reflexivity.
  - intros u ->.
    destruct (ApiClient.updateProfile base fetch (User.id u) _) as [[response|e] log];
      cbn [fst snd]; split.
    + intros _ _. repeat split. apply AuthFacts.getItem_setItem.
    + intros e H. discriminate H.
    + intros response H. discriminate H.
    + intros e' _. split; reflexivity.
Qed.

(** A beginner in NLP moves to advanced RAG: accepted, refused, and
    asked for with nobody logged in. *)
Lemma updateProfile_frame_witness :
  let updated := LoginResponse.mk 7 "kim" "RAG" "advanced" in
  let answer := {| UpdateProfileResponse.message := "updated";
                   UpdateProfileResponse.user := updated |} in
  let accepted : FetchFn UpdateProfileResponse.t :=
    fun _ => Returns (ResponseOk (Returns answer)) in
  let refused : FetchFn UpdateProfileResponse.t :=
    fun _ => Throws (ThrownError "Failed to fetch") in
  let kim := User.mk 7 "kim" "NLP" "beginner" in
  let s := {| AuthProvider.user := Some kim; AuthProvider.localStorage := ∅ |} in
  let nobody := {| AuthProvider.user := None; AuthProvider.localStorage := ∅ |} in
  let run := AuthProvider.updateProfile "" accepted "RAG" "advanced" s in
  let failed := AuthProvider.updateProfile "" refused "RAG" "advanced" s in
  (fst (fst run) = true
   /\ AuthProvider.user (snd (fst run)) = Some (User.mk 7 "kim" "RAG" "advanced")
   /\ AuthProvider.getItem "user" (snd (fst run))
      = Some (JSON.stringify (AuthProvider.User_to_json (User.mk 7 "kim" "RAG" "advanced"))))
  /\ (fst (fst failed) = false /\ snd (fst failed) = s)
  /\ AuthProvider.updateProfile "" accepted "RAG" "advanced" nobody = ((false, nobody), []).
Proof.
  intros updated answer accepted refused kim s nobody run failed. repeat apply conj.
  - apply (proj1 (proj2 (updateProfile_frame "" accepted "RAG" "advanced" s) kim eq_refl)
                 answer). reflexivity.
  - apply (proj1 (proj2 (updateProfile_frame "" accepted "RAG" "advanced" s) kim eq_refl)
                 answer). reflexivity.
  - apply (proj1 (proj2 (updateProfile_frame "" accepted "RAG" "advanced" s) kim eq_refl)
                 answer). reflexivity.
  - apply (proj2 (proj2 (updateProfile_frame "" refused "RAG" "advanced" s) kim eq_refl)
                 (ThrownError "Failed to fetch")). reflexivity.
  - apply (proj2 (proj2 (updateProfile_frame "" refused "RAG" "advanced" s) kim eq_refl)
                 (ThrownError "Failed to fetch")). reflexivity.
  - apply (proj1 (updateProfile_frame "" accepted "RAG" "advanced" nobody)). reflexivity.
Defined.

(* ===================================================================== *)
(** ** The pages *)
(* ===================================================================== *)

Lemma map_imap_id {A B : Type} (g : B -> A) (f : nat -> A -> B) (l : list A) :
  (forall i x, g (f i x) = x) -> map g (imap f l) = l.
Proof.
  revert f. induction l as [|a l IH]; intros f H; [reflexivity|].
  cbn [imap map]. rewrite H. f_equal. apply IH. intros i x. apply H.
Qed.

(** C7. On the chat page, a question that is not blank, sent while no
    other is in flight, is appended to the transcript as the user's message
    before the request goes out; when the call has settled exactly one
    assistant message follows it, the API's answer or, when the call
    threw, the fixed text
    "죄송합니다. 메시지 전송에 실패했습니다. 다시 시도해주세요.",
    and the loading flag is cleared; a blank input, or a send while
    loading, changes nothing and sends nothing. *)
Theorem handleSend_appends_one_reply :
  forall (base : string) (paperId : Z) (fetch : FetchFn ChatResponse.t) (u : User.t)
         (st : ChatPage.State),
    let run := ChatPage.handleSend base paperId fetch (Some u) st in
    let api := ApiClient.chatWithPaper base fetch paperId (User.id u) (ChatPage.input st) in
    let question := {| ChatPage.role := ChatPage.user_role;
                       ChatPage.content := ChatPage.input st |} in
    ((all_whitespace (ChatPage.input st) || ChatPage.isLoading st)%bool = true ->
       run = ({| ChatPage.at_await := None; ChatPage.at_end := st |}, []))
    /\ (all_whitespace (ChatPage.input st) = false -> ChatPage.isLoading st = false ->
          exists pending reply,
            ChatPage.at_await (fst run) = Some pending
            /\ ChatPage.messages pending = ChatPage.messages st ++ [question]
            /\ ChatPage.isLoading pending = true
            /\ filter (fun e => is_Fetch e = true) (snd run) = snd api
            /\ ChatPage.messages (ChatPage.at_end (fst run))
               = ChatPage.messages pending
                 ++ [ {| ChatPage.role := ChatPage.assistant_role;
                         ChatPage.content := reply |} ]
            /\ reply = match fst api with
                       | Returns response => ChatResponse.answer response
                       | Throws _ =>
                           "죄송합니다. 메시지 전송에 실패했습니다. 다시 시도해주세요."
                       end
            /\ ChatPage.isLoading (ChatPage.at_end (fst run)) = false).
Proof.
  intros base paperId fetch u st. cbv zeta. unfold ChatPage.handleSend. split.
  - intros ->. reflexivity.
  - intros -> ->. cbn [orb].
    assert (Hlog : exists req, snd (ApiClient.chatWithPaper base fetch paperId (User.id u)
                                      (ChatPage.input st)) = [Fetch req]).
    { unfold ApiClient.chatWithPaper, ApiClient.request. cbn [snd]. eauto. }
    destruct Hlog as [req Hlog].
    destruct (ApiClient.chatWithPaper base fetch paperId (User.id u) (ChatPage.input st))
      as [[response|e] log]; cbn [fst snd] in *; subst log;
      do 2 eexists; repeat split.
Qed.

(** A question about a paper, answered by the backend; the same question
    when the network is down; and a draft of blanks. *)
Lemma handleSend_appends_one_reply_witness :
  let answered : FetchFn ChatResponse.t :=
    fun _ => Returns (ResponseOk (Returns
      (ChatResponse.mk 1 42 "What is RAG?" "Retrieval-augmented generation." "2024-01-15" []))) in
  let offline : FetchFn ChatResponse.t := fun _ => Throws (ThrownError "Failed to fetch") in
  let kim := User.mk 7 "kim" "NLP" "beginner" in
  let st := ChatPage.setInput "What is RAG?" ChatPage.initial in
  let blank := ChatPage.setInput "   " ChatPage.initial in
  let question := {| ChatPage.role := ChatPage.user_role; ChatPage.content := "What is RAG?" |} in
  let outcome (fetch : FetchFn ChatResponse.t) (text : string) :=
    let run := ChatPage.handleSend "" 42 fetch (Some kim) st in
    exists pending reply,
      ChatPage.at_await (fst run) = Some pending
      /\ ChatPage.messages pending = ChatPage.messages st ++ [question]
      /\ ChatPage.isLoading pending = true
      /\ filter (fun e => is_Fetch e = true) (snd run)
         = snd (ApiClient.chatWithPaper "" fetch 42 7 "What is RAG?")
      /\ ChatPage.messages (ChatPage.at_end (fst run))
         = ChatPage.messages pending
           ++ [ {| ChatPage.role := ChatPage.assistant_role; ChatPage.content := reply |} ]
      /\ reply = text
      /\ ChatPage.isLoading (ChatPage.at_end (fst run)) = false in
  outcome answered "Retrieval-augmented generation."
  /\ outcome offline "죄송합니다. 메시지 전송에 실패했습니다. 다시 시도해주세요."
  /\ ChatPage.messages (ChatPage.at_end (fst (ChatPage.handleSend "" 42 offline (Some kim) st)))
     = [ question;
         {| ChatPage.role := ChatPage.assistant_role;
            ChatPage.content := "죄송합니다. 메시지 전송에 실패했습니다. 다시 시도해주세요." |} ]
  /\ ChatPage.handleSend "" 42 answered (Some kim) blank
     = ({| ChatPage.at_await := None; ChatPage.at_end := blank |}, []).
Proof.
  intros answered offline kim st blank question outcome. repeat apply conj.
  - apply (proj2 (handleSend_appends_one_reply "" 42 answered kim st)); reflexivity.
  - apply (proj2 (handleSend_appends_one_reply "" 42 offline kim st)); reflexivity.
  - reflexivity.
  - apply (proj1 (handleSend_appends_one_reply "" 42 answered kim blank)). reflexivity.
Defined.

(** C9. The recommendations page keeps and shows the first three papers
    of the list the today-recommendations endpoint returns, in the
    server's order, and never more than three. *)
Theorem recommendations_show_first_three :
  forall (base : string) (fetch : FetchFn TodayRecommendations.t) (u : User.t)
         (st : RecommendationsPage.State) (data : TodayRecommendations.t),
    fst (ApiClient.getTodayRecommendations base fetch (User.id u)) = Returns data ->
    let st' := fst (RecommendationsPage.fetchRecommendations base fetch (Some u) st) in
    RecommendationsPage.papers st' = take 3 (TodayRecommendations.papers data)
    /\ RecommendationsPage.todayPapers st' = take 3 (TodayRecommendations.papers data)
    /\ (exists view,
          RecommendationsPage.render (Some u) st' = Some view
          /\ map RecommendationsPage.paper (RecommendationsPage.cards view)
             = take 3 (TodayRecommendations.papers data))
    /\ (forall (any : RecommendationsPage.State) (view : RecommendationsPage.View),
          RecommendationsPage.render (Some u) any = Some view ->
          (length (RecommendationsPage.cards view) <= 3)%nat).
Proof.
  intros base fetch u st data Hapi. cbv zeta.
  unfold RecommendationsPage.fetchRecommendations.
  destruct (ApiClient.getTodayRecommendations base fetch (User.id u)) as [r log].
  cbn [fst] in Hapi. subst r. cbn [fst RecommendationsPage.papers].
  assert (Htt : take 3 (take 3 (TodayRecommendations.papers data))
                = take 3 (TodayRecommendations.papers data)).
  { rewrite take_take. reflexivity. }
  split; [reflexivity|]. split; [|split].
  - unfold RecommendationsPage.todayPapers. cbn [RecommendationsPage.papers]. exact Htt.
  - eexists. split; [reflexivity|].
    cbn [RecommendationsPage.cards RecommendationsPage.isLoading RecommendationsPage.error
         truthy negb andb].
    unfold RecommendationsPage.todayPapers. cbn [RecommendationsPage.papers]. rewrite Htt.
    apply map_imap_id. reflexivity.
  - intros any view Hview. cbn [RecommendationsPage.render] in Hview.
    injection Hview as <-. cbn [RecommendationsPage.cards].
    destruct (negb (RecommendationsPage.isLoading any)
              && negb (truthy (RecommendationsPage.error any)))%bool.
    + unfold RecommendationsPage.todayPapers. rewrite length_imap, length_take. lia.
    + cbn [length]. lia.
Qed.

(** A server that sends five papers. *)
Lemma recommendations_show_first_three_witness :
  let paper_n (n : Z) := Paper.mk n "title" ["author"] "2024-01-15" false in
  let five := TodayRecommendations.mk "2024-01-15"
                [paper_n 1; paper_n 2; paper_n 3; paper_n 4; paper_n 5] 5 in
  let server : FetchFn TodayRecommendations.t :=
    fun _ => Returns (ResponseOk (Returns five)) in
  let kim := User.mk 7 "kim" "NLP" "beginner" in
  let st' := fst (RecommendationsPage.fetchRecommendations "" server (Some kim)
                    RecommendationsPage.initial) in
  RecommendationsPage.papers st' = [paper_n 1; paper_n 2; paper_n 3]
  /\ RecommendationsPage.todayPapers st' = [paper_n 1; paper_n 2; paper_n 3]
  /\ (exists view,
        RecommendationsPage.render (Some kim) st' = Some view
        /\ map RecommendationsPage.paper (RecommendationsPage.cards view)
           = [paper_n 1; paper_n 2; paper_n 3])
  /\ (length (RecommendationsPage.cards
                {| RecommendationsPage.loadingShown := true;
                   RecommendationsPage.errorShown := None;
                   RecommendationsPage.cards := [] |}) <= 3)%nat.
Proof.
  intros paper_n five server kim.
  destruct (recommendations_show_first_three "" server kim RecommendationsPage.initial five)
    as (Hstored & Htoday & Hview & Hbound); [reflexivity|].
  repeat split; try assumption.
  apply (Hbound RecommendationsPage.initial). reflexivity.
Defined.




(* ===================================================================== *)
(** ** The graph renderer *)
(* ===================================================================== *)

Module GraphFacts.
Import PaperGraph.

Lemma recommendedPositions_lookup (nodes : list Node.t) (i : nat) :
  recommendedPositions nodes !! i
  = (fun n => {| node := n; x := 100 + Z.of_nat i * 120; y := 150 |})
      <$> recommendedNodes nodes !! i.
Proof. unfold recommendedPositions. apply list_lookup_imap. Qed.

Lemma commonRefPositions_lookup (nodes : list Node.t) (j : nat) :
  commonRefPositions nodes !! j
  = (fun n => {| node := n; x := 200; y := 50 |}) <$> commonRefNodes nodes !! j.
Proof. unfold commonRefPositions. apply list_lookup_imap. Qed.

Lemma length_recommendedPositions (nodes : list Node.t) :
  length (recommendedPositions nodes) = length (recommendedNodes nodes).
Proof. unfold recommendedPositions. apply length_imap. Qed.

Lemma length_allNodePositions (nodes : list Node.t) :
  length (allNodePositions nodes) = length nodes.
Proof.
  unfold allNodePositions, recommendedPositions, commonRefPositions.
  rewrite length_app, !length_imap. unfold recommendedNodes, commonRefNodes.
  induction nodes as [|n nodes IH]; [reflexivity|].
  rewrite !filter_cons. destruct n as [i t k]. cbn [Node.type].
  destruct k; repeat case_decide; try congruence; cbn [length]; lia.
Qed.

(** A placed node is a node of the input, at the place the layout names. *)
Lemma placed_node (nodes : list Node.t) (p : Positioned) :
  In p (allNodePositions nodes) ->
  In (node p) nodes
  /\ ((exists i, recommendedNodes nodes !! i = Some (node p)
                 /\ x p = 100 + Z.of_nat i * 120 /\ y p = 150)
      \/ (Node.type (node p) = Node.common_reference /\ x p = 200 /\ y p = 50)).
Proof.
  intros Hin. apply list_elem_of_In, list_elem_of_lookup in Hin. destruct Hin as [k Hk].
  unfold allNodePositions in Hk. apply lookup_app_Some in Hk.
  destruct Hk as [Hk|[_ Hk]].
  - rewrite recommendedPositions_lookup in Hk.
    destruct (recommendedNodes nodes !! k) as [n|] eqn:Hn; [|discriminate].
    cbn in Hk. injection Hk as <-. cbn [node x y]. split.
    + apply list_elem_of_In. apply list_elem_of_lookup_2 in Hn.
      unfold recommendedNodes in Hn. apply list_elem_of_filter in Hn. tauto.
    + left. eauto.
  - rewrite commonRefPositions_lookup in Hk.
    destruct (commonRefNodes nodes !! _) as [n|] eqn:Hn; [|discriminate].
    cbn in Hk. injection Hk as <-. cbn [node x y].
    apply list_elem_of_lookup_2 in Hn.
    unfold commonRefNodes in Hn. apply list_elem_of_filter in Hn. split.
    + apply list_elem_of_In. tauto.
    + right. tauto.
Qed.

(** Every node of the input is placed. *)
Lemma node_is_placed (nodes : list Node.t) (n : Node.t) :
  In n nodes -> exists p, In p (allNodePositions nodes) /\ node p = n.
Proof.
  intros Hin. apply list_elem_of_In in Hin. unfold allNodePositions.
  destruct (Node.type n) eqn:Hk.
  - assert (Hf : n ∈ recommendedNodes nodes).
    { unfold recommendedNodes. apply list_elem_of_filter. tauto. }
    apply list_elem_of_lookup in Hf. destruct Hf as [i Hi].
    exists {| node := n; x := 100 + Z.of_nat i * 120; y := 150 |}. split; [|reflexivity].
    apply in_or_app. left. apply list_elem_of_In, list_elem_of_lookup. exists i.
    rewrite recommendedPositions_lookup, Hi. reflexivity.
  - assert (Hf : n ∈ commonRefNodes nodes).
    { unfold commonRefNodes. apply list_elem_of_filter. tauto. }
    apply list_elem_of_lookup in Hf. destruct Hf as [j Hj].
    exists {| node := n; x := 200; y := 50 |}. split; [|reflexivity].
    apply in_or_app. right. apply list_elem_of_In, list_elem_of_lookup. exists j.
    rewrite commonRefPositions_lookup, Hj. reflexivity.
Qed.

Lemma getNodePosition_Some (nodes : list Node.t) (id : Z) (p : Positioned) :
  getNodePosition nodes id = Some p ->
  In p (allNodePositions nodes) /\ Node.id (node p) = id.
Proof.
  unfold getNodePosition. intros H. apply find_some in H.
  destruct H as [Hin Heq]. split; [exact Hin|]. now apply Z.eqb_eq.
Qed.

(** [getNodePosition] finds nothing exactly for the ids of no node. *)
Lemma getNodePosition_None (nodes : list Node.t) (id : Z) :
  getNodePosition nodes id = None <-> (forall n, In n nodes -> Node.id n <> id).
Proof.
  unfold getNodePosition. split.
  - intros H n Hn Hid. destruct (node_is_placed nodes n Hn) as (p & Hp & <-).
    pose proof (find_none _ _ H p Hp) as Hne. cbn in Hne.
    apply Z.eqb_neq in Hne. contradiction.
  - intros H. destruct (find _ _) as [p|] eqn:Hf; [|reflexivity].
    apply find_some in Hf. destruct Hf as [Hin Heq]. apply Z.eqb_eq in Heq.
    destruct (placed_node nodes p Hin) as [Hn _]. now contradiction (H _ Hn).
Qed.

(** The id of a node of the input is found. *)
Lemma getNodePosition_of_node (nodes : list Node.t) (n : Node.t) :
  In n nodes -> exists p, getNodePosition nodes (Node.id n) = Some p.
Proof.
  intros Hn. destruct (getNodePosition nodes (Node.id n)) as [p|] eqn:Hp; [eauto|].
  pose proof (proj1 (getNodePosition_None nodes (Node.id n)) Hp n Hn) as Hne.
  now contradiction Hne.
Qed.

Lemma edge_elements_lookup (nodes : list Node.t) (edges : list Edge.t) (k : nat) :
  edge_elements (PaperGraph nodes edges) !! k = edge_element nodes <$> edges !! k.
Proof. unfold PaperGraph. cbn [edge_elements]. apply list_lookup_fmap. Qed.

End GraphFacts.

(** C4, as stated, fails for an edge one of whose ends is the id of no
    node: no line is drawn for it. *)
Lemma edge_to_unknown_node_has_no_line :
  let nodes := [Node.mk 1 "Attention" Node.recommended] in
  let edges := [Edge.mk 1 9 Edge.cites true] in
  PaperGraph.edge_elements (PaperGraph.PaperGraph nodes edges) = [None]
  /\ ~ PaperGraph.each_edge_is_drawn nodes edges.
Proof.
  cbv zeta. split; [reflexivity|]. intros H.
  destruct (H 0%nat (Edge.mk 1 9 Edge.cites true) eq_refl) as (x1 & y1 & x2 & y2 & c & Hk).
  discriminate Hk.
Qed.

(** C4, amended. The drawing of the default export is a function of the
    node and edge lists alone. The i-th node of type recommended, in input
    order from 0, is placed at (100 + 120 i, 150) and is the i-th group
    drawn: a box 80 wide and 40 high around that place and, at
    (100 + 120 i, 155), its title cut to five code units. The j-th node of
    type common_reference is placed at (200, 50) and is drawn after all
    recommended nodes: a box as wide as its title asks, centred on that
    place, and its whole title at (200, 55). Nothing else is drawn for
    nodes. An edge whose source and target are both ids of nodes is drawn
    as a line between the places of nodes with those ids, of stroke width
    3 when influential and 2 otherwise. *)
Theorem PaperGraph_layout :
  forall (nodes : list Node.t) (edges : list Edge.t),
    let drawing := PaperGraph.PaperGraph nodes edges in
    let placed := PaperGraph.allNodePositions nodes in
    let recommended := filter (fun n => Node.type n = Node.recommended) nodes in
    let common := filter (fun n => Node.type n = Node.common_reference) nodes in
    (forall (i : nat) (n : Node.t),
        recommended !! i = Some n ->
        let title := Node.title n in
        placed !! i
        = Some {| PaperGraph.node := n;
                  PaperGraph.x := 100 + 120 * Z.of_nat i; PaperGraph.y := 150 |}
        /\ PaperGraph.node_elements drawing !! i
           = Some (PaperGraph.g
                     [ PaperGraph.rect (inject_Z (100 + 120 * Z.of_nat i - 40)) 130 80 40 10 10
                         "text-accent";
                       PaperGraph.text (100 + 120 * Z.of_nat i) 155
                         "text-xs font-bold fill-accent-foreground"
                         (if Nat.ltb 5 (PaperGraph.js_length title)
                          then PaperGraph.js_slice0 5 title +:+ "..." else title) ]))
    /\ (forall (j : nat) (n : Node.t),
          common !! j = Some n ->
          let title := Node.title n in
          let width := inject_Z (Z.of_nat (PaperGraph.js_length title) * 7 + 10) in
          placed !! (length recommended + j)%nat
          = Some {| PaperGraph.node := n; PaperGraph.x := 200; PaperGraph.y := 50 |}
          /\ PaperGraph.node_elements drawing !! (length recommended + j)%nat
             = Some (PaperGraph.g
                       [ PaperGraph.rect (200 - width / 2)%Q 30 width 40 10 10 "text-primary";
                         PaperGraph.text 200 55 "text-xs font-bold fill-primary-foreground"
                           title ]))
    /\ (length recommended + length common = length nodes)%nat
    /\ length (PaperGraph.node_elements drawing) = length nodes
    /\ (forall (k : nat) (edge : Edge.t),
          edges !! k = Some edge ->
          (exists n, In n nodes /\ Node.id n = Edge.source edge) ->
          (exists n, In n nodes /\ Node.id n = Edge.target edge) ->
          exists sourcePos targetPos,
            (In sourcePos placed /\ Node.id (PaperGraph.node sourcePos) = Edge.source edge)
            /\ (In targetPos placed /\ Node.id (PaperGraph.node targetPos) = Edge.target edge)
            /\ PaperGraph.edge_elements drawing !! k
               = Some (Some (PaperGraph.line
                               (PaperGraph.x sourcePos) (PaperGraph.y sourcePos)
                               (PaperGraph.x targetPos) (PaperGraph.y targetPos)
                               (if Edge.is_influential edge then 3 else 2)
                               (if Edge.is_influential edge
                                then "text-primary/60" else "text-primary/40")))).
Proof.
  intros nodes edges. cbv zeta.
  assert (Hrec : forall i n,
             filter (fun n => Node.type n = Node.recommended) nodes !! i = Some n ->
             PaperGraph.allNodePositions nodes !! i
             = Some {| PaperGraph.node := n;
                       PaperGraph.x := 100 + 120 * Z.of_nat i; PaperGraph.y := 150 |}).
  { intros i n Hi. unfold PaperGraph.allNodePositions.
    assert (Hlt : (i < length (PaperGraph.recommendedPositions nodes))%nat).
    { rewrite GraphFacts.length_recommendedPositions.
      apply lookup_lt_Some with n. exact Hi. }
    rewrite lookup_app_l by exact Hlt.
    rewrite GraphFacts.recommendedPositions_lookup.
    unfold PaperGraph.recommendedNodes. rewrite Hi. cbn.
    do 2 f_equal. lia. }
  assert (Hcom : forall j n,
             filter (fun n => Node.type n = Node.common_reference) nodes !! j = Some n ->
             PaperGraph.allNodePositions nodes
               !! (length (filter (fun n => Node.type n = Node.recommended) nodes) + j)%nat
             = Some {| PaperGraph.node := n; PaperGraph.x := 200; PaperGraph.y := 50 |}).
  { intros j n Hj. unfold PaperGraph.allNodePositions.
    rewrite lookup_app_r
      by (rewrite GraphFacts.length_recommendedPositions;
          unfold PaperGraph.recommendedNodes; lia).
    rewrite GraphFacts.length_recommendedPositions. unfold PaperGraph.recommendedNodes.
    replace (_ + j - _)%nat with j by lia.
    rewrite GraphFacts.commonRefPositions_lookup.
    unfold PaperGraph.commonRefNodes. rewrite Hj. reflexivity. }
  repeat apply conj.
  - intros i n Hi. split; [now apply Hrec|].
    unfold PaperGraph.PaperGraph. cbn [PaperGraph.node_elements].
    rewrite list_lookup_fmap, (Hrec i n Hi). cbn [fmap option_fmap option_map].
    apply list_elem_of_lookup_2, list_elem_of_filter in Hi. destruct Hi as [Hk _].
    unfold PaperGraph.node_element. cbn [PaperGraph.node PaperGraph.x PaperGraph.y].
    rewrite Hk. reflexivity.
  - intros j n Hj. split; [now apply Hcom|].
    unfold PaperGraph.PaperGraph. cbn [PaperGraph.node_elements].
    rewrite list_lookup_fmap, (Hcom j n Hj). cbn [fmap option_fmap option_map].
    apply list_elem_of_lookup_2, list_elem_of_filter in Hj. destruct Hj as [Hk _].
    unfold PaperGraph.node_element. cbn [PaperGraph.node PaperGraph.x PaperGraph.y].
    rewrite Hk. reflexivity.
  - pose proof (GraphFacts.length_allNodePositions nodes) as Hlen.
    unfold PaperGraph.allNodePositions in Hlen.
    rewrite length_app, GraphFacts.length_recommendedPositions in Hlen.
    unfold PaperGraph.commonRefPositions in Hlen. rewrite length_imap in Hlen.
    exact Hlen.
  - unfold PaperGraph.PaperGraph. cbn [PaperGraph.node_elements].
    rewrite length_map. apply GraphFacts.length_allNodePositions.
  - intros k edge Hk [ns [Hns Hids]] [nt [Hnt Hidt]].
    destruct (GraphFacts.getNodePosition_of_node nodes ns Hns) as [sourcePos Hs].
    destruct (GraphFacts.getNodePosition_of_node nodes nt Hnt) as [targetPos Ht].
    rewrite Hids in Hs. rewrite Hidt in Ht.
    exists sourcePos, targetPos. repeat apply conj.
    + now apply GraphFacts.getNodePosition_Some in Hs.
    + now apply GraphFacts.getNodePosition_Some in Hs.
    + now apply GraphFacts.getNodePosition_Some in Ht.
    + now apply GraphFacts.getNodePosition_Some in Ht.
    + rewrite GraphFacts.edge_elements_lookup, Hk. cbn.
      unfold PaperGraph.edge_element. rewrite Hs, Ht. reflexivity.
Qed.

(** Two recommended papers that cite a common reference. *)
Lemma PaperGraph_layout_witness :
  let a := Node.mk 1 "Attention" Node.recommended in
  let r := Node.mk 2 "RAG" Node.common_reference in
  let b := Node.mk 3 "BERT" Node.recommended in
  let nodes := [a; r; b] in
  let edges := [Edge.mk 3 2 Edge.cites true; Edge.mk 1 2 Edge.cites false] in
  let drawing := PaperGraph.PaperGraph nodes edges in
  (PaperGraph.allNodePositions nodes !! 1%nat
   = Some {| PaperGraph.node := b; PaperGraph.x := 100 + 120 * 1; PaperGraph.y := 150 |}
   /\ PaperGraph.node_elements drawing !! 1%nat
      = Some (PaperGraph.g
                [ PaperGraph.rect (inject_Z (100 + 120 * 1 - 40)) 130 80 40 10 10 "text-accent";
                  PaperGraph.text (100 + 120 * 1) 155
                    "text-xs font-bold fill-accent-foreground" "BERT" ]))
  /\ (PaperGraph.allNodePositions nodes !! 2%nat
      = Some {| PaperGraph.node := r; PaperGraph.x := 200; PaperGraph.y := 50 |}
      /\ PaperGraph.node_elements drawing !! 2%nat
         = Some (PaperGraph.g
                   [ PaperGraph.rect (200 - inject_Z (3 * 7 + 10) / 2)%Q 30
                       (inject_Z (3 * 7 + 10)) 40 10 10 "text-primary";
                     PaperGraph.text 200 55 "text-xs font-bold fill-primary-foreground"
                       "RAG" ]))
  /\ (exists sourcePos targetPos,
        (In sourcePos (PaperGraph.allNodePositions nodes)
         /\ Node.id (PaperGraph.node sourcePos) = 3)
        /\ (In targetPos (PaperGraph.allNodePositions nodes)
            /\ Node.id (PaperGraph.node targetPos) = 2)
        /\ PaperGraph.edge_elements drawing !! 0%nat
           = Some (Some (PaperGraph.line
                           (PaperGraph.x sourcePos) (PaperGraph.y sourcePos)
                           (PaperGraph.x targetPos) (PaperGraph.y targetPos)
                           3 "text-primary/60"))).
Proof.
  intros a r b nodes edges drawing.
  destruct (PaperGraph_layout nodes edges) as (Hrec & Hcommon & _ & _ & Hedge).
  repeat apply conj.
  - apply (Hrec 1%nat b). reflexivity.
  - apply (Hrec 1%nat b). reflexivity.
  - apply (Hcommon 0%nat r). reflexivity.
  - apply (Hcommon 0%nat r). reflexivity.
  - apply (Hedge 0%nat (Edge.mk 3 2 Edge.cites true)).
    + reflexivity.
    + exists b. split; [right; right; left|]; reflexivity.
    + exists r. split; [right; left|]; reflexivity.
Defined.

(** C10. The renderer has an entry for every edge, whatever the input;
    for an edge whose source id or target id is the id of no node the
    entry is the empty one: the edge is skipped. *)
Theorem dangling_edges_are_skipped :
  forall (nodes : list Node.t) (edges : list Edge.t),
    length (PaperGraph.edge_elements (PaperGraph.PaperGraph nodes edges)) = length edges
    /\ (forall (k : nat) (edge : Edge.t),
          edges !! k = Some edge ->
          (forall n, In n nodes -> Node.id n <> Edge.source edge)
          \/ (forall n, In n nodes -> Node.id n <> Edge.target edge) ->
          PaperGraph.edge_elements (PaperGraph.PaperGraph nodes edges) !! k = Some None).
Proof.
  intros nodes edges. split.
  - unfold PaperGraph.PaperGraph. cbn [PaperGraph.edge_elements]. apply length_map.
  - intros k edge Hk Hdangling.
    rewrite GraphFacts.edge_elements_lookup, Hk. cbn. f_equal.
    unfold PaperGraph.edge_element.
    destruct Hdangling as [H|H]; apply GraphFacts.getNodePosition_None in H; rewrite H.
    + reflexivity.
    + now destruct (PaperGraph.getNodePosition nodes (Edge.source edge)).
Qed.

(** An edge to a paper that is not among the nodes. *)
Lemma dangling_edges_are_skipped_witness :
  let nodes := [Node.mk 1 "Attention" Node.recommended;
                Node.mk 2 "RAG" Node.common_reference] in
  let edges := [Edge.mk 1 2 Edge.cites true; Edge.mk 1 9 Edge.cites false] in
  PaperGraph.edge_elements (PaperGraph.PaperGraph nodes edges) !! 1%nat = Some None.
Proof.
  intros nodes edges.
  apply (proj2 (dangling_edges_are_skipped nodes edges) 1%nat (Edge.mk 1 9 Edge.cites false)).
  - reflexivity.
  - right. intros n [<-|[<-|[]]]; cbn; lia.
Defined.

(* ===================================================================== *)
(** * Further properties of the code *)
(* ===================================================================== *)

(** ** The session store, beyond its invariant *)

Module StoreFacts.
Import AuthProvider.

Lemma session_eta (s : Session) :
  {| user := user s; localStorage := localStorage s |} = s.
Proof. destruct s; reflexivity. Qed.

(** A reload: the provider mounts anew, with no user in memory, over the
    storage the session left. *)
Lemma reload_consistent (s : Session) :
  consistent s -> useEffect (setUser None s) = Restored s.
Proof.
  intros Hs. unfold consistent in Hs. unfold useEffect.
  rewrite AuthFacts.getItem_setUser.
  destruct (user s) as [u|] eqn:Hu; rewrite Hs.
  - destruct (JSONFacts.stringify_User_nonempty u) as (c & rest & Hc).
    rewrite Hc. cbv beta iota. rewrite <- Hc.
    rewrite JSONFacts.parse_stringify_User.
    unfold User_to_json at 1. fold (User_to_json u).
    rewrite JSONFacts.User_of_to_json.
    f_equal. unfold setUser. cbn [localStorage]. rewrite <- Hu. apply session_eta.
  - f_equal. unfold setUser. cbn [localStorage]. rewrite <- Hu. apply session_eta.
Qed.

Lemma getItem_setItem_ne (k key value : string) (s : Session) :
  k <> key -> getItem k (setItem key value s) = getItem k s.
Proof.
  intros Hne. unfold getItem, setItem. cbn [localStorage].
  apply lookup_insert_ne. congruence.
Qed.

Lemma getItem_removeItem_ne (k key : string) (s : Session) :
  k <> key -> getItem k (removeItem key s) = getItem k s.
Proof.
  intros Hne. unfold getItem, removeItem. cbn [localStorage].
  apply lookup_delete_ne. congruence.
Qed.

Lemma getItem_run_other (base : string) (op : Operation) (s : Session) (k : string) :
  k <> "user" -> getItem k (run base op s) = getItem k s.
Proof.
  intros Hne. destruct op; cbn [run].
  - unfold signup. destruct (ApiClient.register _ _ _ _ _ _) as [[response|e] log];
      cbn [fst snd]; [|reflexivity].
    now rewrite getItem_setItem_ne.
  - unfold login. destruct (ApiClient.login _ _ _ _) as [[response|e] log];
      cbn [fst snd]; [|reflexivity].
    now rewrite getItem_setItem_ne.
  - unfold logout. now rewrite getItem_removeItem_ne.
  - unfold updateInterest. destruct (user s); [|reflexivity].
    now rewrite getItem_setItem_ne.
  - unfold updateLevel. destruct (user s); [|reflexivity].
    now rewrite getItem_setItem_ne.
  - unfold updateProfile. destruct (user s) as [u|]; [|reflexivity].
    destruct (ApiClient.updateProfile _ _ _ _) as [[response|e] log];
      cbn [fst snd]; [|reflexivity].
    now rewrite getItem_setItem_ne.
Qed.

End StoreFacts.

(** X1. [signup] returns true exactly when the API register call
    succeeds. On success the user of the response is in memory and under
    key "user", and a reload restores that user; on failure the session is
    unchanged and the user is alerted with the error's message. *)
Theorem signup_true_iff_api_succeeds :
  forall (base : string) (fetch : FetchFn RegisterResponse.t)
         (username password interest level : string) (s : AuthProvider.Session),
    let api := ApiClient.register base fetch username password interest level in
    let run := AuthProvider.signup base fetch username password interest level s in
    (fst (fst run) = true <-> exists response, fst api = Returns response)
    /\ (forall response, fst api = Returns response ->
          let newUser := {| User.id := RegisterResponse.user_id response;
                            User.username := RegisterResponse.username response;
                            User.interest := RegisterResponse.interest response;
                            User.level := RegisterResponse.level response |} in
          AuthProvider.user (snd (fst run)) = Some newUser
          /\ AuthProvider.useEffect (AuthProvider.setUser None (snd (fst run)))
             = AuthProvider.Restored (snd (fst run))
          /\ snd run = snd api)
    /\ (forall e, fst api = Throws e ->
          fst run = (false, s)
          /\ snd run = snd api ++ [ConsoleError "Signup failed:" e;
                                   Alert (message_or e "회원가입에 실패했습니다.")]).
Proof.
  intros base fetch username password interest level s. cbv zeta.
  unfold AuthProvider.signup.
  destruct (ApiClient.register base fetch username password interest level)
    as [[response|e] log]; cbn [fst snd]; repeat apply conj.
  - eauto.
  - reflexivity.
  - intros r Hr. injection Hr as <-. repeat apply conj; try reflexivity.
    apply StoreFacts.reload_consistent, AuthFacts.consistent_store.
  - intros e H. discriminate H.
  - discriminate.
  - intros [r H]. discriminate H.
  - intros r H. discriminate H.
  - intros e' H. injection H as <-. split; reflexivity.
Qed.

(** A sign-up the backend accepts, and one it refuses. *)
Lemma signup_true_iff_api_succeeds_witness :
  let created := RegisterResponse.mk 8 "lee" "RAG" "beginner" "2024-01-15" in
  let accepted : FetchFn RegisterResponse.t :=
    fun _ => Returns (ResponseOk (Returns created)) in
  let refused : FetchFn RegisterResponse.t :=
    fun _ => Returns (ResponseNotOk (Returns {| error_type := "about:blank";
                                                error_title := "Conflict";
                                                error_status := 409;
                                                detail := Some "username taken" |})) in
  let s := {| AuthProvider.user := None; AuthProvider.localStorage := ∅ |} in
  AuthProvider.user (snd (fst (AuthProvider.signup "" accepted "lee" "pw" "RAG" "beginner" s)))
  = Some (User.mk 8 "lee" "RAG" "beginner")
  /\ fst (AuthProvider.signup "" refused "lee" "pw" "RAG" "beginner" s) = (false, s).
Proof.
  intros created accepted refused s. split.
  - apply (proj1 (proj2 (signup_true_iff_api_succeeds "" accepted "lee" "pw" "RAG"
                           "beginner" s)) created). reflexivity.
  - apply (proj2 (proj2 (signup_true_iff_api_succeeds "" refused "lee" "pw" "RAG"
                           "beginner" s)) (ThrownError "username taken")). reflexivity.
Defined.

(** X2. A reload at any point of a session restores exactly the user the
    session had: when the entry under key "user" was absent or written by
    the store at the first mount, then after any sequence of store
    operations a new mount over the storage they left ends in the same
    session, the same user in memory included. *)
Theorem reload_restores_session :
  forall (base : string) (s : AuthProvider.Session) (ops : list AuthProvider.Operation),
    AuthProvider.user s = None -> AuthProvider.written_by_store s ->
    exists s0,
      AuthProvider.useEffect s = AuthProvider.Restored s0
      /\ AuthProvider.useEffect
           (AuthProvider.setUser None (AuthProvider.run_all base ops s0))
         = AuthProvider.Restored (AuthProvider.run_all base ops s0).
Proof.
  intros base s ops Hnone Hw.
  destruct (AuthFacts.useEffect_written_by_store s Hnone Hw) as (s0 & Hload & Hs0).
  exists s0. split; [exact Hload|].
  apply StoreFacts.reload_consistent. now apply AuthFacts.consistent_run_all.
Qed.

(** A first visit: log in, raise the level, reload. *)
Lemma reload_restores_session_witness :
  let accepted : FetchFn LoginResponse.t :=
    fun _ => Returns (ResponseOk (Returns (LoginResponse.mk 7 "kim" "NLP" "beginner"))) in
  let fresh := {| AuthProvider.user := None; AuthProvider.localStorage := ∅ |} in
  let ops := [AuthProvider.OpLogin accepted "kim" "pw"; AuthProvider.OpUpdateLevel "advanced"] in
  exists s0,
    AuthProvider.useEffect fresh = AuthProvider.Restored s0
    /\ AuthProvider.useEffect (AuthProvider.setUser None (AuthProvider.run_all "" ops s0))
       = AuthProvider.Restored (AuthProvider.run_all "" ops s0).
Proof.
  intros accepted fresh ops.
  apply (reload_restores_session "" fresh ops); reflexivity.
Defined.

(** X3. [logout], and [handleLogout] of the profile page with it, leaves
    no user in memory and no entry under key "user" whatever the session
    was, redirects to /login, and a reload afterwards restores nobody;
    logging out twice is logging out once. *)
Theorem logout_clears_session :
  forall s : AuthProvider.Session,
    let s' := fst (MyPage.handleLogout s) in
    s' = AuthProvider.logout s
    /\ snd (MyPage.handleLogout s) = [RouterPush "/login"]
    /\ AuthProvider.user s' = None
    /\ AuthProvider.getItem "user" s' = None
    /\ AuthProvider.useEffect s' = AuthProvider.Restored s'
    /\ AuthProvider.logout s' = s'.
Proof.
  intros s. cbv zeta. unfold MyPage.handleLogout. cbn [fst snd].
  repeat apply conj; try reflexivity.
  - apply AuthFacts.getItem_removeItem.
  - unfold AuthProvider.useEffect, AuthProvider.logout.
    now rewrite AuthFacts.getItem_removeItem.
  - unfold AuthProvider.logout, AuthProvider.removeItem, AuthProvider.setUser.
    cbn [AuthProvider.user AuthProvider.localStorage]. f_equal.
    apply delete_id. apply lookup_delete_eq.
Qed.

(** X4. The store keeps to its key: no operation changes what is stored
    under a key other than "user", and the mount effect never writes to
    storage at all. *)
Theorem store_touches_only_its_key :
  (forall (base : string) (op : AuthProvider.Operation) (s : AuthProvider.Session)
          (k : string),
      k <> "user" ->
      AuthProvider.getItem k (AuthProvider.run base op s) = AuthProvider.getItem k s)
  /\ (forall s s' : AuthProvider.Session,
         AuthProvider.useEffect s = AuthProvider.Restored s' ->
         AuthProvider.localStorage s' = AuthProvider.localStorage s).
Proof.
  split.
  - intros base op s k Hk. now apply StoreFacts.getItem_run_other.
  - intros s s' H. unfold AuthProvider.useEffect in H.
    repeat match type of H with
           | context [match ?x with _ => _ end] => destruct x
           end;
      try discriminate H; injection H as <-; reflexivity.
Qed.

(** A theme setting next to the session entry survives a logout, and a
    mount that restores a user leaves the storage as it found it. *)
Lemma store_touches_only_its_key_witness :
  let kim := User.mk 7 "kim" "NLP" "beginner" in
  let s := {| AuthProvider.user := Some kim;
              AuthProvider.localStorage := {[ "theme" := "dark" ]} |} in
  let stored := {| AuthProvider.user := None;
                   AuthProvider.localStorage :=
                     {[ "user" := JSON.stringify (AuthProvider.User_to_json kim) ]} |} in
  AuthProvider.getItem "theme" (AuthProvider.run "" AuthProvider.OpLogout s) = Some "dark"
  /\ AuthProvider.localStorage (AuthProvider.setUser (Some kim) stored)
     = AuthProvider.localStorage stored.
Proof.
  intros kim s stored. destruct store_touches_only_its_key as [Hrun Hload]. split.
  - rewrite (Hrun "" AuthProvider.OpLogout s "theme"); [reflexivity|discriminate].
  - apply (Hload stored (AuthProvider.setUser (Some kim) stored)). reflexivity.
Defined.

(** X5. [updateInterest] and [updateLevel] build the new user from the
    user of the render that created them, changing the one field they are
    named after, in memory and under key "user"; in a render without a
    user they do nothing. Called from successive renders, the second from
    the render that shows what the first has set, they leave in either
    order the session a successful [updateProfile] with the same values
    leaves. Called one after the other from the same render, the later
    call overwrites the earlier: the session is the one the later call
    alone leaves. *)
Theorem updateInterest_updateLevel_compose :
  forall (base : string) (fetch : FetchFn UpdateProfileResponse.t) (interest level : string)
         (s : AuthProvider.Session),
    let stored (u : User.t) :=
      AuthProvider.setItem "user" (JSON.stringify (AuthProvider.User_to_json u))
        (AuthProvider.setUser (Some u) s) in
    (AuthProvider.updateInterest_of None interest s = s
     /\ AuthProvider.updateLevel_of None level s = s)
    /\ (AuthProvider.updateInterest_of (AuthProvider.user s) interest s
        = AuthProvider.updateInterest interest s
        /\ AuthProvider.updateLevel_of (AuthProvider.user s) level s
           = AuthProvider.updateLevel level s)
    /\ (forall u, AuthProvider.user s = Some u ->
          let both := {| User.id := User.id u; User.username := User.username u;
                         User.interest := interest; User.level := level |} in
          let after_interest := AuthProvider.updateInterest_of (Some u) interest s in
          let after_level := AuthProvider.updateLevel_of (Some u) level s in
          after_interest
          = stored {| User.id := User.id u; User.username := User.username u;
                      User.interest := interest; User.level := User.level u |}
          /\ after_level
             = stored {| User.id := User.id u; User.username := User.username u;
                         User.interest := User.interest u; User.level := level |}
          /\ AuthProvider.updateLevel_of (AuthProvider.user after_interest) level
               after_interest = stored both
          /\ AuthProvider.updateInterest_of (AuthProvider.user after_level) interest
               after_level = stored both
          /\ (forall response,
                fst (ApiClient.updateProfile base fetch (User.id u)
                       {| ProfileData.interest := interest; ProfileData.level := level |})
                = Returns response ->
                snd (fst (AuthProvider.updateProfile base fetch interest level s))
                = stored both)
          /\ AuthProvider.updateLevel_of (Some u) level after_interest = after_level
          /\ AuthProvider.updateInterest_of (Some u) interest after_level = after_interest).
Proof.
  intros base fetch interest level s. cbv zeta.
  split; [split; reflexivity|]. split; [split; reflexivity|].
  intros u Hu.
  assert (Hover : forall v w : User.t,
             AuthProvider.setItem "user" (JSON.stringify (AuthProvider.User_to_json w))
               (AuthProvider.setUser (Some w)
                  (AuthProvider.setItem "user" (JSON.stringify (AuthProvider.User_to_json v))
                     (AuthProvider.setUser (Some v) s)))
             = AuthProvider.setItem "user" (JSON.stringify (AuthProvider.User_to_json w))
                 (AuthProvider.setUser (Some w) s)).
  { intros v w. unfold AuthProvider.setItem, AuthProvider.setUser.
    cbn [AuthProvider.user AuthProvider.localStorage]. f_equal. apply insert_insert_eq. }
  unfold AuthProvider.updateInterest_of, AuthProvider.updateLevel_of.
  repeat apply conj; try reflexivity.
  - cbn [AuthProvider.user AuthProvider.setItem AuthProvider.setUser
         User.id User.username User.interest User.level].
    apply Hover.
  - cbn [AuthProvider.user AuthProvider.setItem AuthProvider.setUser
         User.id User.username User.interest User.level].
    apply Hover.
  - intros response Hr. unfold AuthProvider.updateProfile. rewrite Hu.
    destruct (ApiClient.updateProfile base fetch (User.id u) _) as [r log].
    cbn [fst] in Hr. subst r. reflexivity.
  - apply Hover.
  - apply Hover.
Qed.

(** Kim moves from beginner NLP to advanced RAG: field by field over two
    renders, and with both setters of one render. *)
Lemma updateInterest_updateLevel_compose_witness :
  let accepted : FetchFn UpdateProfileResponse.t :=
    fun _ => Returns (ResponseOk (Returns
      {| UpdateProfileResponse.message := "updated";
         UpdateProfileResponse.user := LoginResponse.mk 7 "kim" "RAG" "advanced" |})) in
  let kim := User.mk 7 "kim" "NLP" "beginner" in
  let s := {| AuthProvider.user := Some kim; AuthProvider.localStorage := ∅ |} in
  let after_interest := AuthProvider.updateInterest_of (Some kim) "RAG" s in
  AuthProvider.user after_interest = Some (User.mk 7 "kim" "RAG" "beginner")
  /\ AuthProvider.updateLevel_of (AuthProvider.user after_interest) "advanced" after_interest
     = snd (fst (AuthProvider.updateProfile "" accepted "RAG" "advanced" s))
  /\ AuthProvider.user (AuthProvider.updateLevel_of (Some kim) "advanced" after_interest)
     = Some (User.mk 7 "kim" "NLP" "advanced").
Proof.
  intros accepted kim s after_interest.
  destruct (updateInterest_updateLevel_compose "" accepted "RAG" "advanced" s)
    as (_ & _ & Hkim).
  destruct (Hkim kim eq_refl) as (Hi & _ & Hnext & _ & Hp & Hsame & _).
  repeat apply conj.
  - unfold after_interest. rewrite Hi. reflexivity.
  - unfold after_interest. rewrite Hnext.
    symmetry. apply (Hp {| UpdateProfileResponse.message := "updated";
                           UpdateProfileResponse.user :=
                             LoginResponse.mk 7 "kim" "RAG" "advanced" |}).
    reflexivity.
  - unfold after_interest. rewrite Hsame. reflexivity.
Defined.

(** X6. What the user is told when a login fails is what the backend
    said: for a response that is not ok and carries a non-empty [detail],
    [login] makes the one request, logs the error and alerts with exactly
    that [detail]; a login that succeeds alerts nothing. *)
Theorem failed_login_alerts_detail :
  forall (base : string) (fetch : FetchFn LoginResponse.t) (username password : string)
         (s : AuthProvider.Session),
  exists req,
    snd (ApiClient.login base fetch username password) = [Fetch req]
    /\ (forall error d,
          fetch req = Returns (ResponseNotOk (Returns error)) ->
          detail error = Some d -> d <> "" ->
          AuthProvider.login base fetch username password s
          = ((false, s), [Fetch req; ConsoleError "Login failed:" (ThrownError d); Alert d]))
    /\ (forall response,
          fetch req = Returns (ResponseOk (Returns response)) ->
          snd (AuthProvider.login base fetch username password s) = [Fetch req]).
Proof.
  intros base fetch username password s.
  unfold AuthProvider.login, ApiClient.login, ApiClient.request.
  eexists. split; [reflexivity|]. split.
  - intros error d Hf Hd Hne. rewrite Hf, Hd.
    destruct d as [|c d]; [now contradiction Hne|]. reflexivity.
  - intros response Hf. rewrite Hf. reflexivity.
Qed.

(** A wrong password, as the backend words it. *)
Lemma failed_login_alerts_detail_witness :
  let wrong := {| error_type := "about:blank"; error_title := "Unauthorized";
                  error_status := 401; detail := Some "wrong password" |} in
  let refused : FetchFn LoginResponse.t := fun _ => Returns (ResponseNotOk (Returns wrong)) in
  let s := {| AuthProvider.user := None; AuthProvider.localStorage := ∅ |} in
  map (fun e => match e with Alert m => Some m | _ => None end)
      (snd (AuthProvider.login "" refused "kim" "pw" s))
  = [None; None; Some "wrong password"].
Proof.
  intros wrong refused s.
  destruct (failed_login_alerts_detail "" refused "kim" "pw" s) as (req & _ & Hfail & _).
  rewrite (Hfail wrong "wrong password" eq_refl eq_refl); [reflexivity|discriminate].
Defined.

(** ** The requests of the API client *)

Module RequestFacts.

(** A number printed in front of text that cannot continue it is read
    back from the whole. *)
Lemma Number_toString_app_inj (a b : Z) (rest : string) :
  JSON.ends_numeral rest = true ->
  Number_toString a +:+ rest = Number_toString b +:+ rest -> a = b.
Proof.
  intros Hrest Heq.
  pose proof (JSONFacts.parse_number_toString a rest Hrest) as Ha.
  pose proof (JSONFacts.parse_number_toString b rest Hrest) as Hb.
  rewrite Heq in Ha. rewrite Ha in Hb. now injection Hb.
Qed.

Lemma app_inj_l (p x y : string) : p +:+ x = p +:+ y -> x = y.
Proof.
  induction p as [|c p IH]; [trivial|].
  rewrite !append_cons. intros H. injection H as H. now apply IH.
Qed.

Lemma request_url (base : string) {T : Type} (fetch : FetchFn T) (endpoint : string)
    (options : RequestInit) (req : HttpRequest) :
  snd (ApiClient.request base fetch endpoint options) = [Fetch req] ->
  url req = base +:+ endpoint /\ body req = init_body options
  /\ method req = init_method options.
Proof.
  unfold ApiClient.request. cbn [snd]. intros H. injection H as <-. repeat split.
Qed.

(** Two requests of one method, built for two user ids in the path, are
    the same request only for the same user. *)
Lemma path_user_inj (base : string) {T : Type} (fetch : FetchFn T)
    (before after : string) (options : RequestInit) (u1 u2 : Z) :
  JSON.ends_numeral after = true ->
  snd (ApiClient.request base fetch (before +:+ Number_toString u1 +:+ after) options)
  = snd (ApiClient.request base fetch (before +:+ Number_toString u2 +:+ after) options) ->
  u1 = u2.
Proof.
  intros Hafter H. unfold ApiClient.request in H. cbn [snd] in H.
  injection H as H. apply app_inj_l, app_inj_l in H.
  now apply Number_toString_app_inj in H.
Qed.

End RequestFacts.

(** X7. Unlike [addPaperByArxivId], every other endpoint method that
    takes a user id sends it: two calls of the same method that differ
    only in the user id never issue the same request. *)
Theorem requests_tell_users_apart :
  forall (base : string) (u1 u2 : Z),
    u1 <> u2 ->
    (forall fetch, snd (ApiClient.getAdvice base fetch u1)
                   <> snd (ApiClient.getAdvice base fetch u2))
    /\ (forall fetch i, snd (ApiClient.acceptInterestChange base fetch u1 i)
                        <> snd (ApiClient.acceptInterestChange base fetch u2 i))
    /\ (forall fetch l, snd (ApiClient.acceptLevelChange base fetch u1 l)
                        <> snd (ApiClient.acceptLevelChange base fetch u2 l))
    /\ (forall fetch, snd (ApiClient.getTodayRecommendations base fetch u1)
                      <> snd (ApiClient.getTodayRecommendations base fetch u2))
    /\ (forall fetch, snd (ApiClient.getTodayRecommendationsRelations base fetch u1)
                      <> snd (ApiClient.getTodayRecommendationsRelations base fetch u2))
    /\ (forall fetch p r, snd (ApiClient.requestPaper base fetch u1 p r)
                          <> snd (ApiClient.requestPaper base fetch u2 p r))
    /\ (forall fetch, snd (ApiClient.getPapersHistory base fetch u1)
                      <> snd (ApiClient.getPapersHistory base fetch u2))
    /\ (forall fetch p, snd (ApiClient.getPaperDetail base fetch p u1)
                        <> snd (ApiClient.getPaperDetail base fetch p u2))
    /\ (forall fetch d, snd (ApiClient.updateProfile base fetch u1 d)
                        <> snd (ApiClient.updateProfile base fetch u2 d))
    /\ (forall fetch p q, snd (ApiClient.chatWithPaper base fetch p u1 q)
                          <> snd (ApiClient.chatWithPaper base fetch p u2 q)).
Proof.
  intros base u1 u2 Hne. repeat apply conj; intros; intros H; apply Hne.
  - now apply (RequestFacts.path_user_inj base fetch "/" "/advice") in H.
  - now apply (RequestFacts.path_user_inj base fetch "/" "/advice/accept-interest") in H.
  - now apply (RequestFacts.path_user_inj base fetch "/" "/advice/accept-level") in H.
  - now apply (RequestFacts.path_user_inj base fetch "/" "/recommendations/today") in H.
  - now apply (RequestFacts.path_user_inj base fetch "/"
                 "/recommendations/today/relations1") in H.
  - now apply (RequestFacts.path_user_inj base fetch "/"
                 "/recommendations/request-paper1") in H.
  - now apply (RequestFacts.path_user_inj base fetch "/" "/papers/history") in H.
  - unfold ApiClient.getPaperDetail in H.
    rewrite <- (append_assoc "/papers/" (Number_toString p) ("/" +:+ Number_toString u1)),
            <- (append_assoc "/papers/" (Number_toString p) ("/" +:+ Number_toString u2)),
            <- !(append_assoc ("/papers/" +:+ Number_toString p) "/") in H.
    rewrite <- (append_empty_r (Number_toString u1)),
            <- (append_empty_r (Number_toString u2)) in H.
    now apply (RequestFacts.path_user_inj base fetch _ "") in H.
  - unfold ApiClient.updateProfile in H.
    rewrite <- (append_empty_r (Number_toString u1)),
            <- (append_empty_r (Number_toString u2)) in H.
    now apply (RequestFacts.path_user_inj base fetch "/users/" "") in H.
  - unfold ApiClient.chatWithPaper, ApiClient.request, ApiClient.post in H.
    cbn [snd init_body init_method init_headers JSON.stringify map JSON.join_comma fst snd] in H.
    injection H as H.
    rewrite !append_cons, !append_empty_l, !append_assoc, !append_cons in H.
    now apply RequestFacts.Number_toString_app_inj in H.
Qed.

(** Users 7 and 8 ask for advice. *)
Lemma requests_tell_users_apart_witness :
  let quiet : FetchFn Advice.t := fun _ => Throws (ThrownError "Failed to fetch") in
  snd (ApiClient.getAdvice "" quiet 7) <> snd (ApiClient.getAdvice "" quiet 8).
Proof.
  intros quiet. apply (proj1 (requests_tell_users_apart "" 7 8 ltac:(discriminate))).
Defined.

(** X8. [request] sends what its caller gave: the URL is the base URL
    followed by the endpoint, method and body are the caller's, every
    header of the caller is sent with the caller's value (a Content-Type
    of the caller included), and Content-Type application/json is added
    when the caller names none; no other header is sent. *)
Theorem request_passes_options_on :
  forall (base : string) (T : Type) (fetch : FetchFn T) (endpoint : string)
         (options : RequestInit),
  exists req,
    snd (ApiClient.request base fetch endpoint options) = [Fetch req]
    /\ url req = base +:+ endpoint
    /\ method req = init_method options
    /\ body req = init_body options
    /\ (forall h k v, init_headers options = Some h -> h !! k = Some v ->
          headers req !! k = Some v)
    /\ (forall k, (forall h, init_headers options = Some h -> h !! k = None) ->
          headers req !! k
          = if decide (k = "Content-Type") then Some "application/json" else None).
Proof.
  intros base T fetch endpoint options. unfold ApiClient.request. cbn [snd].
  eexists. split; [reflexivity|]. cbn [url method body headers].
  repeat apply conj; try reflexivity.
  - intros h k v -> Hk. unfold ApiClient.merge_headers.
    apply lookup_union_Some_l. exact Hk.
  - intros k Hk. unfold ApiClient.merge_headers, ApiClient.json_headers.
    destruct (init_headers options) as [h|].
    + rewrite lookup_union_r by (now apply Hk).
      case_decide as Hd; [subst k; apply lookup_singleton_eq|].
      apply lookup_singleton_ne. congruence.
    + case_decide as Hd; [subst k; apply lookup_singleton_eq|].
      apply lookup_singleton_ne. congruence.
Qed.

(** A caller that sends a form and a token. *)
Lemma request_passes_options_on_witness :
  let quiet : FetchFn unit := fun _ => Throws (ThrownError "Failed to fetch") in
  let given : gmap string string :=
    {[ "Content-Type" := "text/plain"; "Authorization" := "token" ]} in
  let options := {| init_method := Some "POST"; init_headers := Some given;
                    init_body := Some "hello" |} in
  exists req,
    snd (ApiClient.request "http://api" quiet "/echo" options) = [Fetch req]
    /\ headers req !! "Content-Type" = Some "text/plain"
    /\ headers req !! "Accept" = None.
Proof.
  intros quiet given options.
  destruct (request_passes_options_on "http://api" unit quiet "/echo" options)
    as (req & Hlog & _ & _ & _ & Hgiven & Hdefault).
  exists req. split; [exact Hlog|]. split.
  - apply (Hgiven given "Content-Type" "text/plain"); reflexivity.
  - rewrite (Hdefault "Accept"); [reflexivity|].
    intros h Hh. injection Hh as <-. reflexivity.
Defined.

(** ** The forms *)

(** X9. The login form asks the store to log in only when both fields
    are filled: otherwise it shows its own message, makes no request and
    leaves the session alone. When it does log in, it redirects to / only
    if the login succeeded, and otherwise shows the wrong-credentials
    message whatever made the login fail. *)
Theorem login_form_submits_filled_fields :
  forall (base : string) (fetch : FetchFn LoginResponse.t) (st : LoginPage.State)
         (s : AuthProvider.Session),
    let run := LoginPage.handleSubmit base fetch st s in
    let logged := AuthProvider.login base fetch (LoginPage.username st)
                    (LoginPage.password st) s in
    (LoginPage.username st = "" \/ LoginPage.password st = "" ->
       run = ((LoginPage.setError "아이디와 비밀번호를 입력해주세요." st, s), []))
    /\ (LoginPage.username st <> "" -> LoginPage.password st <> "" ->
          snd (fst run) = snd (fst logged)
          /\ (fst (fst logged) = true ->
                LoginPage.error (fst (fst run)) = ""
                /\ snd run = snd logged ++ [RouterPush "/"])
          /\ (fst (fst logged) = false ->
                LoginPage.error (fst (fst run)) = "아이디 또는 비밀번호가 올바르지 않습니다."
                /\ snd run = snd logged)).
Proof.
  intros base fetch st s. cbv zeta. unfold LoginPage.handleSubmit.
  cbn [LoginPage.username LoginPage.password LoginPage.setError]. split.
  - intros [H|H]; rewrite H; [reflexivity|].
    destruct (LoginPage.username st); reflexivity.
  - intros Hu Hp.
    destruct (LoginPage.username st) as [|c1 u] eqn:Eu; [now contradiction Hu|].
    destruct (LoginPage.password st) as [|c2 w] eqn:Ew; [now contradiction Hp|].
    destruct (AuthProvider.login base fetch (String c1 u) (String c2 w) s)
      as [[success s'] log].
    cbn [fst snd]. destruct success; cbn [fst snd LoginPage.error LoginPage.setError];
      repeat split; intros; try reflexivity; try discriminate.
Qed.

(** A form with no password, and one the backend lets in. *)
Lemma login_form_submits_filled_fields_witness :
  let accepted : FetchFn LoginResponse.t :=
    fun _ => Returns (ResponseOk (Returns (LoginResponse.mk 7 "kim" "NLP" "beginner"))) in
  let s := {| AuthProvider.user := None; AuthProvider.localStorage := ∅ |} in
  let half := {| LoginPage.username := "kim"; LoginPage.password := "";
                 LoginPage.error := "" |} in
  let full := {| LoginPage.username := "kim"; LoginPage.password := "pw";
                 LoginPage.error := "" |} in
  snd (LoginPage.handleSubmit "" accepted half s) = []
  /\ snd (LoginPage.handleSubmit "" accepted full s)
     = snd (AuthProvider.login "" accepted "kim" "pw" s) ++ [RouterPush "/"].
Proof.
  intros accepted s half full. split.
  - rewrite (proj1 (login_form_submits_filled_fields "" accepted half s));
      [reflexivity|]. right. reflexivity.
  - destruct (proj2 (login_form_submits_filled_fields "" accepted full s))
      as (_ & Hok & _); [discriminate|discriminate|].
    apply Hok. reflexivity.
Defined.

(** X10. Saving the profile with an empty interest only alerts and
    touches nothing. With an interest, [handleSave] leaves the session as
    [updateProfile] of the store leaves it, hides the save button and ends
    with the success alert in every case: also when the API call threw
    and the store has alerted the failure before. *)
Theorem handleSave_always_reports_success :
  forall (base : string) (fetch : FetchFn UpdateProfileResponse.t) (st : MyPage.State)
         (s : AuthProvider.Session),
    let run := MyPage.handleSave base fetch st s in
    let updated := AuthProvider.updateProfile base fetch (MyPage.interestInput st)
                     (MyPage.difficulty st) s in
    (MyPage.interestInput st = "" ->
       run = ((st, s), [Alert "관심 분야를 입력해주세요."]))
    /\ (MyPage.interestInput st <> "" ->
          snd (fst run) = snd (fst updated)
          /\ MyPage.hasChanges (fst (fst run)) = false
          /\ snd run = snd updated ++ [Alert "프로필이 성공적으로 업데이트되었습니다."]).
Proof.
  intros base fetch st s. cbv zeta. unfold MyPage.handleSave. split.
  - intros ->. reflexivity.
  - intros Hne. destruct (MyPage.interestInput st) as [|c i] eqn:Ei; [now contradiction Hne|].
    destruct (AuthProvider.updateProfile base fetch (String c i) (MyPage.difficulty st) s)
      as [[success s'] log].
    repeat split.
Qed.

(** A save while the network is down: the failure alert of the store is
    followed by the success alert of the page. *)
Lemma handleSave_always_reports_success_witness :
  let down : FetchFn UpdateProfileResponse.t :=
    fun _ => Throws (ThrownError "Failed to fetch") in
  let kim := User.mk 7 "kim" "NLP" "beginner" in
  let s := {| AuthProvider.user := Some kim; AuthProvider.localStorage := ∅ |} in
  let form := {| MyPage.interestInput := "RAG"; MyPage.difficulty := "advanced";
                 MyPage.hasChanges := true |} in
  let blank := {| MyPage.interestInput := ""; MyPage.difficulty := "advanced";
                  MyPage.hasChanges := true |} in
  map (fun e => match e with Alert m => Some m | _ => None end)
      (snd (MyPage.handleSave "" down form s))
  = [None; None; Some "Failed to fetch"; Some "프로필이 성공적으로 업데이트되었습니다."]
  /\ snd (fst (MyPage.handleSave "" down form s)) = s
  /\ MyPage.handleSave "" down blank s = ((blank, s), [Alert "관심 분야를 입력해주세요."]).
Proof.
  intros down kim s form blank.
  destruct (proj2 (handleSave_always_reports_success "" down form s))
    as (Hs & _ & Hlog); [discriminate|].
  repeat apply conj.
  - rewrite Hlog. reflexivity.
  - rewrite Hs. reflexivity.
  - apply (proj1 (handleSave_always_reports_success "" down blank s)). reflexivity.
Defined.

(** X11. The save flag of the profile page is set by an effect that runs
    only in a commit in which a field or the user has changed, from the
    fields of the render it belongs to. At mount it reads the fields while
    they are still empty; in the next commit, with the fields copied from
    the user, the flag is false. After an edit of the interest the flag is
    true exactly when a field differs from the stored user. A commit in
    which nothing has changed runs no effect, so after a save that failed
    the flag stays false whatever the fields hold. *)
Theorem profile_form_tracks_changes :
  forall (base : string) (fetch : FetchFn UpdateProfileResponse.t) (u : User.t),
    let first := {| MyPage.interestInput := User.interest u;
                    MyPage.difficulty := User.level u;
                    MyPage.hasChanges := (negb (String.eqb "" (User.interest u))
                                          || negb (String.eqb "" (User.level u)))%bool |} in
    let filled := {| MyPage.interestInput := User.interest u;
                     MyPage.difficulty := User.level u;
                     MyPage.hasChanges := false |} in
    MyPage.commit None false (Some u) MyPage.initial = (first, [])
    /\ fst (MyPage.commit (Some MyPage.initial) false (Some u) first) = filled
    /\ (forall st, MyPage.commit (Some st) false (Some u) st = (st, []))
    /\ (forall st text,
          text <> MyPage.interestInput st ->
          exists flag,
            MyPage.commit (Some st) false (Some u) (MyPage.setInterestInput text st)
            = ({| MyPage.interestInput := text; MyPage.difficulty := MyPage.difficulty st;
                  MyPage.hasChanges := flag |}, [])
            /\ (flag = true <-> text <> User.interest u \/ MyPage.difficulty st <> User.level u))
    /\ (forall st s e,
          AuthProvider.user s = Some u ->
          MyPage.interestInput st <> "" ->
          fst (ApiClient.updateProfile base fetch (User.id u)
                 {| ProfileData.interest := MyPage.interestInput st;
                    ProfileData.level := MyPage.difficulty st |}) = Throws e ->
          let saved := {| MyPage.interestInput := MyPage.interestInput st;
                          MyPage.difficulty := MyPage.difficulty st;
                          MyPage.hasChanges := false |} in
          fst (MyPage.handleSave base fetch st s) = (saved, s)
          /\ MyPage.commit (Some st) false (Some u) saved = (saved, [])).
Proof.
  intros base fetch u. cbv zeta. repeat apply conj.
  - reflexivity.
  - unfold MyPage.commit, MyPage.initial.
    cbn [MyPage.interestInput MyPage.difficulty MyPage.hasChanges].
    destruct (negb (String.eqb "" (User.interest u)) || negb (String.eqb "" (User.level u)))%bool
      eqn:Hd.
    + unfold MyPage.useEffect_changes.
      cbn [fst MyPage.interestInput MyPage.difficulty MyPage.hasChanges].
      rewrite !String.eqb_refl. reflexivity.
    + reflexivity.
  - intros st. unfold MyPage.commit. rewrite !String.eqb_refl. reflexivity.
  - intros st text Hne. unfold MyPage.commit, MyPage.setInterestInput.
    cbn [MyPage.interestInput MyPage.difficulty MyPage.hasChanges].
    assert (Hb : String.eqb (MyPage.interestInput st) text = false).
    { apply String.eqb_neq. congruence. }
    rewrite Hb. cbn [negb orb]. unfold MyPage.useEffect_changes.
    cbn [MyPage.interestInput MyPage.difficulty MyPage.hasChanges].
    eexists. split; [reflexivity|]. split.
    + intros H. apply orb_true_iff in H.
      destruct H as [H|H]; apply negb_true_iff, String.eqb_neq in H; tauto.
    + intros [H|H]; apply String.eqb_neq in H; rewrite H; cbn;
        [reflexivity|apply orb_true_r].
  - intros st s e Hu Hne Hthrow. split.
    + unfold MyPage.handleSave.
      destruct (MyPage.interestInput st) as [|c i] eqn:Ei; [now contradiction Hne|].
      unfold AuthProvider.updateProfile. rewrite Hu.
      destruct (ApiClient.updateProfile base fetch (User.id u) _) as [r log].
      cbn [fst] in Hthrow. subst r. reflexivity.
    + unfold MyPage.commit.
      cbn [MyPage.interestInput MyPage.difficulty]. rewrite !String.eqb_refl. reflexivity.
Qed.

(** Kim opens the profile page, types a new interest and saves while the
    network is down: the save button is gone although the form still
    differs from the stored user. *)
Lemma profile_form_tracks_changes_witness :
  let down : FetchFn UpdateProfileResponse.t :=
    fun _ => Throws (ThrownError "Failed to fetch") in
  let kim := User.mk 7 "kim" "NLP" "beginner" in
  let s := {| AuthProvider.user := Some kim; AuthProvider.localStorage := ∅ |} in
  let form (interest : string) (flag : bool) :=
    {| MyPage.interestInput := interest; MyPage.difficulty := "beginner";
       MyPage.hasChanges := flag |} in
  MyPage.commit None false (Some kim) MyPage.initial = (form "NLP" true, [])
  /\ fst (MyPage.commit (Some MyPage.initial) false (Some kim) (form "NLP" true))
     = form "NLP" false
  /\ (exists flag,
        MyPage.commit (Some (form "NLP" false)) false (Some kim)
          (MyPage.setInterestInput "RAG" (form "NLP" false))
        = (form "RAG" flag, [])
        /\ (flag = true <-> "RAG" <> "NLP" \/ "beginner" <> "beginner"))
  /\ fst (MyPage.handleSave "" down (form "RAG" true) s) = (form "RAG" false, s)
  /\ MyPage.commit (Some (form "RAG" true)) false (Some kim) (form "RAG" false)
     = (form "RAG" false, [])
  /\ MyPage.saveShown <$> MyPage.render (Some kim) (form "RAG" false) = Some false.
Proof.
  intros down kim s form.
  destruct (profile_form_tracks_changes "" down kim)
    as (Hmount & Hnext & _ & Hedit & Hsave).
  destruct (Hsave (form "RAG" true) s (ThrownError "Failed to fetch"))
    as (Hsaved & Hstays); [reflexivity|discriminate|reflexivity|].
  repeat apply conj.
  - exact Hmount.
  - exact Hnext.
  - apply (Hedit (form "NLP" false) "RAG"). discriminate.
  - exact Hsaved.
  - exact Hstays.
  - reflexivity.
Defined.

(** ** The home page *)

(** X12. [handleChangeInterest] does nothing unless the advice shown is
    an interest change with a non-empty suggestion. Then it asks the
    backend first: on success the stored user takes the suggested interest
    and keeps everything else, in memory and under key "user", the user is
    told, and the advice is fetched again; on failure neither the session
    nor the page changes and the failure is alerted. *)
Theorem handleChangeInterest_updates_after_accept :
  forall (base : string) (fetchAccept : FetchFn AcceptInterestResponse.t)
         (fetchAdv : FetchFn Advice.t) (u : User.t) (st : HomePage.State)
         (s : AuthProvider.Session),
    AuthProvider.user s = Some u ->
    let run := HomePage.handleChangeInterest base fetchAccept fetchAdv u st s in
    ((forall a suggested,
         HomePage.advice st = Some a -> Advice.advice_type a = Advice.interest_change ->
         Advice.suggested_interest a = Some suggested -> suggested = "") ->
       run = ((st, s), []))
    /\ (forall a suggested,
          HomePage.advice st = Some a -> Advice.advice_type a = Advice.interest_change ->
          Advice.suggested_interest a = Some suggested -> suggested <> "" ->
          let api := ApiClient.acceptInterestChange base fetchAccept (User.id u) suggested in
          (forall response, fst api = Returns response ->
             AuthProvider.user (snd (fst run))
             = Some {| User.id := User.id u; User.username := User.username u;
                       User.interest := suggested; User.level := User.level u |}
             /\ AuthProvider.consistent (snd (fst run))
             /\ fst (fst run) = fst (HomePage.fetchAdvice base fetchAdv (Some u) st)
             /\ snd run = snd api ++ [Alert "관심 분야가 변경되었습니다."]
                          ++ snd (HomePage.fetchAdvice base fetchAdv (Some u) st))
          /\ (forall e, fst api = Throws e ->
                fst run = (st, s)
                /\ snd run = snd api ++ [ConsoleError "Failed to change interest:" e;
                                         Alert "관심 분야 변경에 실패했습니다."])).
Proof.
  intros base fetchAccept fetchAdv u st s Hu. cbv zeta.
  unfold HomePage.handleChangeInterest. split.
  - intros Hnone. destruct (HomePage.advice st) as [a|]; [|reflexivity].
    destruct (Advice.advice_type a) eqn:Ht; try reflexivity;
      try (destruct (Advice.suggested_interest a) as [[|c r]|]; reflexivity).
    destruct (Advice.suggested_interest a) as [[|c r]|] eqn:Hs; try reflexivity.
    discriminate (Hnone a (String c r) eq_refl Ht Hs).
  - intros a suggested Ha Ht Hs Hne. rewrite Ha, Ht, Hs.
    destruct suggested as [|c r]; [now contradiction Hne|].
    destruct (ApiClient.acceptInterestChange base fetchAccept (User.id u) (String c r))
      as [[response|e] log]; cbn [fst snd]; split.
    + intros _ _.
      destruct (HomePage.fetchAdvice base fetchAdv (Some u) st) as [st' log'].
      cbn [fst snd]. repeat apply conj; try reflexivity.
      * unfold AuthProvider.updateInterest. rewrite Hu. reflexivity.
      * unfold AuthProvider.updateInterest. rewrite Hu. apply AuthFacts.consistent_store.
    + intros e H. discriminate H.
    + intros response H. discriminate H.
    + intros e' H. injection H as <-. split; reflexivity.
Qed.

(** Kim accepts the suggestion to move from NLP to RAG. *)
Lemma handleChangeInterest_updates_after_accept_witness :
  let kim := User.mk 7 "kim" "NLP" "beginner" in
  let s := {| AuthProvider.user := Some kim; AuthProvider.localStorage := ∅ |} in
  let suggestion := {| Advice.advice_type := Advice.interest_change;
                       Advice.current_interest := Some "NLP";
                       Advice.suggested_interest := Some "RAG";
                       Advice.current_level := None; Advice.suggested_level := None;
                       Advice.reason := Some "RAG?"; Advice.message := None;
                       Advice.comprehension_score := None |} in
  let quiet := {| Advice.advice_type := Advice.none;
                  Advice.current_interest := None; Advice.suggested_interest := None;
                  Advice.current_level := None; Advice.suggested_level := None;
                  Advice.reason := None; Advice.message := Some "Keep going";
                  Advice.comprehension_score := None |} in
  let accepted := AcceptInterestResponse.mk 7 "RAG" "ok" in
  let fetchAccept : FetchFn AcceptInterestResponse.t :=
    fun _ => Returns (ResponseOk (Returns accepted)) in
  let fetchAdv : FetchFn Advice.t := fun _ => Returns (ResponseOk (Returns quiet)) in
  let shown := fst (HomePage.fetchAdvice "" (fun _ => Returns (ResponseOk (Returns suggestion)))
                      (Some kim) HomePage.initial) in
  AuthProvider.user (snd (fst (HomePage.handleChangeInterest "" fetchAccept fetchAdv kim
                                 shown s)))
  = Some (User.mk 7 "kim" "RAG" "beginner")
  /\ HomePage.handleChangeInterest "" fetchAccept fetchAdv kim HomePage.initial s
     = ((HomePage.initial, s), []).
Proof.
  intros kim s suggestion quiet accepted fetchAccept fetchAdv shown. split.
  - destruct (proj2 (handleChangeInterest_updates_after_accept "" fetchAccept fetchAdv kim
                       shown s eq_refl) suggestion "RAG" eq_refl eq_refl eq_refl
                    ltac:(discriminate)) as [Hok _].
    apply (Hok accepted). reflexivity.
  - apply (proj1 (handleChangeInterest_updates_after_accept "" fetchAccept fetchAdv kim
                    HomePage.initial s eq_refl)).
    intros a suggested Ha. discriminate Ha.
Defined.

(** X13. [handleChangeLevel] is the same for the level: nothing happens
    unless the advice shown is a level change with a non-empty suggestion;
    after the backend has accepted it the stored user takes the suggested
    level and keeps everything else, and the advice is fetched again; on
    failure neither the session nor the page changes. *)
Theorem handleChangeLevel_updates_after_accept :
  forall (base : string) (fetchAccept : FetchFn AcceptLevelResponse.t)
         (fetchAdv : FetchFn Advice.t) (u : User.t) (st : HomePage.State)
         (s : AuthProvider.Session),
    AuthProvider.user s = Some u ->
    let run := HomePage.handleChangeLevel base fetchAccept fetchAdv u st s in
    ((forall a suggested,
         HomePage.advice st = Some a -> Advice.advice_type a = Advice.level_change ->
         Advice.suggested_level a = Some suggested -> suggested = "") ->
       run = ((st, s), []))
    /\ (forall a suggested,
          HomePage.advice st = Some a -> Advice.advice_type a = Advice.level_change ->
          Advice.suggested_level a = Some suggested -> suggested <> "" ->
          let api := ApiClient.acceptLevelChange base fetchAccept (User.id u) suggested in
          (forall response, fst api = Returns response ->
             AuthProvider.user (snd (fst run))
             = Some {| User.id := User.id u; User.username := User.username u;
                       User.interest := User.interest u; User.level := suggested |}
             /\ AuthProvider.consistent (snd (fst run))
             /\ fst (fst run) = fst (HomePage.fetchAdvice base fetchAdv (Some u) st)
             /\ snd run = snd api ++ [Alert "난이도가 변경되었습니다."]
                          ++ snd (HomePage.fetchAdvice base fetchAdv (Some u) st))
          /\ (forall e, fst api = Throws e ->
                fst run = (st, s)
                /\ snd run = snd api ++ [ConsoleError "Failed to change level:" e;
                                         Alert "난이도 변경에 실패했습니다."])).
Proof.
  intros base fetchAccept fetchAdv u st s Hu. cbv zeta.
  unfold HomePage.handleChangeLevel. split.
  - intros Hnone. destruct (HomePage.advice st) as [a|]; [|reflexivity].
    destruct (Advice.advice_type a) eqn:Ht; try reflexivity;
      try (destruct (Advice.suggested_level a) as [[|c r]|]; reflexivity).
    destruct (Advice.suggested_level a) as [[|c r]|] eqn:Hs; try reflexivity.
    discriminate (Hnone a (String c r) eq_refl Ht Hs).
  - intros a suggested Ha Ht Hs Hne. rewrite Ha, Ht, Hs.
    destruct suggested as [|c r]; [now contradiction Hne|].
    destruct (ApiClient.acceptLevelChange base fetchAccept (User.id u) (String c r))
      as [[response|e] log]; cbn [fst snd]; split.
    + intros _ _.
      destruct (HomePage.fetchAdvice base fetchAdv (Some u) st) as [st' log'].
      cbn [fst snd]. repeat apply conj; try reflexivity.
      * unfold AuthProvider.updateLevel. rewrite Hu. reflexivity.
      * unfold AuthProvider.updateLevel. rewrite Hu. apply AuthFacts.consistent_store.
    + intros e H. discriminate H.
    + intros response H. discriminate H.
    + intros e' H. injection H as <-. split; reflexivity.
Qed.

(** The backend refuses to raise Kim's level. *)
Lemma handleChangeLevel_updates_after_accept_witness :
  let kim := User.mk 7 "kim" "NLP" "beginner" in
  let s := {| AuthProvider.user := Some kim; AuthProvider.localStorage := ∅ |} in
  let suggestion := {| Advice.advice_type := Advice.level_change;
                       Advice.current_interest := None; Advice.suggested_interest := None;
                       Advice.current_level := Some "beginner";
                       Advice.suggested_level := Some "intermediate";
                       Advice.reason := Some "Ready?"; Advice.message := None;
                       Advice.comprehension_score := None |} in
  let down : FetchFn AcceptLevelResponse.t := fun _ => Throws (ThrownError "Failed to fetch") in
  let fetchAdv : FetchFn Advice.t := fun _ => Returns (ResponseOk (Returns suggestion)) in
  let shown := fst (HomePage.fetchAdvice "" fetchAdv (Some kim) HomePage.initial) in
  fst (HomePage.handleChangeLevel "" down fetchAdv kim shown s) = (shown, s)
  /\ HomePage.handleChangeLevel "" down fetchAdv kim HomePage.initial s
     = ((HomePage.initial, s), []).
Proof.
  intros kim s suggestion down fetchAdv shown. split.
  - destruct (proj2 (handleChangeLevel_updates_after_accept "" down fetchAdv kim
                       shown s eq_refl) suggestion "intermediate" eq_refl eq_refl eq_refl
                    ltac:(discriminate)) as [_ Hfail].
    apply (Hfail (ThrownError "Failed to fetch")). reflexivity.
  - apply (proj1 (handleChangeLevel_updates_after_accept "" down fetchAdv kim
                    HomePage.initial s eq_refl)).
    intros a suggested Ha. discriminate Ha.
Defined.

(** X14. [handleAddPaper] does nothing without a user and only alerts for
    a blank arXiv id. Otherwise it makes one request, the same whoever is
    logged in; when the backend accepts, its message is alerted and the
    field is cleared; when the call fails the field keeps its text; in both
    cases the adding flag is down at the end. *)
Theorem handleAddPaper_outcomes :
  forall (base : string) (fetch : FetchFn AddPaperResponse.t) (st : HomePage.State),
    HomePage.handleAddPaper base fetch None st = (st, [])
    /\ (forall u, all_whitespace (HomePage.arxivId st) = true ->
          HomePage.handleAddPaper base fetch (Some u) st
          = (st, [Alert "arXiv ID를 입력해주세요."]))
    /\ (forall u1 u2, HomePage.handleAddPaper base fetch (Some u1) st
                      = HomePage.handleAddPaper base fetch (Some u2) st)
    /\ (forall u, all_whitespace (HomePage.arxivId st) = false ->
          let run := HomePage.handleAddPaper base fetch (Some u) st in
          let api := ApiClient.addPaperByArxivId base fetch (HomePage.arxivId st) 3 in
          HomePage.isAddingPaper (fst run) = false
          /\ (forall response, fst api = Returns response ->
                HomePage.arxivId (fst run) = ""
                /\ snd run = snd api ++ [Alert (AddPaperResponse.message response)])
          /\ (forall e, fst api = Throws e ->
                HomePage.arxivId (fst run) = HomePage.arxivId st
                /\ snd run = snd api ++ [ConsoleError "Failed to add paper:" e;
                                         Alert "논문 추가에 실패했습니다."])).
Proof.
  intros base fetch st. unfold HomePage.handleAddPaper. repeat apply conj.
  - reflexivity.
  - intros u ->. reflexivity.
  - intros u1 u2. reflexivity.
  - intros u ->. cbv zeta.
    change (ApiClient.addPaperByArxivId base fetch (HomePage.arxivId st) (User.id u))
      with (ApiClient.addPaperByArxivId base fetch (HomePage.arxivId st) 3).
    destruct (ApiClient.addPaperByArxivId base fetch (HomePage.arxivId st) 3)
      as [[response|e] log]; cbn [fst snd]; repeat apply conj; try reflexivity.
    + intros r H. injection H as <-. split; reflexivity.
    + intros e H. discriminate H.
    + intros r H. discriminate H.
    + intros e' H. injection H as <-. split; reflexivity.
Qed.

(** An arXiv id the backend accepts, and a field of blanks. *)
Lemma handleAddPaper_outcomes_witness :
  let accepted : FetchFn AddPaperResponse.t :=
    fun _ => Returns (ResponseOk (Returns (AddPaperResponse.mk "added"))) in
  let kim := User.mk 7 "kim" "NLP" "beginner" in
  let typed := HomePage.setArxivId "2005.11401" HomePage.initial in
  let blank := HomePage.setArxivId "  " HomePage.initial in
  HomePage.handleAddPaper "" accepted (Some kim) blank
  = (blank, [Alert "arXiv ID를 입력해주세요."])
  /\ HomePage.arxivId (fst (HomePage.handleAddPaper "" accepted (Some kim) typed)) = "".
Proof.
  intros accepted kim typed blank.
  destruct (handleAddPaper_outcomes "" accepted blank) as (_ & Hblank & _ & _).
  destruct (handleAddPaper_outcomes "" accepted typed) as (_ & _ & _ & Hsend).
  split.
  - apply Hblank. reflexivity.
  - destruct (Hsend kim eq_refl) as (_ & Hok & _).
    apply (Hok (AddPaperResponse.mk "added")). reflexivity.
Defined.

(** ** The chat and history pages *)

Module ChatFacts.
Import ChatPage.

(** The transcript of a chat history: question and answer of the i-th
    exchange at places 2i and 2i+1. *)
Lemma transcript_lookup (history : list PaperDetail.chat_t) (i : nat)
    (chat : PaperDetail.chat_t) :
  history !! i = Some chat ->
  let transcript :=
    flat_map (fun chat =>
                [ {| role := user_role; content := PaperDetail.question chat |};
                  {| role := assistant_role; content := PaperDetail.answer chat |} ])
             history in
  transcript !! (2 * i)%nat
  = Some {| role := user_role; content := PaperDetail.question chat |}
  /\ transcript !! (2 * i + 1)%nat
     = Some {| role := assistant_role; content := PaperDetail.answer chat |}.
Proof.
  cbv zeta. revert i. induction history as [|c history IH]; intros i Hi; [discriminate|].
  destruct i as [|i].
  - cbn in Hi. injection Hi as ->. split; reflexivity.
  - cbn in Hi. destruct (IH i Hi) as [H0 H1].
    replace (2 * S i)%nat with (S (S (2 * i))) by lia.
    replace (S (S (2 * i)) + 1)%nat with (S (S (2 * i + 1))) by lia.
    cbn [flat_map app]. split; assumption.
Qed.

Lemma transcript_length (history : list PaperDetail.chat_t) :
  length (flat_map (fun chat =>
                      [ {| role := user_role; content := PaperDetail.question chat |};
                        {| role := assistant_role; content := PaperDetail.answer chat |} ])
                   history)
  = (2 * length history)%nat.
Proof.
  induction history as [|c history IH]; [reflexivity|].
  cbn [flat_map app length]. rewrite IH. lia.
Qed.

End ChatFacts.

(** X15. When the paper is fetched, the chat page shows its history as a
    transcript: the question and the answer of the i-th exchange, in that
    order, at places 2i and 2i+1 and nothing else; a paper with no history
    gets the one greeting that names its title, so the transcript is never
    empty. When the fetch fails the transcript is left as it was and the
    error is set. *)
Theorem fetchPaperInfo_builds_transcript :
  forall (base : string) (paperId : Z) (fetch : FetchFn PaperDetail.t) (u : User.t)
         (st : ChatPage.State),
    let api := ApiClient.getPaperDetail base fetch paperId (User.id u) in
    let st' := fst (ChatPage.fetchPaperInfo base paperId fetch (Some u) st) in
    (forall data, fst api = Returns data ->
       ChatPage.isFetchingPaper st' = false
       /\ ChatPage.error st' = None
       /\ ChatPage.messages st' <> []
       /\ (PaperDetail.chat_history data = [] ->
             ChatPage.messages st'
             = [ {| ChatPage.role := ChatPage.assistant_role;
                    ChatPage.content := ChatPage.greeting (PaperDetail.title data) |} ])
       /\ (PaperDetail.chat_history data <> [] ->
             length (ChatPage.messages st')
             = (2 * length (PaperDetail.chat_history data))%nat)
       /\ (forall i chat, PaperDetail.chat_history data !! i = Some chat ->
             ChatPage.messages st' !! (2 * i)%nat
             = Some {| ChatPage.role := ChatPage.user_role;
                       ChatPage.content := PaperDetail.question chat |}
             /\ ChatPage.messages st' !! (2 * i + 1)%nat
                = Some {| ChatPage.role := ChatPage.assistant_role;
                          ChatPage.content := PaperDetail.answer chat |}))
    /\ (forall e, fst api = Throws e ->
          ChatPage.messages st' = ChatPage.messages st
          /\ ChatPage.isFetchingPaper st' = false
          /\ ChatPage.error st' = Some "논문 정보를 불러오는데 실패했습니다.").
Proof.
  intros base paperId fetch u st. cbv zeta. unfold ChatPage.fetchPaperInfo.
  destruct (ApiClient.getPaperDetail base fetch paperId (User.id u)) as [[data|e] log];
    cbn [fst snd]; split.
  - intros d H. injection H as <-.
    cbn [ChatPage.isFetchingPaper ChatPage.error ChatPage.messages].
    destruct (PaperDetail.chat_history data) as [|c history] eqn:Hh.
    + cbn [flat_map]. repeat apply conj; try reflexivity.
      * discriminate.
      * intros H. now contradiction H.
      * intros i chat Hi. destruct i; discriminate Hi.
    + pose proof (ChatFacts.transcript_length (c :: history)) as Hlen.
      pose proof (ChatFacts.transcript_lookup (c :: history)) as Hlook.
      cbv zeta in Hlook. cbn [flat_map app] in *.
      repeat apply conj; try reflexivity.
      * discriminate.
      * intros H. discriminate H.
      * intros _. exact Hlen.
      * intros i chat Hi. exact (Hlook i chat Hi).
  - intros e H. discriminate H.
  - intros d H. discriminate H.
  - intros e' _. repeat split.
Qed.

(** A paper with one earlier exchange, and a paper with none. *)
Lemma fetchPaperInfo_builds_transcript_witness :
  let paper (history : list PaperDetail.chat_t) :=
    PaperDetail.mk 42 "RAG" ["Lewis"] "2020-05-22" "arXiv" "2005.11401" "" ""
      (PaperDetail.mk_summary "intermediate" "")
      (PaperDetail.mk_metadata 1523 (452 # 10) 234 ["RAG"]) history in
  let asked := PaperDetail.mk_chat 1 "Why retrieve?" "To ground answers." "2024-01-15" in
  let kim := User.mk 7 "kim" "NLP" "beginner" in
  let serve (history : list PaperDetail.chat_t) : FetchFn PaperDetail.t :=
    fun _ => Returns (ResponseOk (Returns (paper history))) in
  let down : FetchFn PaperDetail.t := fun _ => Throws (ThrownError "Failed to fetch") in
  ChatPage.messages (fst (ChatPage.fetchPaperInfo "" 42 (serve [asked]) (Some kim)
                            ChatPage.initial))
  = [ {| ChatPage.role := ChatPage.user_role; ChatPage.content := "Why retrieve?" |};
      {| ChatPage.role := ChatPage.assistant_role; ChatPage.content := "To ground answers." |} ]
  /\ ChatPage.messages (fst (ChatPage.fetchPaperInfo "" 42 (serve []) (Some kim)
                               ChatPage.initial))
     = [ {| ChatPage.role := ChatPage.assistant_role;
            ChatPage.content := ChatPage.greeting "RAG" |} ]
  /\ ChatPage.messages (fst (ChatPage.fetchPaperInfo "" 42 down (Some kim) ChatPage.initial))
     = [].
Proof.
  intros paper asked kim serve down. repeat apply conj.
  - destruct (proj1 (fetchPaperInfo_builds_transcript "" 42 (serve [asked]) kim
                       ChatPage.initial) (paper [asked]) eq_refl)
      as (_ & _ & _ & _ & Hlen & Hat).
    specialize (Hlen ltac:(discriminate)). destruct (Hat 0%nat asked eq_refl) as [H0 H1].
    destruct (ChatPage.messages _) as [|m0 [|m1 [|m2 rest]]]; try discriminate Hlen.
    cbn in H0, H1. injection H0 as ->. injection H1 as ->. reflexivity.
  - destruct (proj1 (fetchPaperInfo_builds_transcript "" 42 (serve []) kim
                       ChatPage.initial) (paper []) eq_refl)
      as (_ & _ & _ & Hgreet & _).
    apply Hgreet. reflexivity.
  - destruct (proj2 (fetchPaperInfo_builds_transcript "" 42 down kim ChatPage.initial)
                    (ThrownError "Failed to fetch") eq_refl) as (Hm & _).
    exact Hm.
Defined.

(** X16. The send button of the chat page tells the truth: it is
    disabled exactly when [handleSend] would return at once, changing
    nothing and sending nothing. *)
Theorem send_button_matches_handleSend :
  forall (base : string) (paperId : Z) (fetch : FetchFn ChatResponse.t) (u : User.t)
         (st : ChatPage.State) (title : string) (keywords : list string)
         (transcript : list ChatPage.Message) (typing : bool) (draft : string)
         (sendDisabled : bool),
    ChatPage.render (Some u) st
    = Some (ChatPage.ChatScreen title keywords transcript typing draft sendDisabled) ->
    (sendDisabled = true
     <-> ChatPage.handleSend base paperId fetch (Some u) st
         = ({| ChatPage.at_await := None; ChatPage.at_end := st |}, []))
    /\ (sendDisabled = false
        <-> exists req, In (Fetch req) (snd (ChatPage.handleSend base paperId fetch (Some u) st))).
Proof.
  intros base paperId fetch u st title keywords transcript typing draft sendDisabled Hr.
  assert (Hd : sendDisabled
               = (all_whitespace (ChatPage.input st) || ChatPage.isLoading st)%bool).
  { unfold ChatPage.render in Hr. destruct (ChatPage.isFetchingPaper st); [discriminate|].
    destruct (ChatPage.error st) as [[|c m]|]; try discriminate;
      injection Hr as _ _ _ _ _ <-; reflexivity. }
  subst sendDisabled. unfold ChatPage.handleSend.
  destruct (all_whitespace (ChatPage.input st) || ChatPage.isLoading st)%bool.
  - split; split; try reflexivity; try discriminate.
    intros [req []].
  - assert (Hlog : exists req, snd (ApiClient.chatWithPaper base fetch paperId (User.id u)
                                      (ChatPage.input st)) = [Fetch req]).
    { unfold ApiClient.chatWithPaper, ApiClient.request. cbn [snd]. eauto. }
    destruct Hlog as [req Hlog].
    destruct (ApiClient.chatWithPaper base fetch paperId (User.id u) (ChatPage.input st))
      as [[response|e] log]; cbn [fst snd] in *; subst log;
      (split; split; try reflexivity; try discriminate;
       intros _; exists req; left; reflexivity).
Qed.

(** A draft in the field, and an empty field. *)
Lemma send_button_matches_handleSend_witness :
  let down : FetchFn ChatResponse.t := fun _ => Throws (ThrownError "Failed to fetch") in
  let kim := User.mk 7 "kim" "NLP" "beginner" in
  let ready := {| ChatPage.paperTitle := "RAG"; ChatPage.paperKeywords := [];
                  ChatPage.messages := []; ChatPage.input := "";
                  ChatPage.isLoading := false; ChatPage.isFetchingPaper := false;
                  ChatPage.error := None |} in
  ChatPage.handleSend "" 42 down (Some kim) ready
  = ({| ChatPage.at_await := None; ChatPage.at_end := ready |}, [])
  /\ exists req, In (Fetch req)
                    (snd (ChatPage.handleSend "" 42 down (Some kim)
                            (ChatPage.setInput "Why?" ready))).
Proof.
  intros down kim ready. split.
  - apply (proj1 (send_button_matches_handleSend "" 42 down kim ready
                    "RAG" [] [] false "" true eq_refl)). reflexivity.
  - apply (proj2 (send_button_matches_handleSend "" 42 down kim
                    (ChatPage.setInput "Why?" ready) "RAG" [] [] false "Why?" false eq_refl)).
    reflexivity.
Defined.

(** X17. The history page lists every paper the history endpoint
    returns, in the server's order and without a cap; the empty notice is
    shown exactly when that list is empty. When the fetch fails the error
    is shown and neither a list nor the empty notice. *)
Theorem history_lists_all_papers :
  forall (base : string) (fetch : FetchFn PapersHistory.t) (u : User.t)
         (st : HistoryPage.State),
    let api := ApiClient.getPapersHistory base fetch (User.id u) in
    let st' := fst (HistoryPage.fetchHistory base fetch (Some u) st) in
    (forall data, fst api = Returns data ->
       exists view,
         HistoryPage.render (Some u) st' = Some view
         /\ HistoryPage.listed view = PapersHistory.papers data
         /\ (HistoryPage.emptyShown view = true <-> PapersHistory.papers data = [])
         /\ HistoryPage.loadingShown view = false
         /\ HistoryPage.errorShown view = None)
    /\ (forall e, fst api = Throws e ->
          exists view,
            HistoryPage.render (Some u) st' = Some view
            /\ HistoryPage.listed view = []
            /\ HistoryPage.emptyShown view = false
            /\ HistoryPage.loadingShown view = false
            /\ HistoryPage.errorShown view = Some "논문 이력을 불러오는데 실패했습니다.").
Proof.
  intros base fetch u st. cbv zeta. unfold HistoryPage.fetchHistory.
  destruct (ApiClient.getPapersHistory base fetch (User.id u)) as [[data|e] log];
    cbn [fst snd]; split.
  - intros d H. injection H as <-. eexists. split; [reflexivity|].
    cbn. repeat apply conj; try reflexivity.
    + destruct (PapersHistory.papers data); [reflexivity|discriminate].
    + intros ->. reflexivity.
  - intros e H. discriminate H.
  - intros d H. discriminate H.
  - intros e' _. eexists. split; [reflexivity|]. cbn. repeat split.
Qed.

(** A history of four papers, and a backend that is down. *)
Lemma history_lists_all_papers_witness :
  let paper_n (n : Z) := Paper.mk n "title" ["author"] "2024-01-15" false in
  let four := PapersHistory.mk [paper_n 1; paper_n 2; paper_n 3; paper_n 4] 4 in
  let server : FetchFn PapersHistory.t := fun _ => Returns (ResponseOk (Returns four)) in
  let down : FetchFn PapersHistory.t := fun _ => Throws (ThrownError "Failed to fetch") in
  let kim := User.mk 7 "kim" "NLP" "beginner" in
  (exists view,
     HistoryPage.render (Some kim)
       (fst (HistoryPage.fetchHistory "" server (Some kim) HistoryPage.initial)) = Some view
     /\ HistoryPage.listed view = [paper_n 1; paper_n 2; paper_n 3; paper_n 4])
  /\ (exists view,
        HistoryPage.render (Some kim)
          (fst (HistoryPage.fetchHistory "" down (Some kim) HistoryPage.initial)) = Some view
        /\ HistoryPage.listed view = []).
Proof.
  intros paper_n four server down kim. split.
  - destruct (proj1 (history_lists_all_papers "" server kim HistoryPage.initial) four eq_refl)
      as (view & Hv & Hl & _).
    exists view. split; assumption.
  - destruct (proj2 (history_lists_all_papers "" down kim HistoryPage.initial)
                    (ThrownError "Failed to fetch") eq_refl)
      as (view & Hv & Hl & _).
    exists view. split; assumption.
Defined.

(** ** The sign-up form *)

Module TrimFacts.

(** One step of [trimStart] and [all_whitespace]: the string is empty, or
    starts with something that is not white space, or starts with a white
    space character that both skip. *)
Lemma ws_step (s : string) :
  s = ""
  \/ (trimStart s = s /\ all_whitespace s = false)
  \/ (exists r, (String.length r < String.length s)%nat
                /\ trimStart s = trimStart r /\ all_whitespace s = all_whitespace r).
Proof.
  destruct s as [|b0 rest]; [left; reflexivity|right].
  cbn [trimStart all_whitespace].
  match goal with |- context [if ?c then _ else _] => destruct c end.
  { right. exists rest. cbn [String.length]. split; [lia|split; reflexivity]. }
  destruct rest as [|b1 rest1]; [left; split; reflexivity|].
  match goal with |- context [if ?c then _ else _] => destruct c end.
  { right. exists rest1. cbn [String.length]. split; [lia|split; reflexivity]. }
  destruct rest1 as [|b2 rest2]; [left; split; reflexivity|].
  match goal with |- context [if ?c then _ else _] => destruct c end.
  { right. exists rest2. cbn [String.length]. split; [lia|split; reflexivity]. }
  left. split; reflexivity.
Qed.

Lemma trimStart_spec (n : nat) (s : string) :
  (String.length s <= n)%nat ->
  (all_whitespace s = true -> trimStart s = "")
  /\ (all_whitespace s = false -> all_whitespace (trimStart s) = false).
Proof.
  revert s. induction n as [|n IH]; intros s Hlen.
  - destruct s; [|cbn in Hlen; lia]. split; [reflexivity|discriminate].
  - destruct (ws_step s) as [->|[[Hs Hw]|(r & Hr & Hs & Hw)]].
    + split; [reflexivity|discriminate].
    + rewrite Hs, Hw. split; [discriminate|reflexivity].
    + rewrite Hs, Hw. apply IH. lia.
Qed.

(** [!s.trim()] is [all_whitespace s]. *)
Lemma trim_empty_iff (s : string) : trim s = "" <-> all_whitespace s = true.
Proof.
  destruct (trimStart_spec (String.length s) s (le_n _)) as [Hws Hnot].
  unfold trim. split.
  - intros Ht. destruct (all_whitespace s) eqn:Hw; [reflexivity|].
    specialize (Hnot eq_refl). destruct (trimStart s) as [|c r]; [discriminate Hnot|].
    unfold trimEnd in Ht. fold trimEnd in Ht. rewrite Hnot in Ht. discriminate Ht.
  - intros Hw. rewrite (Hws Hw). reflexivity.
Qed.

Lemma is_empty_false (s : string) : SignupPage.is_empty s = false <-> s <> "".
Proof. destruct s; cbn; split; congruence. Qed.

End TrimFacts.

(** X18. The sign-up form registers only a complete form: with a field
    missing, passwords that differ, a blank interest or no level chosen it
    shows a message, makes no request and leaves the session alone.
    A complete form is registered with the interest trimmed, which is then
    not empty; the page redirects to / when the sign-up succeeded and
    otherwise shows the message that the name is taken, whatever made the
    sign-up fail. *)
Theorem signup_form_registers_complete_forms :
  forall (base : string) (fetch : FetchFn RegisterResponse.t) (st : SignupPage.State)
         (s : AuthProvider.Session),
    let run := SignupPage.handleSubmit base fetch st s in
    let complete :=
      SignupPage.username st <> "" /\ SignupPage.password st <> ""
      /\ SignupPage.confirmPassword st <> ""
      /\ SignupPage.password st = SignupPage.confirmPassword st
      /\ all_whitespace (SignupPage.interest st) = false
      /\ SignupPage.difficulty st <> "" in
    let signed := AuthProvider.signup base fetch (SignupPage.username st)
                    (SignupPage.password st) (trim (SignupPage.interest st))
                    (SignupPage.difficulty st) s in
    (~ complete ->
       snd run = [] /\ snd (fst run) = s /\ SignupPage.error (fst (fst run)) <> "")
    /\ (complete ->
          trim (SignupPage.interest st) <> ""
          /\ snd (fst run) = snd (fst signed)
          /\ (fst (fst signed) = true ->
                snd run = snd signed ++ [RouterPush "/"]
                /\ SignupPage.error (fst (fst run)) = "")
          /\ (fst (fst signed) = false ->
                snd run = snd signed
                /\ SignupPage.error (fst (fst run)) = "이미 존재하는 아이디입니다.")).
Proof.
  intros base fetch st s. cbv zeta. unfold SignupPage.handleSubmit.
  cbn [SignupPage.username SignupPage.password SignupPage.confirmPassword
       SignupPage.interest SignupPage.difficulty SignupPage.setError].
  destruct (SignupPage.is_empty (SignupPage.username st)) eqn:Eu.
  { cbn [orb]. split; [intros _; repeat split; discriminate|].
    intros (Hu & _). apply TrimFacts.is_empty_false in Hu. congruence. }
  destruct (SignupPage.is_empty (SignupPage.password st)) eqn:Ep.
  { cbn [orb]. split; [intros _; repeat split; discriminate|].
    intros (_ & Hp & _). apply TrimFacts.is_empty_false in Hp. congruence. }
  destruct (SignupPage.is_empty (SignupPage.confirmPassword st)) eqn:Ec.
  { cbn [orb]. split; [intros _; repeat split; discriminate|].
    intros (_ & _ & Hc & _). apply TrimFacts.is_empty_false in Hc. congruence. }
  cbn [orb].
  destruct (String.eqb (SignupPage.password st) (SignupPage.confirmPassword st)) eqn:Eq.
  2:{ cbn [negb]. split; [intros _; repeat split; discriminate|].
      intros (_ & _ & _ & Heq & _). apply String.eqb_neq in Eq. contradiction. }
  cbn [negb].
  destruct (SignupPage.is_empty (trim (SignupPage.interest st))) eqn:Ei.
  { split; [intros _; repeat split; discriminate|].
    intros (_ & _ & _ & _ & Hi & _).
    assert (Ht : trim (SignupPage.interest st) = "").
    { destruct (trim (SignupPage.interest st)); [reflexivity|discriminate Ei]. }
    apply TrimFacts.trim_empty_iff in Ht. congruence. }
  destruct (SignupPage.is_empty (SignupPage.difficulty st)) eqn:Ed.
  { split; [intros _; repeat split; discriminate|].
    intros (_ & _ & _ & _ & _ & Hd). apply TrimFacts.is_empty_false in Hd. congruence. }
  apply TrimFacts.is_empty_false in Eu, Ep, Ec, Ei, Ed. apply String.eqb_eq in Eq.
  split.
  - intros Hn. exfalso. apply Hn. repeat split; try assumption.
    destruct (all_whitespace (SignupPage.interest st)) eqn:Hw; [|reflexivity].
    apply TrimFacts.trim_empty_iff in Hw. contradiction.
  - intros _.
    destruct (AuthProvider.signup base fetch (SignupPage.username st)
                (SignupPage.password st) (trim (SignupPage.interest st))
                (SignupPage.difficulty st) s) as [[success s'] log].
    cbn [fst snd]. destruct success; cbn [fst snd SignupPage.error];
      repeat split; intros; try assumption; try reflexivity; try discriminate.
Qed.

(** A form whose passwords differ, and a complete form with blanks
    around the interest. *)
Lemma signup_form_registers_complete_forms_witness :
  let created := RegisterResponse.mk 8 "lee" "RAG" "beginner" "2024-01-15" in
  let accepted : FetchFn RegisterResponse.t :=
    fun _ => Returns (ResponseOk (Returns created)) in
  let s := {| AuthProvider.user := None; AuthProvider.localStorage := ∅ |} in
  let form (confirm : string) :=
    {| SignupPage.username := "lee"; SignupPage.password := "pw";
       SignupPage.confirmPassword := confirm; SignupPage.interest := "  RAG ";
       SignupPage.difficulty := "beginner"; SignupPage.error := "" |} in
  snd (SignupPage.handleSubmit "" accepted (form "pW") s) = []
  /\ trim "  RAG " <> ""
  /\ snd (SignupPage.handleSubmit "" accepted (form "pw") s)
     = snd (AuthProvider.signup "" accepted "lee" "pw" (trim "  RAG ") "beginner" s)
       ++ [RouterPush "/"].
Proof.
  intros created accepted s form.
  destruct (signup_form_registers_complete_forms "" accepted (form "pW") s) as [Hbad _].
  destruct (signup_form_registers_complete_forms "" accepted (form "pw") s) as [_ Hgood].
  repeat apply conj.
  - apply Hbad. intros (_ & _ & _ & H & _). discriminate H.
  - apply Hgood. repeat split; discriminate.
  - destruct Hgood as (_ & _ & Hok & _); [repeat split; discriminate|].
    apply Hok. reflexivity.
Defined.

(** The interest of that form as it is sent. *)
Example trim_strips_both_ends : trim "  RAG " = "RAG".
Proof. reflexivity. Qed.

(** ** The graph renderer, beyond positions and edges *)

Module LayoutFacts.
Import PaperGraph.

Lemma recommendedPositions_inv (nodes : list Node.t) (i : nat) (p : Positioned) :
  recommendedPositions nodes !! i = Some p ->
  Node.type (node p) = Node.recommended
  /\ x p = 100 + Z.of_nat i * 120 /\ y p = 150 /\ In (node p) nodes.
Proof.
  rewrite GraphFacts.recommendedPositions_lookup.
  destruct (recommendedNodes nodes !! i) as [n|] eqn:Hn; [|discriminate].
  cbn. intros H. injection H as <-. cbn [node x y].
  apply list_elem_of_lookup_2 in Hn. unfold recommendedNodes in Hn.
  apply list_elem_of_filter in Hn. destruct Hn as [Ht Hin].
  repeat split; try assumption. now apply list_elem_of_In.
Qed.

Lemma box_recommended (p : Positioned) :
  Node.type (node p) = Node.recommended ->
  box p = (inject_Z (x p - 40), inject_Z (y p - 20), 80%Q, 40%Q).
Proof. intros Ht. unfold box, node_element. rewrite Ht. reflexivity. Qed.

Lemma find_app_l {A : Type} (f : A -> bool) (l1 l2 : list A) (a : A) :
  In a l1 -> f a = true ->
  exists b, find f (l1 ++ l2) = Some b /\ In b l1 /\ f b = true.
Proof.
  intros Hin Hf. induction l1 as [|c l1 IH]; [destruct Hin|].
  cbn [app find]. destruct (f c) eqn:Hc.
  - exists c. repeat split; [now left|exact Hc].
  - destruct Hin as [->|Hin]; [congruence|].
    destruct (IH Hin) as (b & Hb & Hbin & Hfb). exists b. repeat split; [exact Hb|now right|exact Hfb].
Qed.

Lemma js_length_ascii (s : string) : is_ascii s -> js_length s = String.length s.
Proof.
  unfold is_ascii. induction s as [|c s IH]; [reflexivity|].
  cbn [list_ascii_of_string js_length String.length]. intros H.
  apply Forall_cons in H. destruct H as [Hc Hs].
  assert (H1 : (128 <=? N_of_ascii c)%N = false) by (apply N.leb_gt; exact Hc).
  assert (H2 : (240 <=? N_of_ascii c)%N = false) by (apply N.leb_gt; lia).
  rewrite H1, H2. cbn [andb]. rewrite (IH Hs). reflexivity.
Qed.

Lemma js_slice0_ascii (n : nat) (s : string) :
  is_ascii s -> js_slice0 n s = String.substring 0 n s.
Proof.
  unfold is_ascii. revert n. induction s as [|c s IH]; intros n H.
  - destruct n; reflexivity.
  - destruct n as [|n]; [reflexivity|].
    cbn [list_ascii_of_string] in H. apply Forall_cons in H. destruct H as [Hc Hs].
    cbn [js_slice0 String.substring].
    assert (H1 : (N_of_ascii c <? 192)%N = true) by (apply N.ltb_lt; lia).
    rewrite H1. now rewrite (IH n Hs).
Qed.

Lemma length_substring_le (n : nat) (s : string) :
  (String.length (String.substring 0 n s) <= n)%nat.
Proof.
  revert n. induction s as [|c s IH]; intros n.
  - destruct n; cbn; lia.
  - destruct n as [|n]; [cbn; lia|]. cbn [String.substring String.length].
    specialize (IH n). lia.
Qed.

End LayoutFacts.

(** X19. The boxes of the recommended nodes never overlap and never
    leave their row: the box of an earlier recommended node ends to the
    left of where the box of a later one begins, and all of them span the
    same 40 units of height from 130. *)
Theorem recommended_boxes_do_not_overlap :
  forall (nodes : list Node.t) (i j : nat) (pi pj : PaperGraph.Positioned),
    (i < j)%nat ->
    PaperGraph.recommendedPositions nodes !! i = Some pi ->
    PaperGraph.recommendedPositions nodes !! j = Some pj ->
    exists bi bj top,
      PaperGraph.box pi = (bi, top, 80%Q, 40%Q)
      /\ PaperGraph.box pj = (bj, top, 80%Q, 40%Q)
      /\ (top == 130)%Q
      /\ (bi + 80 < bj)%Q.
Proof.
  intros nodes i j pi pj Hij Hi Hj.
  apply LayoutFacts.recommendedPositions_inv in Hi, Hj.
  destruct Hi as (Hti & Hxi & Hyi & _), Hj as (Htj & Hxj & Hyj & _).
  rewrite (LayoutFacts.box_recommended pi Hti), (LayoutFacts.box_recommended pj Htj).
  rewrite Hxi, Hyi, Hxj, Hyj.
  eexists _, _, _. split; [reflexivity|]. split; [reflexivity|]. split.
  - reflexivity.
  - unfold Qlt, Qplus, inject_Z. cbn [Qnum Qden]. lia.
Qed.

(** Three recommended papers with a common reference among them. *)
Lemma recommended_boxes_do_not_overlap_witness :
  let nodes := [Node.mk 1 "Attention" Node.recommended;
                Node.mk 2 "RAG" Node.common_reference;
                Node.mk 3 "BERT" Node.recommended;
                Node.mk 4 "GPT" Node.recommended] in
  exists bi bj top,
    PaperGraph.box {| PaperGraph.node := Node.mk 1 "Attention" Node.recommended;
                      PaperGraph.x := 100; PaperGraph.y := 150 |} = (bi, top, 80%Q, 40%Q)
    /\ PaperGraph.box {| PaperGraph.node := Node.mk 4 "GPT" Node.recommended;
                         PaperGraph.x := 340; PaperGraph.y := 150 |} = (bj, top, 80%Q, 40%Q)
    /\ (top == 130)%Q
    /\ (bi + 80 < bj)%Q.
Proof.
  intros nodes.
  apply (recommended_boxes_do_not_overlap nodes 0%nat 2%nat); [lia|reflexivity|reflexivity].
Defined.

(** X20. Only the first three recommended nodes fit into the drawing:
    the box of the i-th recommended node lies within the 400 by 200 view
    box exactly when i is at most 2; later boxes are cut off or lie
    outside on the right. *)
Theorem recommended_boxes_fit_up_to_three :
  forall (nodes : list Node.t) (i : nat) (p : PaperGraph.Positioned),
    PaperGraph.recommendedPositions nodes !! i = Some p ->
    exists left top width height,
      PaperGraph.box p = (left, top, width, height)
      /\ (0 <= top /\ top + height <= PaperGraph.viewBox_height)%Q
      /\ ((0 <= left /\ left + width <= PaperGraph.viewBox_width)%Q <-> (i <= 2)%nat).
Proof.
  intros nodes i p Hi.
  apply LayoutFacts.recommendedPositions_inv in Hi. destruct Hi as (Ht & Hx & Hy & _).
  rewrite (LayoutFacts.box_recommended p Ht), Hx, Hy.
  eexists _, _, _, _. split; [reflexivity|].
  unfold PaperGraph.viewBox_height, PaperGraph.viewBox_width, Qle, Qplus, inject_Z.
  cbn [Qnum Qden]. split; [lia|]. split; [intros [_ H]|intros H; split]; lia.
Qed.

(** The fourth of four recommended papers. *)
Lemma recommended_boxes_fit_up_to_three_witness :
  let nodes := [Node.mk 1 "A" Node.recommended; Node.mk 2 "B" Node.recommended;
                Node.mk 3 "C" Node.recommended; Node.mk 4 "D" Node.recommended] in
  exists left top width height,
    PaperGraph.box {| PaperGraph.node := Node.mk 4 "D" Node.recommended;
                      PaperGraph.x := 460; PaperGraph.y := 150 |}
    = (left, top, width, height)
    /\ (0 <= top /\ top + height <= PaperGraph.viewBox_height)%Q
    /\ ((0 <= left /\ left + width <= PaperGraph.viewBox_width)%Q <-> (3 <= 2)%nat).
Proof.
  intros nodes.
  apply (recommended_boxes_fit_up_to_three nodes 3%nat). reflexivity.
Defined.

(** X21. When several nodes share an id, an edge to that id is drawn to
    a recommended one if there is any: [getNodePosition] then answers with
    a place in the row of recommended nodes, also when a common reference
    with the same id comes first in the input. *)
Theorem getNodePosition_prefers_recommended :
  forall (nodes : list Node.t) (n : Node.t),
    In n nodes -> Node.type n = Node.recommended ->
    exists p,
      PaperGraph.getNodePosition nodes (Node.id n) = Some p
      /\ Node.type (PaperGraph.node p) = Node.recommended
      /\ Node.id (PaperGraph.node p) = Node.id n
      /\ PaperGraph.y p = 150.
Proof.
  intros nodes n Hin Ht.
  assert (Hrec : n ∈ PaperGraph.recommendedNodes nodes).
  { unfold PaperGraph.recommendedNodes. apply list_elem_of_filter.
    split; [exact Ht|now apply list_elem_of_In]. }
  apply list_elem_of_lookup in Hrec. destruct Hrec as [i Hi].
  assert (Hp : In {| PaperGraph.node := n; PaperGraph.x := 100 + Z.of_nat i * 120;
                     PaperGraph.y := 150 |} (PaperGraph.recommendedPositions nodes)).
  { apply list_elem_of_In, list_elem_of_lookup. exists i.
    rewrite GraphFacts.recommendedPositions_lookup, Hi. reflexivity. }
  unfold PaperGraph.getNodePosition, PaperGraph.allNodePositions.
  destruct (LayoutFacts.find_app_l
              (fun q => Z.eqb (Node.id (PaperGraph.node q)) (Node.id n))
              (PaperGraph.recommendedPositions nodes) (PaperGraph.commonRefPositions nodes)
              _ Hp) as (b & Hb & Hbin & Hfb).
  { cbn. apply Z.eqb_refl. }
  exists b. split; [exact Hb|].
  apply list_elem_of_In, list_elem_of_lookup in Hbin. destruct Hbin as [k Hk].
  apply LayoutFacts.recommendedPositions_inv in Hk. destruct Hk as (Htb & _ & Hyb & _).
  repeat split; try assumption. now apply Z.eqb_eq.
Qed.

(** A reference listed first under the id of a recommended paper. *)
Lemma getNodePosition_prefers_recommended_witness :
  let shadow := Node.mk 1 "Survey" Node.common_reference in
  let paper := Node.mk 1 "Attention" Node.recommended in
  exists p,
    PaperGraph.getNodePosition [shadow; paper] 1 = Some p
    /\ Node.type (PaperGraph.node p) = Node.recommended
    /\ Node.id (PaperGraph.node p) = 1
    /\ PaperGraph.y p = 150.
Proof.
  intros shadow paper.
  apply (getNodePosition_prefers_recommended [shadow; paper] paper);
    [right; left|]; reflexivity.
Defined.

(** X22. The label of a recommended node is its title when the title has
    at most five characters and otherwise its first five characters
    followed by three dots, so it never has more than eight; the label of
    a common reference is always the whole title. (Stated for titles of
    ASCII characters, whose code units are their characters.) *)
Theorem labels_are_cut_to_five :
  forall (p : PaperGraph.Positioned),
    let title := Node.title (PaperGraph.node p) in
    (Node.type (PaperGraph.node p) = Node.common_reference -> PaperGraph.label p = title)
    /\ (Node.type (PaperGraph.node p) = Node.recommended -> PaperGraph.is_ascii title ->
          ((String.length title <= 5)%nat -> PaperGraph.label p = title)
          /\ ((5 < String.length title)%nat ->
                PaperGraph.label p = String.substring 0 5 title +:+ "...")
          /\ (String.length (PaperGraph.label p) <= 8)%nat).
Proof.
  intros p. cbv zeta. unfold PaperGraph.label, PaperGraph.node_element. split.
  - intros ->. reflexivity.
  - intros -> Ha. rewrite (LayoutFacts.js_length_ascii _ Ha), (LayoutFacts.js_slice0_ascii 5 _ Ha).
    destruct (Nat.ltb 5 (String.length (Node.title (PaperGraph.node p)))) eqn:Hl.
    + apply Nat.ltb_lt in Hl. repeat apply conj.
      * intros H. lia.
      * reflexivity.
      * rewrite JSONFacts.length_append.
        pose proof (LayoutFacts.length_substring_le 5 (Node.title (PaperGraph.node p))).
        cbn [String.length]. lia.
    + apply Nat.ltb_ge in Hl. repeat apply conj.
      * reflexivity.
      * intros H. lia.
      * lia.
Qed.

(** A long and a short title. *)
Lemma labels_are_cut_to_five_witness :
  let long := {| PaperGraph.node := Node.mk 1 "Attention" Node.recommended;
                 PaperGraph.x := 100; PaperGraph.y := 150 |} in
  let short := {| PaperGraph.node := Node.mk 3 "BERT" Node.recommended;
                  PaperGraph.x := 220; PaperGraph.y := 150 |} in
  let reference := {| PaperGraph.node := Node.mk 2 "Retrieval" Node.common_reference;
                      PaperGraph.x := 200; PaperGraph.y := 50 |} in
  PaperGraph.label long = "Atten..."
  /\ PaperGraph.label short = "BERT"
  /\ PaperGraph.label reference = "Retrieval".
Proof.
  intros long short reference. repeat apply conj.
  - apply (proj2 (labels_are_cut_to_five long) eq_refl).
    + repeat constructor.
    + cbn. lia.
  - apply (proj2 (labels_are_cut_to_five short) eq_refl).
    + repeat constructor.
    + cbn. lia.
  - apply (proj1 (labels_are_cut_to_five reference)). reflexivity.
Defined.

(** X23. Every box is centred on the place of its node: the middle of
    the rectangle drawn for a positioned node, of either type and with a
    title of any length, is the node's position. *)
Theorem boxes_are_centred :
  forall (p : PaperGraph.Positioned),
  exists left top width height,
    PaperGraph.box p = (left, top, width, height)
    /\ (left + width / 2 == inject_Z (PaperGraph.x p))%Q
    /\ (top + height / 2 == inject_Z (PaperGraph.y p))%Q.
Proof.
  intros p. unfold PaperGraph.box, PaperGraph.node_element.
  destruct (Node.type (PaperGraph.node p)); eexists _, _, _, _;
    (split; [reflexivity|]); split;
    try (unfold Z.sub; rewrite inject_Z_plus, inject_Z_opp); field.
Qed.
